(** * TuKJet/models, research/slim: evaluation driver and inference-graph exporter

    A shallow embedding of [eval_image_classifier.py] and [slim_exporter.py].
    Both scripts are call sequences against TensorFlow, tf_slim and the slim
    factories.  The scripts' own control flow is embedded statement by
    statement; the collaborators are embedded by their contract: the graph is
    a list of nodes, checkpoints are finite maps from variable names to
    values, and the calls whose outcome the scripts cannot know (factories,
    file-system probes, the evaluation loop) are answered by an environment
    record. *)

From Stdlib Require Import ZArith QArith String Ascii List.
From stdpp Require Import base gmap strings list option pretty.

Open Scope string_scope.
Open Scope list_scope.
Open Scope Z_scope.

(** ** Python exceptions and the state-and-exception monad *)

Inductive exn :=
| ValueError (msg : string)
| TypeError (msg : string)
| KeyError (msg : string)
| ZeroDivisionError (msg : string)
| FrameworkError (kind msg : string).

(** A computation reads and writes the state [S]; a raise keeps the state
    reached so far, as side effects done before a Python [raise] persist. *)
Definition M (S A : Type) : Type := S → S * (exn + A).

Definition M_ret {S A} (a : A) : M S A := λ s, (s, inr a).
Definition M_bind {S A B} (k : A → M S B) (c : M S A) : M S B :=
  λ s, match c s with
       | (s', inl e) => (s', inl e)
       | (s', inr a) => k a s'
       end.
Definition raise {S A} (e : exn) : M S A := λ s, (s, inl e).
Definition get_state {S} : M S S := λ s, (s, inr s).
Definition modify_state {S} (f : S → S) : M S unit := λ s, (f s, inr tt).
Definition lift_result {S A} (r : exn + A) : M S A := λ s, (s, r).

#[export] Instance M_MRet {S} : MRet (M S) := @M_ret S.
#[export] Instance M_MBind {S} : MBind (M S) := @M_bind S.

Fixpoint for_each {S A} (f : A → M S unit) (l : list A) : M S unit :=
  match l with
  | [] => mret tt
  | x :: l' => f x ;; for_each f l'
  end.

(** A computation on a state that carries a log of calls: it keeps the
    part [view] of the state, only appends calls that satisfy [P], and
    returns values that satisfy [Q]. *)
Definition logs {S V Ev : Type} (view : S → V) (events : S → list Ev)
    (v : V) (P : Ev → Prop) {A} (c : M S A) (Q : A → Prop) : Prop :=
  ∀ s s' r, view s = v → c s = (s', r) →
    view s' = v ∧
    (∃ evs, events s' = events s ++ evs ∧ Forall P evs) ∧
    (∀ a, r = inr a → Q a).

(** A computation that moves the state along the relation [R], whether it
    returns or raises. *)
Definition respects {S : Type} (R : S → S → Prop) {A} (c : M S A) : Prop :=
  ∀ s s' r, c s = (s', r) → R s s'.

(** ** Python values used by both scripts *)

(** [sub in s] on [str]: [sub] occurs in [s] as a contiguous substring. *)
Fixpoint str_contains (sub s : string) : bool :=
  String.prefix sub s ||
  match s with
  | EmptyString => false
  | String _ s' => str_contains sub s'
  end.

(** Truth value of an optional string flag: [None] and [''] are false. *)
Definition truthy_str (o : option string) : bool :=
  match o with
  | Some s => negb (String.eqb s "")
  | None => false
  end.

(** Truth value of an optional integer flag: [None] and [0] are false. *)
Definition truthy_int (o : option Z) : bool :=
  match o with
  | Some n => negb (n =? 0)
  | None => false
  end.

(** Truth value of an optional float flag: [None] and [0.0] are false. *)
Definition truthy_float (o : option Q) : bool :=
  match o with
  | Some q => negb (Qeq_bool q 0)
  | None => false
  end.

(** ['%s' % x] for an optional string. *)
Definition str_of_opt (o : option string) : string :=
  match o with
  | Some s => s
  | None => "None"
  end.

(** [math.ceil(a / float(b))] for [b ≠ 0], on exact integers.  The script
    divides in double precision; for operands below 2^53 the double quotient
    is correctly rounded and its ceiling is the exact one, which is what this
    definition computes. *)
Definition ceil_div (a b : Z) : Z := - ((- a) `div` b).

(** * The evaluation driver, [eval_image_classifier.py] *)

Module Eval.

(** The flags declared with [tf.app.flags.DEFINE_*], lines 42-120.  A flag
    whose default is [None] is an [option]. *)
Record flags := mk_flags {
  batch_size : Z;
  max_num_batches : option Z;
  master : string;
  checkpoint_path : option string;
  eval_dir : option string;
  output_path : option string;
  num_preprocessing_threads : Z;
  dataset_name : string;
  dataset_split_name : string;
  dataset_dir : option string;
  data_path : option string;
  labels_offset : Z;
  model_name : string;
  preprocessing_name : option string;
  moving_average_decay : option Q;
  eval_image_size : option Z;
  quantize : bool;
  use_grayscale : bool;
  checkpoint_exclude_scopes : option string;
  trainable_scopes : option string;
  ignore_missing_vars : bool;
  visualPath : string
}.

(** The defaults of the declarations. *)
Definition default_flags : flags :=
  {| batch_size := 100; max_num_batches := None; master := "";
     checkpoint_path := None; eval_dir := None; output_path := None;
     num_preprocessing_threads := 4; dataset_name := "mnist";
     dataset_split_name := "test"; dataset_dir := None; data_path := None;
     labels_offset := 0; model_name := "lenet"; preprocessing_name := None;
     moving_average_decay := None; eval_image_size := None; quantize := false;
     use_grayscale := false; checkpoint_exclude_scopes := None;
     trainable_scopes := None; ignore_missing_vars := false;
     visualPath := "" |}.

(** Attribute assignments [FLAGS.x = v] made by the entry block. *)
Definition set_dataset_dir (v : option string) (F : flags) : flags :=
  let (a, b, c, d, e, f, g, h, i, _, k, l, m, n, o, p, q, r, s, t, u, w) := F in
  mk_flags a b c d e f g h i v k l m n o p q r s t u w.
Definition set_eval_dir (v : option string) (F : flags) : flags :=
  let (a, b, c, d, _, f, g, h, i, j, k, l, m, n, o, p, q, r, s, t, u, w) := F in
  mk_flags a b c d v f g h i j k l m n o p q r s t u w.
Definition set_dataset_name (v : string) (F : flags) : flags :=
  let (a, b, c, d, e, f, g, _, i, j, k, l, m, n, o, p, q, r, s, t, u, w) := F in
  mk_flags a b c d e f g v i j k l m n o p q r s t u w.
Definition set_dataset_split_name (v : string) (F : flags) : flags :=
  let (a, b, c, d, e, f, g, h, _, j, k, l, m, n, o, p, q, r, s, t, u, w) := F in
  mk_flags a b c d e f g h v j k l m n o p q r s t u w.
Definition set_model_name (v : string) (F : flags) : flags :=
  let (a, b, c, d, e, f, g, h, i, j, k, l, _, n, o, p, q, r, s, t, u, w) := F in
  mk_flags a b c d e f g h i j k l v n o p q r s t u w.

(** The dataset descriptor returned by [dataset_factory.get_dataset]: the
    three attributes [main] reads. *)
Record dataset := mk_dataset {
  num_samples : Z;
  num_classes : Z;
  labels_to_names : option (gmap Z string)
}.

(** The function returned by [nets_factory.get_network_fn], with the
    arguments it was built from. *)
Record network_fn := mk_network_fn {
  nf_model_name : string;
  nf_num_classes : Z;
  nf_is_training : bool;
  default_image_size : Z
}.

(** Tensors of the evaluation graph, as the expressions that build them. *)
Inductive tensor :=
| provider_get (item : string)
| subtract (t : tensor) (c : Z)
| image_preprocessing_fn (name : string) (is_training grayscale : bool)
    (image : tensor) (height width : Z)
| batch_images (image label : tensor) (size threads capacity : Z)
| batch_labels (image label : tensor) (size threads capacity : Z)
| network_logits (net : network_fn) (images : tensor)
| argmax (t : tensor) (axis : Z)
| squeeze (t : tensor).

(** [slim.metrics.*] against the functions imported [from metrics]. *)
Inductive metric_lib := slim_metrics | local_metrics.

(** A streaming metric: each constructor stands for the pair
    (value tensor, update operation) the call returns. *)
Inductive metric :=
| streaming_accuracy (lib : metric_lib) (predictions labels : tensor)
| streaming_precision (lib : metric_lib) (predictions labels : tensor)
| streaming_recall (lib : metric_lib) (predictions labels : tensor)
| streaming_recall_at_k (lib : metric_lib) (logits labels : tensor) (k : Z)
| f1_score (predictions labels : tensor)
| streaming_auc (predictions labels : tensor) (curve : string)
| streaming_true_positives (predictions labels : tensor)
| streaming_true_negatives (predictions labels : tensor)
| streaming_false_positives (predictions labels : tensor)
| streaming_false_negatives (predictions labels : tensor).

Inductive op :=
| value_op (m : metric)
| update_op (m : metric).


(** [slim.metrics.aggregate_metric_map]: a dict of (value, update) pairs is
    split in two dicts with the same keys, in the same order. *)
Definition aggregate_metric_map (names_to_tuples : list (string * metric))
  : list (string * op) * list (string * op) :=
  (map (λ '(n, m), (n, value_op m)) names_to_tuples,
   map (λ '(n, m), (n, update_op m)) names_to_tuples).

Inductive variables_to_restore :=
| ema_variables_to_restore (decay : Q)
| all_variables_to_restore.

Inductive summary_kind := scalar_summary | tensor_summary.

(** The calls [main] makes that touch something outside the graph under
    construction, with their arguments. *)
Inductive event :=
| app_run
| set_verbosity
| get_or_create_global_step
| get_dataset (name split : string) (dir : option string)
| get_network_fn (name : string) (classes : Z) (is_training : bool)
| DatasetDataProvider (ds : dataset) (shuffle : bool)
    (common_queue_capacity common_queue_min : Z)
| get_preprocessing (name : string) (is_training grayscale : bool)
| create_eval_graph
| add_summary (kind : summary_kind) (summary_name : string) (value : op)
| IsDirectory (path : option string)
| latest_checkpoint (path : option string)
| logging_info (msg : string)
| evaluate_once (master_ : string) (checkpoint_path_ : option string)
    (logdir : option string) (num_evals : Z) (eval_op : list op)
    (restore : variables_to_restore).

(** What the collaborators answer.  Each call either returns or raises. *)
Record env := mk_env {
  env_get_dataset : string → string → option string → exn + dataset;
  env_get_network_fn : string → Z → bool → exn + Z;
  env_get_preprocessing : string → bool → bool → exn + unit;
  env_IsDirectory : option string → exn + bool;
  env_latest_checkpoint : option string → exn + option string;
  env_evaluate_once :
    option string → Z → list op → variables_to_restore → exn + unit
}.

(** The process state: the flag values and the calls made so far. *)
Record state := mk_state {
  FLAGS : flags;
  trace : list event
}.

Definition set_flags (f : flags → flags) : M state unit :=
  modify_state (λ st, mk_state (f (FLAGS st)) (trace st)).

(** A call is recorded, then answered. *)
Definition call {A} (e : event) (r : exn + A) : M state A :=
  λ st, (mk_state (FLAGS st) (trace st ++ [e]), r).

(** ['dog' in x]: [in] needs an iterable right operand. *)
Definition py_in (sub : string) (x : option string) : M state bool :=
  match x with
  | Some s => mret (str_contains sub s)
  | None => raise (TypeError "argument of type 'NoneType' is not iterable")
  end.

(** [labels_to_names[k]]. *)
Definition subscript (d : option (gmap Z string)) (k : Z) : M state string :=
  match d with
  | None => raise (TypeError "'NoneType' object is not subscriptable")
  | Some m =>
      match m !! k with
      | Some v => mret v
      | None => raise (KeyError (pretty k))
      end
  end.

(** Lines 200-221: the metric dict handed to [aggregate_metric_map]. *)
Definition define_metrics (ds : dataset) (predictions labels logits : tensor)
  : list (string * metric) :=
  if bool_decide (num_classes ds > 2) then
    [ ("Accuracy", streaming_accuracy slim_metrics predictions labels);
      ("Precision", streaming_precision slim_metrics predictions labels);
      ("Recall", streaming_recall slim_metrics predictions labels);
      ("Recall_5", streaming_recall_at_k slim_metrics logits labels 5) ]
  else
    [ ("Accuracy", streaming_accuracy local_metrics predictions labels);
      ("Precision", streaming_precision local_metrics predictions labels);
      ("Recall", streaming_recall local_metrics predictions labels);
      ("F1_score", f1_score predictions labels);
      ("Auc_ROC", streaming_auc predictions labels "ROC");
      ("Auc_PR", streaming_auc predictions labels "PR");
      ("TP", streaming_true_positives predictions labels);
      ("TN", streaming_true_negatives predictions labels);
      ("FP", streaming_false_positives predictions labels);
      ("FN", streaming_false_negatives predictions labels) ].

(** Lines 239-246: one [if name == tag: name = name + ': Real-%s, Pred-%s' %
    (labels_to_names[real], labels_to_names[pred])]. *)
Definition annotate (tag : string) (real pred : Z)
    (names : option (gmap Z string)) (name : string) : M state string :=
  if String.eqb name tag then
    r ← subscript names real;
    p ← subscript names pred;
    mret (name +:+ ": Real-" +:+ r +:+ ", Pred-" +:+ p)
  else mret name.

(** Lines 223-250: one summary per entry of [names_to_values]. *)
Definition print_summaries (ds : dataset) (names_to_values : list (string * op))
  : M state unit :=
  let labels_to_names := labels_to_names ds in
  if bool_decide (num_classes ds > 2) then
    for_each (λ '(name, value),
      call (add_summary scalar_summary ("evaluation_results/" +:+ name) value)
           (inr tt)) names_to_values
  else
    for_each (λ '(name, value),
      if String.eqb name "ROC_curve" || String.eqb name "PR_curve" then
        call (add_summary tensor_summary ("evaluation_results/" +:+ name) value)
             (inr tt)
      else
        name ← annotate "TP" 1 1 labels_to_names name;
        name ← annotate "FN" 1 0 labels_to_names name;
        name ← annotate "FP" 0 1 labels_to_names name;
        name ← annotate "TN" 0 0 labels_to_names name;
        call (add_summary scalar_summary ("evaluation_results/" +:+ name) value)
             (inr tt)) names_to_values.

(** Lines 253-257: the number of evaluation iterations. *)
Definition num_batches (F : flags) (ds : dataset) : M state Z :=
  match max_num_batches F with
  | Some n =>
      if truthy_int (Some n) then mret n
      else if batch_size F =? 0
           then raise (ZeroDivisionError "float division by zero")
           else mret (ceil_div (num_samples ds) (batch_size F))
  | None =>
      if batch_size F =? 0
      then raise (ZeroDivisionError "float division by zero")
      else mret (ceil_div (num_samples ds) (batch_size F))
  end.

Definition dataset_dir_error : exn :=
  ValueError "You must supply the dataset directory with --dataset_dir".

(** [main], lines 125-272. *)
Definition main (E : env) : M state unit :=
  st ← get_state;
  let F := FLAGS st in
  if negb (truthy_str (dataset_dir F)) then raise dataset_dir_error
  else
    call set_verbosity (inr tt) ;;
    call get_or_create_global_step (inr tt) ;;
    (* Select the dataset *)
    ds ← call (get_dataset (dataset_name F) (dataset_split_name F)
                 (dataset_dir F))
           (env_get_dataset E (dataset_name F) (dataset_split_name F)
              (dataset_dir F));
    (* Select the model *)
    size ← call (get_network_fn (model_name F)
                   (num_classes ds - labels_offset F) false)
             (env_get_network_fn E (model_name F)
                (num_classes ds - labels_offset F) false);
    let net := mk_network_fn (model_name F)
                 (num_classes ds - labels_offset F) false size in
    (* Create a dataset provider that loads data from the dataset *)
    call (DatasetDataProvider ds false (2 * batch_size F) (batch_size F))
         (inr tt) ;;
    let image := provider_get "image" in
    let label := provider_get "label" in
    let label := subtract label (labels_offset F) in
    (* Select the preprocessing function *)
    let preprocessing_name :=
      if truthy_str (preprocessing_name F)
      then default "" (preprocessing_name F) else model_name F in
    call (get_preprocessing preprocessing_name false (use_grayscale F))
         (env_get_preprocessing E preprocessing_name false (use_grayscale F)) ;;
    let eval_image_size :=
      if truthy_int (eval_image_size F)
      then default 0 (eval_image_size F) else default_image_size net in
    let image :=
      image_preprocessing_fn preprocessing_name false (use_grayscale F)
        image eval_image_size eval_image_size in
    let images :=
      batch_images image label (batch_size F) (num_preprocessing_threads F)
        (5 * batch_size F) in
    let labels :=
      batch_labels image label (batch_size F) (num_preprocessing_threads F)
        (5 * batch_size F) in
    (* Define the model *)
    let logits := network_logits net images in
    (if quantize F then call create_eval_graph (inr tt) else mret tt) ;;
    let restore :=
      if truthy_float (moving_average_decay F)
      then ema_variables_to_restore (default 0%Q (moving_average_decay F))
      else all_variables_to_restore in
    let predictions := argmax logits 1 in
    let labels := squeeze labels in
    (* Define the metrics *)
    let '(names_to_values, names_to_updates) :=
      aggregate_metric_map (define_metrics ds predictions labels logits) in
    print_summaries ds names_to_values ;;
    num_batches ← num_batches F ds;
    is_dir ← call (IsDirectory (checkpoint_path F))
               (env_IsDirectory E (checkpoint_path F));
    checkpoint ←
      (if is_dir : bool
       then call (latest_checkpoint (checkpoint_path F))
              (env_latest_checkpoint E (checkpoint_path F))
       else mret (checkpoint_path F));
    call (logging_info ("Evaluating " +:+ str_of_opt checkpoint)) (inr tt) ;;
    call (evaluate_once (master F) checkpoint (eval_dir F) num_batches
            (map snd names_to_updates) restore)
         (env_evaluate_once E checkpoint num_batches
            (map snd names_to_updates) restore).

(** The entry block, lines 275-285.  [tf.app.run()] is taken to call [main]
    with the flags as the block leaves them. *)
Definition __main__ (E : env) : M state unit :=
  st ← get_state;
  (match data_path (FLAGS st) with
   | Some _ => set_flags (set_dataset_dir (data_path (FLAGS st)))
   | None => mret tt
   end) ;;
  st ← get_state;
  (match output_path (FLAGS st) with
   | Some _ => set_flags (set_eval_dir (output_path (FLAGS st)))
   | None => mret tt
   end) ;;
  st ← get_state;
  found ← py_in "dog" (data_path (FLAGS st));
  (if found : bool then
     set_flags (set_dataset_name "dog-vs-cat") ;;
     set_flags (set_dataset_split_name "validation") ;;
     set_flags (set_model_name "inception_v3")
   else mret tt) ;;
  call app_run (inr tt) ;;
  main E.

(** The label values a labels tensor carries when the provider reads the
    values [raw]: batching and squeezing regroup the values, subtraction
    changes each of them. *)
Fixpoint label_values (raw : list Z) (t : tensor) : option (list Z) :=
  match t with
  | provider_get item => if String.eqb item "label" then Some raw else None
  | subtract t c => map (λ x, x - c) <$> label_values raw t
  | batch_labels _ label _ _ _ => label_values raw label
  | squeeze t => label_values raw t
  | _ => None
  end.

(** The calls made between two states of one run. *)
Definition new_events (st st' : state) : list event :=
  drop (length (trace st)) (trace st').

(** A computation of the driver that leaves the flags [F] alone, only makes
    calls that satisfy [P], and returns values that satisfy [Q]. *)
Abbreviation emits := (logs FLAGS trace).

(** What [main] guarantees of each call it makes, given the flags it runs
    with and the collaborators' answers. *)
Definition main_event_ok (E : env) (F : flags) (ev : event) : Prop :=
  match ev with
  | app_run => False
  | get_network_fn name classes is_training =>
      ∃ ds,
        env_get_dataset E (dataset_name F) (dataset_split_name F)
          (dataset_dir F) = inr ds ∧
        name = model_name F ∧
        classes = num_classes ds - labels_offset F ∧
        is_training = false
  | evaluate_once m c l n ops rs =>
      ∃ ds predictions labels logits,
        env_get_dataset E (dataset_name F) (dataset_split_name F)
          (dataset_dir F) = inr ds ∧
        ops = map (λ nm, update_op nm.2)
                (define_metrics ds predictions labels logits) ∧
        (∀ raw, label_values raw labels
                = Some (map (λ x, x - labels_offset F) raw)) ∧
        (∀ s, num_batches F ds s = (s, inr n)) ∧
        m = master F ∧ l = eval_dir F
  | _ => True
  end.


Definition eval_ops_of (evs : list event) : list (list op) :=
  omap (λ ev, match ev with
              | evaluate_once _ _ _ _ ops _ => Some ops
              | _ => None
              end) evs.

(** A run to try the statements on: ten samples, batches of three, a
    checkpoint file, collaborators that answer every call. *)
Definition sample_dataset (classes : Z) : dataset :=
  mk_dataset 10 classes (Some {[ 0 := "cat"; 1 := "dog" ]}).

Definition sample_env (classes : Z) : env :=
  {| env_get_dataset := λ _ _ _, inr (sample_dataset classes);
     env_get_network_fn := λ _ _ _, inr 299;
     env_get_preprocessing := λ _ _ _, inr tt;
     env_IsDirectory := λ _, inr false;
     env_latest_checkpoint := λ _, inr None;
     env_evaluate_once := λ _ _ _ _, inr tt |}.

Definition sample_flags (data : option string) (cap : option Z) : flags :=
  {| batch_size := 3; max_num_batches := cap; master := "";
     checkpoint_path := Some "/ckpt/model.ckpt-100"; eval_dir := Some "/eval";
     output_path := Some "/out"; num_preprocessing_threads := 4;
     dataset_name := "mnist"; dataset_split_name := "test";
     dataset_dir := Some "/records"; data_path := data;
     labels_offset := 1; model_name := "lenet"; preprocessing_name := None;
     moving_average_decay := None; eval_image_size := None; quantize := false;
     use_grayscale := false; checkpoint_exclude_scopes := None;
     trainable_scopes := None; ignore_missing_vars := false;
     visualPath := "" |}.

(** What [main] guarantees of the remaining arguments of its calls: the
    modes it builds in, the queue sizes, the summaries it writes, and how
    the checkpoint and the variables to restore are chosen. *)
Definition main_call_ok (E : env) (F : flags) (ev : event) : Prop :=
  match ev with
  | app_run => False
  | get_network_fn _ _ is_training => is_training = false
  | DatasetDataProvider _ shuffle capacity minimum =>
      shuffle = false ∧ capacity = 2 * batch_size F ∧ minimum = batch_size F
  | get_preprocessing name is_training grayscale =>
      name = (if truthy_str (preprocessing_name F)
              then default "" (preprocessing_name F) else model_name F) ∧
      is_training = false ∧ grayscale = use_grayscale F
  | create_eval_graph => quantize F = true
  | add_summary kind name value =>
      kind = scalar_summary ∧
      ∃ ds predictions labels logits key m suffix,
        env_get_dataset E (dataset_name F) (dataset_split_name F)
          (dataset_dir F) = inr ds ∧
        (key, m) ∈ define_metrics ds predictions labels logits ∧
        value = value_op m ∧
        name = "evaluation_results/" +:+ key +:+ suffix
  | IsDirectory path => path = checkpoint_path F
  | latest_checkpoint path =>
      path = checkpoint_path F ∧
      env_IsDirectory E (checkpoint_path F) = inr true
  | evaluate_once _ checkpoint _ _ _ restore =>
      (env_IsDirectory E (checkpoint_path F) = inr true ∧
       env_latest_checkpoint E (checkpoint_path F) = inr checkpoint
       ∨ env_IsDirectory E (checkpoint_path F) = inr false ∧
         checkpoint = checkpoint_path F) ∧
      restore = (if truthy_float (moving_average_decay F)
                 then ema_variables_to_restore
                        (default 0%Q (moving_average_decay F))
                 else all_variables_to_restore)
  | _ => True
  end.

Definition is_evaluate_once (ev : event) : bool :=
  match ev with
  | evaluate_once _ _ _ _ _ _ => true
  | _ => false
  end.

(** The names of the summaries written in a list of calls. *)
Definition summary_names_of (evs : list event) : list string :=
  omap (λ ev, match ev with
              | add_summary _ name _ => Some name
              | _ => None
              end) evs.

(** Two more runs: a checkpoint directory, and a two-class dataset that
    comes without class names. *)
Definition directory_env : env :=
  {| env_get_dataset := λ _ _ _, inr (sample_dataset 5);
     env_get_network_fn := λ _ _ _, inr 299;
     env_get_preprocessing := λ _ _ _, inr tt;
     env_IsDirectory := λ _, inr true;
     env_latest_checkpoint := λ _, inr (Some "/ckpt/model.ckpt-200");
     env_evaluate_once := λ _ _ _ _, inr tt |}.

Definition unnamed_env : env :=
  {| env_get_dataset := λ _ _ _, inr (mk_dataset 10 2 None);
     env_get_network_fn := λ _ _ _, inr 299;
     env_get_preprocessing := λ _ _ _, inr tt;
     env_IsDirectory := λ _, inr false;
     env_latest_checkpoint := λ _, inr None;
     env_evaluate_once := λ _ _ _ _, inr tt |}.

Definition zero_batch_flags : flags :=
  {| batch_size := 0; max_num_batches := None; master := "";
     checkpoint_path := Some "/ckpt/model.ckpt-100"; eval_dir := Some "/eval";
     output_path := None; num_preprocessing_threads := 4;
     dataset_name := "mnist"; dataset_split_name := "test";
     dataset_dir := Some "/records"; data_path := Some "/records";
     labels_offset := 0; model_name := "lenet"; preprocessing_name := None;
     moving_average_decay := Some (9999 # 10000)%Q; eval_image_size := None;
     quantize := true; use_grayscale := false;
     checkpoint_exclude_scopes := None; trainable_scopes := None;
     ignore_missing_vars := false; visualPath := "" |}.

End Eval.

(** * The export pipeline, [slim_exporter.py] *)

Module Exporter.

(** ** The graph *)

Inductive dtype := DT_UINT8 | DT_STRING | DT_FLOAT | DT_INT64.

#[export] Instance dtype_eq_dec : EqDecision dtype.
Proof. solve_decision. Defined.

(** A tensor is named after the node that produces it. *)
Record tensor := mk_tensor {
  t_name : string;
  t_dtype : dtype
}.

(** The nodes the pipeline tells apart.  A variable's value is not in the
    graph but in a session or a checkpoint; a constant carries its value.
    One integer stands for the contents of a tensor. *)
Inductive node_kind :=
| Placeholder (dt : dtype) (shape : list (option Z))
| VariableV2 (trainable : bool)
| Const (value : Z)
| Operation (op_type : string).

Record node := mk_node {
  n_name : string;
  n_kind : node_kind;
  n_inputs : list string;
  n_device : string
}.

(** The default graph: its nodes in creation order and its collections.
    The save and restore operations a [Saver] adds are left out. *)
Record tf_graph := mk_graph {
  nodes : list node;
  collections : list (option string * tensor)
}.

(** TensorFlow's name uniquification: [base], or the first of [base_1],
    [base_2], ... that is free. *)
Fixpoint first_free (names : list string) (base : string) (i fuel : nat)
  : string :=
  let candidate := base +:+ "_" +:+ pretty i in
  match fuel with
  | O => candidate
  | S fuel' =>
      if bool_decide (candidate ∈ names)
      then first_free names base (S i) fuel'
      else candidate
  end.

Definition unique_name (g : tf_graph) (base : string) : string :=
  let names := n_name <$> nodes g in
  if bool_decide (base ∈ names)
  then first_free names base 1 (length names)
  else base.

(** Every graph-building call adds one node to the default graph. *)
Definition add_node (base : string) (kind : node_kind) (inputs : list tensor)
    (dt : dtype) : M tf_graph tensor :=
  g ← get_state;
  let name := unique_name g base in
  modify_state (λ g, mk_graph
    (nodes g ++ [mk_node name kind (t_name <$> inputs) ""])
    (collections g)) ;;
  mret (mk_tensor name dt).

Definition add_to_collection (name : option string) (t : tensor)
  : M tf_graph unit :=
  modify_state (λ g, mk_graph (nodes g) (collections g ++ [(name, t)])).

Definition placeholder (dt : dtype) (shape : list (option Z)) (name : string)
  : M tf_graph tensor :=
  add_node name (Placeholder dt shape) [] dt.

Definition unary_op (op_type : string) (dt : dtype) (x : tensor)
  : M tf_graph tensor :=
  add_node op_type (Operation op_type) [x] dt.

(** [tf.identity(x, name=...)]; [x] comes out of [dict.get] and may be
    [None], which [tf.identity] rejects. *)
Definition identity (x : option tensor) (name : string) : M tf_graph tensor :=
  match x with
  | Some t => add_node name (Operation "Identity") [t] (t_dtype t)
  | None => raise (ValueError "None values not supported.")
  end.

Definition is_variable (n : node) : bool :=
  match n_kind n with VariableV2 _ => true | _ => false end.

Definition is_trainable (n : node) : bool :=
  match n_kind n with VariableV2 t => t | _ => false end.

(** [tf.global_variables()] and [tf.trainable_variables()], by name. *)
Definition global_variables (g : tf_graph) : list string :=
  n_name <$> filter (λ n, is_variable n = true) (nodes g).

Definition trainable_variables (g : tf_graph) : list string :=
  n_name <$> filter (λ n, is_trainable n = true) (nodes g).

(** [slim.get_or_create_global_step()]. *)
Definition get_or_create_global_step : M tf_graph tensor :=
  g ← get_state;
  if bool_decide ("global_step" ∈ global_variables g)
  then mret (mk_tensor "global_step" DT_INT64)
  else add_node "global_step" (VariableV2 false) [] DT_INT64.

(** ** Lines 21-82: pre- and postprocessing *)

Definition model_preprocess (image : tensor) (height width : Z)
    (central_fraction : option Q) (central_crop use_grayscale : bool)
  : M tf_graph tensor :=
  image ← (if bool_decide (t_dtype image ≠ DT_FLOAT)
           then unary_op "convert_image_dtype" DT_FLOAT image
           else mret image);
  image ← (if use_grayscale
           then unary_op "rgb_to_grayscale" DT_FLOAT image
           else mret image);
  image ← (if central_crop && truthy_float central_fraction
           then unary_op "central_crop" DT_FLOAT image
           else mret image);
  if negb (height =? 0) && negb (width =? 0) then
    image ← unary_op "ResizeBilinear" DT_FLOAT image;
    image ← unary_op "Sub" DT_FLOAT image;
    image ← unary_op "Mul" DT_FLOAT image;
    mret image
  else mret image.

(** The model-builder callable: it adds the forward pass to the graph and
    returns the logits (the second component of its result is dropped). *)
Definition model_fn : Type := tensor → M tf_graph tensor.

Definition model_postprocess (model : model_fn) (images : tensor)
  : M tf_graph (list (string * tensor)) :=
  logits ← model images;
  logits ← unary_op "Softmax" DT_FLOAT logits;
  classes ← unary_op "ArgMax" DT_INT64 logits;
  mret [("logits", logits); ("classes", classes)].

(** [dict.get]. *)
Definition dict_get {A} (d : list (string * A)) (k : string) : option A :=
  (λ r, r.2.2) <$> list_find (λ kv, kv.1 = k) d.

(** ** Lines 110-147: the input placeholders *)

Definition _image_tensor_input_placeholder
    (input_shape : option (list (option Z))) : M tf_graph (tensor * tensor) :=
  let input_shape :=
    match input_shape with
    | None => [None; None; None; Some 3]
    | Some s => s
    end in
  input_tensor ← placeholder DT_UINT8 input_shape "image_tensor";
  mret (input_tensor, input_tensor).

Definition _encoded_image_string_tensor_input_placeholder
  : M tf_graph (tensor * tensor) :=
  batch_image_str_placeholder ←
    placeholder DT_STRING [None] "encoded_image_string_tensor";
  images ← unary_op "map/decode_image" DT_UINT8 batch_image_str_placeholder;
  mret (batch_image_str_placeholder, images).

Inductive placeholder_fn :=
| image_tensor_fn
| encoded_image_string_tensor_fn.

Definition input_placeholder_fn_map : list (string * placeholder_fn) :=
  [ ("image_tensor", image_tensor_fn);
    ("encoded_image_string_tensor", encoded_image_string_tensor_fn) ].

(** The placeholder function called with the keyword arguments
    [placeholder_args], which are none or [input_shape] alone. *)
Definition call_placeholder_fn (fn : placeholder_fn)
    (placeholder_args : option (list (option Z)))
  : M tf_graph (tensor * tensor) :=
  match fn, placeholder_args with
  | image_tensor_fn, args => _image_tensor_input_placeholder args
  | encoded_image_string_tensor_fn, None =>
      _encoded_image_string_tensor_input_placeholder
  | encoded_image_string_tensor_fn, Some _ =>
      raise (TypeError "got an unexpected keyword argument 'input_shape'")
  end.

(** ** Lines 150-175 and 293-326: the graph of the model *)

Definition _add_output_tensor_nodes
    (postprocessed_tensors : list (string * tensor))
    (output_collection_name : option string)
  : M tf_graph (list (string * tensor)) :=
  let classes := dict_get postprocessed_tensors "classes" in
  let logits := dict_get postprocessed_tensors "logits" in
  classes ← identity classes "classes";
  logits ← identity logits "logits";
  let outputs := [("classes", classes); ("logits", logits)] in
  for_each (λ kv, add_to_collection output_collection_name kv.2) outputs ;;
  mret outputs.

Definition _get_outputs_from_inputs (input_tensors : tensor) (image_size : Z)
    (model : model_fn) (output_collection_name : option string)
  : M tf_graph (list (string * tensor)) :=
  inputs ← unary_op "ToFloat" DT_FLOAT input_tensors;
  preprocessed_inputs ←
    model_preprocess inputs image_size image_size (Some (875 # 1000)%Q)
      true false;
  postprocessed_tensors ← model_postprocess model preprocessed_inputs;
  _add_output_tensor_nodes postprocessed_tensors output_collection_name.

Definition _build_model_graph (input_type : string) (image_size : Z)
    (model : model_fn) (input_shape : option (list (option Z)))
    (output_collection_name : option string)
    (graph_hook_fn : option (M tf_graph unit))
  : M tf_graph (list (string * tensor) * tensor) :=
  match dict_get input_placeholder_fn_map input_type with
  | None => raise (ValueError ("Unknown input type: " +:+ input_type))
  | Some fn =>
      placeholder_args ←
        match input_shape with
        | Some shape =>
            if negb (String.eqb input_type "image_tensor")
            then raise (ValueError
                   "Can only specify input shape for 'image_tensor' inputs.")
            else mret (Some shape)
        | None => mret None
        end;
      '(placeholder_tensor, input_tensors) ←
        call_placeholder_fn fn placeholder_args;
      outputs ← _get_outputs_from_inputs input_tensors image_size model
                  output_collection_name;
      (* Add global step to the graph *)
      get_or_create_global_step ;;
      match graph_hook_fn with
      | Some hook => hook
      | None => mret tt
      end ;;
      mret (outputs, placeholder_tensor)
  end.

(** ** Checkpoints, savers and the file system *)

Inductive write_version := V1 | V2.

(** A checkpoint: the value stored under each key. *)
Record checkpoint := mk_checkpoint {
  ck_version : write_version;
  ck_values : gmap string Z
}.

(** A saver: for each variable it handles, the checkpoint key the variable
    is stored under. *)
Record saver := mk_saver {
  sv_keys : gmap string string;
  sv_version : write_version
}.

(** A SavedModel: a graph, the values of its variables, and one signature
    under one set of tags. *)
Record saved_model := mk_saved_model {
  sm_graph : list node;
  sm_variables : gmap string Z;
  sm_tags : list string;
  sm_signature_key : string;
  sm_method_name : string;
  sm_inputs : list (string * tensor);
  sm_outputs : list (string * tensor)
}.

(** The calls that read or write outside the graph, in order. *)
Inductive call :=
| MakeDirs (path : string)
| restore (prefix : string)
| save (prefix : string)
| freeze_graph_with_def_protos_call (input_checkpoint output_node_names
    output_graph : string)
| GFile_write (path : string)
| SavedModelBuilder_save (path : string).

Record world := mk_world {
  default_graph : tf_graph;
  directories : list string;
  checkpoints : gmap string checkpoint;
  graph_files : gmap string (list node);
  saved_models : gmap string saved_model;
  temp_names : list string;
  calls : list call
}.

Definition set_checkpoints (c : gmap string checkpoint) (w : world) : world :=
  mk_world (default_graph w) (directories w) c (graph_files w)
    (saved_models w) (temp_names w) (calls w).
Definition set_graph_files (f : gmap string (list node)) (w : world) : world :=
  mk_world (default_graph w) (directories w) (checkpoints w) f
    (saved_models w) (temp_names w) (calls w).
Definition set_saved_models (m : gmap string saved_model) (w : world)
  : world :=
  mk_world (default_graph w) (directories w) (checkpoints w) (graph_files w)
    m (temp_names w) (calls w).
Definition set_directories (d : list string) (w : world) : world :=
  mk_world (default_graph w) d (checkpoints w) (graph_files w)
    (saved_models w) (temp_names w) (calls w).
Definition set_temp_names (t : list string) (w : world) : world :=
  mk_world (default_graph w) (directories w) (checkpoints w) (graph_files w)
    (saved_models w) t (calls w).
Definition set_default_graph (g : tf_graph) (w : world) : world :=
  mk_world g (directories w) (checkpoints w) (graph_files w)
    (saved_models w) (temp_names w) (calls w).

Definition add_call (c : call) (w : world) : world :=
  mk_world (default_graph w) (directories w) (checkpoints w) (graph_files w)
    (saved_models w) (temp_names w) (calls w ++ [c]).

Definition log (c : call) : M world unit := modify_state (add_call c).

(** The calls made between two worlds of one run. *)
Definition new_calls (w w' : world) : list call :=
  drop (length (calls w)) (calls w').

(** Graph construction runs on the default graph and on nothing else. *)
Definition in_default_graph {A} (c : M tf_graph A) : M world A :=
  λ w, let '(g, r) := c (default_graph w) in (set_default_graph g w, r).

(** [os.path.join] of two components. *)
Definition os_path_join (a b : string) : string :=
  if String.prefix "/" b then b
  else if String.eqb a "" then b
  else if String.eqb (String.substring (String.length a - 1)%nat 1%nat a) "/"
       then a +:+ b
       else a +:+ "/" +:+ b.

(** [','.join]. *)
Fixpoint join (sep : string) (l : list string) : string :=
  match l with
  | [] => ""
  | [x] => x
  | x :: l' => x +:+ sep +:+ join sep l'
  end.

Definition tf_gfile_MakeDirs (path : string) : M world unit :=
  log (MakeDirs path) ;;
  modify_state (λ w, set_directories (path :: directories w) w).

(** [os.path.isfile]: a version-1 checkpoint is one file named by its
    prefix; a version-2 checkpoint is several files with suffixes. *)
Definition os_path_isfile (path : string) : M world bool :=
  w ← get_state;
  mret (match checkpoints w !! path with
        | Some c => match ck_version c with V1 => true | V2 => false end
        | None => bool_decide (is_Some (graph_files w !! path))
        end).

(** [tempfile.NamedTemporaryFile().name] and [tempfile.mkdtemp()]: the
    next name the operating system hands out. *)
Definition next_temp_name : M world string :=
  w ← get_state;
  match temp_names w with
  | name :: rest => modify_state (set_temp_names rest) ;; mret name
  | [] => raise (FrameworkError "OSError" "No usable temporary file name found")
  end.

Definition tempfile_NamedTemporaryFile_name : M world string := next_temp_name.

Definition tempfile_mkdtemp : M world string :=
  name ← next_temp_name;
  modify_state (λ w, set_directories (name :: directories w) w) ;;
  mret name.

(** [tf.train.Saver(var_list, write_version)] built in graph [g].  Without
    a [var_list] every variable is stored under its own name. *)
Definition Saver (g : tf_graph) (var_list : option (gmap string string))
    (version : write_version) : exn + saver :=
  let keys :=
    match var_list with
    | Some keys => keys
    | None => list_to_map ((λ v, (v, v)) <$> global_variables g)
    end in
  if bool_decide (keys = ∅) then inl (ValueError "No variables to save")
  else inr (mk_saver keys version).

(** [ExponentialMovingAverage.average_name] and [variables_to_restore()]:
    a trainable variable is read from its shadow key, any other variable
    from its own name unless that name is already a shadow key. *)
Definition average_name (v : string) : string :=
  v +:+ "/ExponentialMovingAverage".

Definition variables_to_restore (g : tf_graph) : gmap string string :=
  let averaged := trainable_variables g in
  let shadow_keys := average_name <$> averaged in
  let others :=
    filter (λ v, (v ∉ averaged) ∧ (v ∉ shadow_keys)) (global_variables g) in
  list_to_map (((λ v, (v, average_name v)) <$> averaged)
               ++ ((λ v, (v, v)) <$> others)).

(** [saver.restore(sess, prefix)]: the session it leaves, one value per
    variable of the saver, read from the checkpoint found at [prefix]. *)
Definition restore_session (sv : saver) (found : option checkpoint)
  : exn + gmap string Z :=
  match found with
  | None => inl (ValueError "The passed save_path is not a valid checkpoint")
  | Some c =>
      if decide (map_Forall (λ _ key, is_Some (ck_values c !! key))
                   (sv_keys sv))
      then inr (omap (λ key, ck_values c !! key) (sv_keys sv))
      else inl (FrameworkError "NotFoundError" "Key not found in checkpoint")
  end.

Definition saver_restore (sv : saver) (prefix : string)
  : M world (gmap string Z) :=
  log (restore prefix) ;;
  w ← get_state;
  lift_result (restore_session sv (checkpoints w !! prefix)).

(** What [saver.save] stores: each variable's session value under the
    variable's key. *)
Definition saved_values (keys : gmap string string) (session : gmap string Z)
  : gmap string Z :=
  map_fold (λ v key acc,
              match session !! v with
              | Some x => <[key := x]> acc
              | None => acc
              end) ∅ keys.

Definition save_session (sv : saver) (session : gmap string Z)
  : exn + checkpoint :=
  if decide (map_Forall (λ v _, is_Some (session !! v)) (sv_keys sv))
  then inr (mk_checkpoint (sv_version sv) (saved_values (sv_keys sv) session))
  else inl (FrameworkError "FailedPreconditionError"
              "Attempting to use uninitialized value").

Definition saver_save (sv : saver) (session : gmap string Z) (prefix : string)
  : M world unit :=
  log (save prefix) ;;
  c ← lift_result (save_session sv session);
  modify_state (λ w, set_checkpoints (<[prefix := c]> (checkpoints w)) w).

(** ** Lines 85-107 *)

Definition replace_variable_values_with_moving_averages (graph : tf_graph)
    (current_checkpoint_file new_checkpoint_file : string) : M world unit :=
  let ema_variables_to_restore := variables_to_restore graph in
  read_saver ← lift_result (Saver graph (Some ema_variables_to_restore) V2);
  session ← saver_restore read_saver current_checkpoint_file;
  write_saver ← lift_result (Saver graph None V2);
  saver_save write_saver session new_checkpoint_file.

(** ** Lines 178-291: writing the artifacts *)

Definition clear_devices (graph_def : list node) : list node :=
  (λ n, mk_node (n_name n) (n_kind n) (n_inputs n) "") <$> graph_def.

Definition write_frozen_graph (frozen_graph_path : string)
    (frozen_graph_def : list node) : M world unit :=
  log (GFile_write frozen_graph_path) ;;
  modify_state (λ w, set_graph_files
    (<[frozen_graph_path := frozen_graph_def]> (graph_files w)) w).

Definition SERVING : string := "serve".
Definition PREDICT_METHOD_NAME : string := "tensorflow/serving/predict".
Definition DEFAULT_SERVING_SIGNATURE_DEF_KEY : string := "serving_default".

(** [SavedModelBuilder(path)] refuses an export directory that exists. *)
Definition SavedModelBuilder (path : string) : M world unit :=
  w ← get_state;
  if bool_decide (is_Some (saved_models w !! path))
     || bool_decide (path ∈ directories w)
  then raise (FrameworkError "AssertionError"
                "Export directory already exists")
  else mret tt.

Definition builder_save (path : string) (m : saved_model) : M world unit :=
  log (SavedModelBuilder_save path) ;;
  modify_state (λ w, set_saved_models (<[path := m]> (saved_models w)) w).

(** Lines 190-235.  The bundle holds the frozen graph and no variables. *)
Definition write_saved_model (saved_model_path : string)
    (frozen_graph_def : list node) (inputs : tensor)
    (outputs : list (string * tensor)) : M world unit :=
  SavedModelBuilder saved_model_path ;;
  let tensor_info_inputs := [("inputs", inputs)] in
  let tensor_info_outputs := outputs in
  builder_save saved_model_path
    (mk_saved_model frozen_graph_def ∅ [SERVING]
       DEFAULT_SERVING_SIGNATURE_DEF_KEY PREDICT_METHOD_NAME
       tensor_info_inputs tensor_info_outputs).

(** Lines 239-274.  The bundle holds the default graph and the variable
    values restored from [trained_checkpoint_prefix]. *)
Definition _write_saved_model (saved_model_path : string)
    (trained_checkpoint_prefix : string) (inputs : tensor)
    (outputs : list (string * tensor)) : M world unit :=
  w ← get_state;
  saver ← lift_result (Saver (default_graph w) None V2);
  session ← saver_restore saver trained_checkpoint_prefix;
  SavedModelBuilder saved_model_path ;;
  let tensor_info_inputs := [("inputs", inputs)] in
  let tensor_info_outputs := outputs in
  w ← get_state;
  builder_save saved_model_path
    (mk_saved_model (nodes (default_graph w)) session [SERVING]
       DEFAULT_SERVING_SIGNATURE_DEF_KEY PREDICT_METHOD_NAME
       tensor_info_inputs tensor_info_outputs).

(** Lines 277-290.  The graph is written as the checkpoint's meta graph. *)
Definition write_graph_and_checkpoint (inference_graph_def : list node)
    (model_path : string) (input_saver_def : saver)
    (trained_checkpoint_prefix : string) : M world unit :=
  let inference_graph_def := clear_devices inference_graph_def in
  session ← saver_restore input_saver_def trained_checkpoint_prefix;
  saver_save input_saver_def session model_path ;;
  modify_state (λ w, set_graph_files
    (<[model_path +:+ ".meta" := inference_graph_def]> (graph_files w)) w).

(** [freeze_graph.freeze_graph_with_def_protos]: every variable of the
    graph becomes a constant holding the value the input checkpoint has for
    it.  The pruning of nodes the outputs do not depend on is left out. *)
Definition freeze_node (session : gmap string Z) (n : node) : node :=
  match n_kind n, session !! n_name n with
  | VariableV2 _, Some x => mk_node (n_name n) (Const x) [] (n_device n)
  | _, _ => n
  end.

Definition freeze_graph_with_def_protos (input_graph_def : list node)
    (input_saver_def : saver) (input_checkpoint output_node_names : string)
    (output_graph : string) (clear_devices_ : bool) : M world (list node) :=
  log (freeze_graph_with_def_protos_call input_checkpoint output_node_names
         output_graph) ;;
  w ← get_state;
  if negb (bool_decide (is_Some (checkpoints w !! input_checkpoint)))
  then raise (ValueError ("Input checkpoint '" +:+ input_checkpoint
                          +:+ "' doesn't exist!"))
  else if String.eqb output_node_names ""
  then raise (ValueError
         "You need to supply the name of a node to --output_node_names.")
  else
    let graph_def :=
      if clear_devices_ then clear_devices input_graph_def
      else input_graph_def in
    session ← saver_restore input_saver_def input_checkpoint;
    let frozen := freeze_node session <$> graph_def in
    (if String.eqb output_graph "" then mret tt
     else modify_state (λ w, set_graph_files
            (<[output_graph := frozen]> (graph_files w)) w)) ;;
    mret frozen.

(** [outputs.keys() + additional_output_tensor_names]: a [dict_keys] view
    has no [+]. *)
Definition dict_keys_add (keys additional : list string)
  : exn + list string :=
  inl (TypeError
         "unsupported operand type(s) for +: 'dict_keys' and 'list'").

(** ** Lines 329-413 *)

(** Lines 371-384: the saver arguments and the checkpoint to use. *)
Definition select_checkpoint_to_use (use_moving_averages : option bool)
    (trained_checkpoint_prefix : string) : M world (write_version * string) :=
  if default false use_moving_averages then
    (* This check is to be compatible with both version of SaverDef. *)
    is_file ← os_path_isfile trained_checkpoint_prefix;
    '(write_version, temp_checkpoint_prefix) ←
      (if is_file : bool
       then name ← tempfile_NamedTemporaryFile_name; mret (V1, name)
       else name ← tempfile_mkdtemp; mret (V2, name));
    w ← get_state;
    replace_variable_values_with_moving_averages (default_graph w)
      trained_checkpoint_prefix temp_checkpoint_prefix ;;
    mret (write_version, temp_checkpoint_prefix)
  else mret (V2, trained_checkpoint_prefix).

(** Lines 395-399. *)
Definition output_node_names_of (outputs : list (string * tensor))
    (additional_output_tensor_names : option (list string)) : exn + string :=
  match additional_output_tensor_names with
  | Some additional =>
      match dict_keys_add (fst <$> outputs) additional with
      | inl e => inl e
      | inr names => inr (join "," names)
      end
  | None => inr (join "," (fst <$> outputs))
  end.

Definition export_inference_graph (input_type : string) (image_size : Z)
    (model : model_fn) (trained_checkpoint_prefix output_directory : string)
    (input_shape : option (list (option Z)))
    (use_moving_averages : option bool)
    (output_collection_name : option string)
    (additional_output_tensor_names : option (list string))
    (graph_hook_fn : option (M tf_graph unit)) : M world unit :=
  tf_gfile_MakeDirs output_directory ;;
  let frozen_graph_path :=
    os_path_join output_directory "frozen_inference_graph.pb" in
  let saved_model_path := os_path_join output_directory "saved_model" in
  let model_path := os_path_join output_directory "model.ckpt" in
  built ←
    in_default_graph
      (_build_model_graph input_type image_size model input_shape
         output_collection_name graph_hook_fn);
  let outputs := built.1 in
  let placeholder_tensor := built.2 in
  selected ←
    select_checkpoint_to_use use_moving_averages trained_checkpoint_prefix;
  let write_version := selected.1 in
  let checkpoint_to_use := selected.2 in
  w ← get_state;
  saver ← lift_result (Saver (default_graph w) None write_version);
  let input_saver_def := saver in
  write_graph_and_checkpoint (nodes (default_graph w)) model_path
    input_saver_def checkpoint_to_use ;;
  output_node_names ←
    lift_result (output_node_names_of outputs additional_output_tensor_names);
  w ← get_state;
  frozen_graph_def ←
    freeze_graph_with_def_protos (nodes (default_graph w)) input_saver_def
      checkpoint_to_use output_node_names frozen_graph_path true;
  write_frozen_graph frozen_graph_path frozen_graph_def ;;
  _write_saved_model saved_model_path trained_checkpoint_prefix
    placeholder_tensor outputs.

(** ** Reading the call log *)

Definition is_freeze (c : call) : bool :=
  match c with
  | freeze_graph_with_def_protos_call _ _ _ => true
  | _ => false
  end.

(** A computation of the pipeline that only makes calls satisfying [P]. *)
Abbreviation calls_only := (logs (λ _ : world, tt) calls tt).

(** A computation of the pipeline that, besides, leaves the default graph
    and the checkpoints as they are. *)
Abbreviation keeps_checkpoints :=
  (logs (λ w : world, (default_graph w, checkpoints w)) calls).

(** ** A run to try the statements on *)

(** A model with one trained weight, and a training checkpoint that holds
    the weight (7), its moving average (5) and the global step. *)
Definition sample_model : model_fn := λ images,
  weights ← add_node "weights" (VariableV2 true) [] DT_FLOAT;
  add_node "MatMul" (Operation "MatMul") [images; weights] DT_FLOAT.

Definition sample_checkpoint : checkpoint :=
  mk_checkpoint V2
    {[ "weights" := 7; "weights/ExponentialMovingAverage" := 5;
       "global_step" := 100 ]}.

Definition sample_world : world :=
  mk_world (mk_graph [] []) []
    {[ "/train/model.ckpt-100" := sample_checkpoint ]} ∅ ∅ ["/tmp/tmp0"] [].

Definition sample_export (input_type : string)
    (input_shape : option (list (option Z)))
    (use_moving_averages : option bool)
    (additional_output_tensor_names : option (list string)) : M world unit :=
  export_inference_graph input_type 299 sample_model "/train/model.ckpt-100"
    "/export" input_shape use_moving_averages (Some "inference_op")
    additional_output_tensor_names None.

(** Between two worlds of one run: the bundles are left alone and no
    directory disappears. *)
Definition keeps_bundles (w w' : world) : Prop :=
  saved_models w' = saved_models w ∧ directories w ⊆ directories w'.

(** A training checkpoint written without moving averages. *)
Definition unaveraged_world : world :=
  mk_world (mk_graph [] []) []
    {[ "/train/model.ckpt-100" :=
         mk_checkpoint V2 {[ "weights" := 7; "global_step" := 100 ]} ]}
    ∅ ∅ ["/tmp/tmp0"] [].

(** A version-1 training checkpoint, which is one file. *)
Definition v1_world : world :=
  mk_world (mk_graph [] []) []
    {[ "/train/model.ckpt-100" :=
         mk_checkpoint V1 (ck_values sample_checkpoint) ]}
    ∅ ∅ ["/tmp/tmp0"] [].

End Exporter.

(** * Properties of the evaluation driver *)

(** ** Substring search *)

Lemma append_nil_l (s : string) : "" +:+ s = s.
Proof. reflexivity. Qed.

Lemma append_cons (c : ascii) (a b : string) :
  String c a +:+ b = String c (a +:+ b).
Proof. reflexivity. Qed.



(** ** Ceiling division *)



(** ** Rules for [logs] *)

Section logs_rules.
Context {S V Ev : Type} (view : S → V) (events : S → list Ev).
Context (v : V) (P : Ev → Prop).

Lemma logs_ret {A} (a : A) (Q : A → Prop) :
  Q a → logs view events v P (mret a) Q.
Proof.
  intros HQ s s' r Hv [= <- <-]. split; [done |]. split.
  - exists []. by rewrite app_nil_r.
  - by intros ? [= <-].
Qed.

Lemma logs_raise {A} (e : exn) (Q : A → Prop) :
  logs view events v P (raise e) Q.
Proof.
  intros s s' r Hv [= <- <-]. split; [done |]. split.
  - exists []. by rewrite app_nil_r.
  - by intros ? [=].
Qed.

Lemma logs_lift_result {A} (x : exn + A) :
  logs view events v P (lift_result x) (λ a, x = inr a).
Proof.
  intros s s' r Hv [= <- <-]. split; [done |]. split.
  - exists []. by rewrite app_nil_r.
  - done.
Qed.

Lemma logs_get_state : logs view events v P get_state (λ s, view s = v).
Proof.
  intros s s' r Hv [= <- <-]. split; [done |]. split.
  - exists []. by rewrite app_nil_r.
  - by intros ? [= <-].
Qed.

Lemma logs_modify_state (f : S → S) :
  (∀ s, view s = v → view (f s) = v) → (∀ s, events (f s) = events s) →
  logs view events v P (modify_state f) (λ _, True).
Proof.
  intros Hview Hevents s s' r Hv [= <- <-]. split; [by apply Hview |]. split.
  - exists []. by rewrite Hevents, app_nil_r.
  - done.
Qed.

Lemma logs_bind {A B} (c : M S A) (k : A → M S B)
    (Q : A → Prop) (R : B → Prop) :
  logs view events v P c Q → (∀ a, Q a → logs view events v P (k a) R) →
  logs view events v P (c ≫= k) R.
Proof.
  intros Hc Hk s s' r Hv. unfold mbind, M_MBind, M_bind.
  destruct (c s) as [s1 [e | a]] eqn:Hrun; intros Heq.
  - injection Heq as <- <-. destruct (Hc _ _ _ Hv Hrun) as (Hv1 & Hev & _).
    split; [done |]. split; [done | by intros ? [=]].
  - destruct (Hc _ _ _ Hv Hrun) as (Hv1 & (evs1 & Ht1 & HP1) & HQ).
    destruct (Hk a (HQ a eq_refl) _ _ _ Hv1 Heq)
      as (Hv2 & (evs2 & Ht2 & HP2) & HR).
    split; [done |]. split; [| done].
    exists (evs1 ++ evs2). rewrite Ht2, Ht1, app_assoc. split; [done |].
    by apply Forall_app.
Qed.

Lemma logs_weaken {A} (c : M S A) (Q Q' : A → Prop) :
  logs view events v P c Q → (∀ a, Q a → Q' a) →
  logs view events v P c Q'.
Proof.
  intros Hc Himp s s' r Hv Hrun.
  destruct (Hc _ _ _ Hv Hrun) as (Hv' & Hev & HQ).
  split; [done |]. split; [done |]. intros a Ha. by apply Himp, HQ.
Qed.

Lemma logs_for_each {A} (f : A → M S unit) (l : list A) :
  (∀ x, logs view events v P (f x) (λ _, True)) →
  logs view events v P (for_each f l) (λ _, True).
Proof.
  intros Hf. induction l as [|x l IH]; simpl.
  - by apply logs_ret.
  - eapply logs_bind; [apply Hf | done].
Qed.
End logs_rules.

(** A call of the driver is one logged event. *)
Lemma emits_call (F : Eval.flags) (P : Eval.event → Prop) {A}
    (e : Eval.event) (r : exn + A) :
  P e → Eval.emits F P (Eval.call e r) (λ a, r = inr a).
Proof.
  intros HP st st' r' HF [= <- <-]. split; [done |]. split.
  - exists [e]. split; [done | by constructor].
  - done.
Qed.

(** ** The calls of [main] *)

Section main_calls.
Import Eval.
Context (E : env) (F : flags).

Lemma num_batches_pure (ds : dataset) :
  ∃ r, ∀ s, num_batches F ds s = (s, r).
Proof.
  unfold num_batches.
  destruct (max_num_batches F) as [n|]; [destruct (truthy_int (Some n)) |];
    try destruct (batch_size F =? 0); eexists; intros s; reflexivity.
Qed.

Lemma emits_num_batches (P : event → Prop) (ds : dataset) :
  emits F P (num_batches F ds) (λ n, ∀ s, num_batches F ds s = (s, inr n)).
Proof.
  destruct (num_batches_pure ds) as [r Hr].
  intros st st' r' HF Hrun. rewrite Hr in Hrun. injection Hrun as <- <-.
  split; [done |]. split.
  - exists []. by rewrite app_nil_r.
  - intros a ->. done.
Qed.

Lemma emits_subscript (P : event → Prop) d k :
  emits F P (subscript d k) (λ _, True).
Proof.
  unfold subscript. destruct d as [m|]; [destruct (m !! k) |];
    first [by apply logs_ret | apply logs_raise].
Qed.

Lemma emits_annotate (P : event → Prop) tag real pred names name :
  emits F P (annotate tag real pred names name) (λ _, True).
Proof.
  unfold annotate. destruct (String.eqb name tag); [| by apply logs_ret].
  eapply logs_bind; [apply emits_subscript |]. intros r _.
  eapply logs_bind; [apply emits_subscript |]. intros p _.
  by apply logs_ret.
Qed.

Lemma emits_print_summaries ds names_to_values :
  emits F (main_event_ok E F) (print_summaries ds names_to_values)
    (λ _, True).
Proof.
  unfold print_summaries. case_bool_decide.
  - apply logs_for_each. intros [name value].
    eapply logs_weaken; [by apply emits_call | done].
  - apply logs_for_each. intros [name value].
    destruct (_ || _).
    + eapply logs_weaken; [by apply emits_call | done].
    + do 4 (eapply logs_bind; [apply emits_annotate |]; intros ? _).
      eapply logs_weaken; [by apply emits_call | done].
Qed.

Lemma bind_get_state {B} (k : state → M state B) (st : state) :
  (get_state ≫= k) st = k st st.
Proof. reflexivity. Qed.

Lemma bind_call_unit {B} (e : event) (k : unit → M state B) (st : state) :
  (call e (inr tt) ≫= k) st = k tt (mk_state (FLAGS st) (trace st ++ [e])).
Proof. reflexivity. Qed.

(** With a dataset directory, [main] logs first, keeps the flags, and
    every later call is as [main_event_ok] says. *)
Lemma main_run (st st' : state) (r : exn + unit) :
  FLAGS st = F →
  truthy_str (dataset_dir F) = true →
  main E st = (st', r) →
  FLAGS st' = F ∧
  ∃ evs, trace st' = trace st ++ set_verbosity :: evs ∧
         Forall (main_event_ok E F) evs.
Proof.
  intros HF Hdir Hrun. unfold main in Hrun.
  rewrite bind_get_state in Hrun. cbn zeta in Hrun.
  rewrite HF, Hdir in Hrun. cbn [negb] in Hrun.
  rewrite bind_call_unit in Hrun.
  match type of Hrun with ?c ?s = _ =>
    assert (emits F (main_event_ok E F) c (λ _, True)) as Hrest end.
  { eapply logs_bind; [by apply emits_call |]. intros _ _.
    eapply logs_bind; [by apply emits_call |]. intros ds Hds.
    eapply logs_bind; [apply emits_call; by exists ds |].
    intros size Hsize.
    eapply logs_bind; [by apply emits_call |]. intros _ _.
    eapply logs_bind; [by apply emits_call |]. intros _ _.
    eapply logs_bind.
    { instantiate (1 := λ _, True). destruct (quantize F).
      - eapply logs_weaken; [by apply emits_call | done].
      - by apply logs_ret. }
    intros _ _. unfold aggregate_metric_map.
    eapply logs_bind; [apply emits_print_summaries |]. intros _ _.
    eapply logs_bind; [apply emits_num_batches |]. intros n Hn.
    eapply logs_bind; [by apply emits_call |]. intros is_dir _.
    eapply logs_bind.
    { instantiate (1 := λ _, True). destruct is_dir.
      - eapply logs_weaken; [by apply emits_call | done].
      - by apply logs_ret. }
    intros checkpoint _.
    eapply logs_bind; [by apply emits_call |]. intros _ _.
    eapply logs_weaken; [apply emits_call | done].
    eexists ds, _, _, _. split; [done |]. split.
    { rewrite map_map. apply map_ext. by intros [name m]. }
    split; [| done].
    intros raw. cbn. by destruct raw. }
  apply Hrest in Hrun as (HF' & (evs & Ht & Hok) & _); [| exact HF].
  split; [done |]. exists evs. cbn [trace] in Ht.
  by rewrite Ht, <- app_assoc.
Qed.

Lemma main_without_dataset_dir (st : state) :
  truthy_str (dataset_dir (FLAGS st)) = false →
  main E st = (st, inl dataset_dir_error).
Proof.
  intros Hdir. unfold main. rewrite bind_get_state. cbn zeta.
  by rewrite Hdir.
Qed.
End main_calls.

Section main_events.
Import Eval.
Context (E : env).

Lemma new_events_app (st st' : state) (evs : list event) :
  trace st' = trace st ++ evs → new_events st st' = evs.
Proof. unfold new_events. intros ->. by rewrite drop_app_length. Qed.

Lemma main_new_events (st st' : state) (r : exn + unit) :
  main E st = (st', r) →
  Forall (main_event_ok E (FLAGS st)) (new_events st st').
Proof.
  intros Hrun.
  destruct (truthy_str (dataset_dir (FLAGS st))) eqn:Hdir.
  - destruct (main_run E _ _ _ _ eq_refl Hdir Hrun) as (_ & evs & Ht & Hok).
    rewrite (new_events_app _ _ _ Ht). by constructor.
  - rewrite main_without_dataset_dir in Hrun by done.
    injection Hrun as <- <-.
    rewrite (new_events_app st st []); [done | by rewrite app_nil_r].
Qed.

End main_events.

(** * The claims about the evaluation driver *)

Section eval_claims.
Import Eval.

(** C1. The metric set is selected by the class count of the dataset: the
    update operations handed to the evaluation loop are those of Accuracy,
    Precision, Recall and Recall_5 when [num_classes > 2], and those of
    Accuracy, Precision, Recall, F1_score, Auc_ROC, Auc_PR, TP, TN, FP and FN
    otherwise; the metric dict has exactly these keys and nothing else is
    computed. *)
Theorem C1_metric_set_by_class_count (E : env) (st st' : state)
    (r : exn + unit) (ds : dataset) m c l n ops rs :
  main E st = (st', r) →
  env_get_dataset E (dataset_name (FLAGS st)) (dataset_split_name (FLAGS st))
    (dataset_dir (FLAGS st)) = inr ds →
  evaluate_once m c l n ops rs ∈ new_events st st' →
  ∃ predictions labels logits,
    map fst (define_metrics ds predictions labels logits) =
      (if bool_decide (num_classes ds > 2)
       then ["Accuracy"; "Precision"; "Recall"; "Recall_5"]
       else ["Accuracy"; "Precision"; "Recall"; "F1_score"; "Auc_ROC";
             "Auc_PR"; "TP"; "TN"; "FP"; "FN"]) ∧
    ops =
      (if bool_decide (num_classes ds > 2)
       then [ update_op (streaming_accuracy slim_metrics predictions labels);
              update_op (streaming_precision slim_metrics predictions labels);
              update_op (streaming_recall slim_metrics predictions labels);
              update_op (streaming_recall_at_k slim_metrics logits labels 5) ]
       else [ update_op (streaming_accuracy local_metrics predictions labels);
              update_op (streaming_precision local_metrics predictions labels);
              update_op (streaming_recall local_metrics predictions labels);
              update_op (f1_score predictions labels);
              update_op (streaming_auc predictions labels "ROC");
              update_op (streaming_auc predictions labels "PR");
              update_op (streaming_true_positives predictions labels);
              update_op (streaming_true_negatives predictions labels);
              update_op (streaming_false_positives predictions labels);
              update_op (streaming_false_negatives predictions labels) ]).
Proof.
  intros Hrun Hds Hin.
  pose proof (main_new_events E _ _ _ Hrun) as Hok.
  rewrite Forall_forall in Hok. specialize (Hok _ Hin). cbn in Hok.
  destruct Hok as (ds' & predictions & labels & logits & Hds' & -> & _).
  rewrite Hds in Hds'. injection Hds' as <-.
  exists predictions, labels, logits. unfold define_metrics.
  by case_bool_decide.
Qed.

Lemma C1_witness :
  ∃ ops predictions labels,
    eval_ops_of
      (trace (main (sample_env 2)
                (mk_state (sample_flags (Some "/data/pets") None) [])).1)
      = [ops] ∧
    ops = [ update_op (streaming_accuracy local_metrics predictions labels);
            update_op (streaming_precision local_metrics predictions labels);
            update_op (streaming_recall local_metrics predictions labels);
            update_op (f1_score predictions labels);
            update_op (streaming_auc predictions labels "ROC");
            update_op (streaming_auc predictions labels "PR");
            update_op (streaming_true_positives predictions labels);
            update_op (streaming_true_negatives predictions labels);
            update_op (streaming_false_positives predictions labels);
            update_op (streaming_false_negatives predictions labels) ].
Proof.
  set (E := sample_env 2).
  set (st := mk_state (sample_flags (Some "/data/pets") None) []).
  assert (∃ m c l n ops rs,
            evaluate_once m c l n ops rs ∈ new_events st (main E st).1 ∧
            eval_ops_of (trace (main E st).1) = [ops])
    as (m & c & l & n & ops & rs & Hin & Hops).
  { vm_compute. do 6 eexists. split; [| reflexivity].
    repeat first [apply list_elem_of_here | apply list_elem_of_further]. }
  destruct (C1_metric_set_by_class_count E st (main E st).1 (main E st).2
              (sample_dataset 2) m c l n ops rs)
    as (predictions & labels & logits & _ & Heq).
  - by destruct (main E st).
  - reflexivity.
  - exact Hin.
  - exists ops, predictions, labels. split; [exact Hops | exact Heq].
Defined.




(** C6. [main] raises the [ValueError] about the dataset directory, having
    done nothing else, exactly when [FLAGS.dataset_dir] is unset or empty;
    with a dataset directory the check passes and the first thing [main]
    does is to set the logging verbosity. *)
Theorem C6_dataset_dir_check (E : env) (st : state) :
  (main E st = (st, inl dataset_dir_error)
   ↔ truthy_str (dataset_dir (FLAGS st)) = false) ∧
  head (new_events st (main E st).1) =
    (if truthy_str (dataset_dir (FLAGS st)) then Some set_verbosity else None).
Proof.
  destruct (truthy_str (dataset_dir (FLAGS st))) eqn:Hdir.
  - destruct (main E st) as [st' r] eqn:Hrun.
    destruct (main_run E _ _ _ _ eq_refl Hdir Hrun) as (_ & evs & Ht & _).
    split.
    + split; [| done]. intros [= -> _].
      apply (f_equal length) in Ht. rewrite length_app in Ht.
      cbn in Ht. lia.
    + cbn [fst]. by rewrite (new_events_app _ _ _ Ht).
  - rewrite main_without_dataset_dir by done. split; [done |].
    cbn [fst]. rewrite (new_events_app st st []); [done |].
    by rewrite app_nil_r.
Qed.





(** C9. Without [data_path] the entry block raises a [TypeError] at
    ['dog' in FLAGS.data_path]: [tf.app.run] is never reached, so [main] and
    its dataset-directory check do not run, whatever the other flags are,
    and no run without [data_path] ends normally.  The [output_path]
    override has been applied by then. *)
Theorem C9_missing_data_path (E : env) (F : flags) (tr : list event) :
  data_path F = None →
  ∃ st',
    __main__ E (mk_state F tr)
    = (st', inl (TypeError "argument of type 'NoneType' is not iterable")) ∧
    trace st' = tr ∧
    FLAGS st' = match output_path F with
                | Some o => set_eval_dir (Some o) F
                | None => F
                end ∧
    ∀ st'', __main__ E (mk_state F tr) ≠ (st'', inr tt).
Proof.
  intros Hdp. destruct F. cbn in Hdp. subst.
  unfold __main__. rewrite bind_get_state. cbn [FLAGS data_path].
  destruct output_path0; eexists; (split; [reflexivity |]);
    (split; [reflexivity |]); (split; [reflexivity |]); by intros st''.
Qed.

Lemma C9_witness :
  ∃ st',
    __main__ (sample_env 2) (mk_state (sample_flags None None) [])
    = (st', inl (TypeError "argument of type 'NoneType' is not iterable")) ∧
    trace st' = [] ∧
    dataset_dir (FLAGS st') = Some "/records".
Proof.
  destruct (C9_missing_data_path (sample_env 2) (sample_flags None None) []
              eq_refl) as (st' & Hrun & Htr & HF & _).
  exists st'. split; [exact Hrun |]. split; [exact Htr |]. by rewrite HF.
Defined.

End eval_claims.

(** * Properties of the export pipeline *)

(** ** Running the monad *)

Lemma bind_run {S A B} (c : M S A) (k : A → M S B) (s : S) :
  (c ≫= k) s = match c s with
               | (s', inl e) => (s', inl e)
               | (s', inr a) => k a s'
               end.
Proof. reflexivity. Qed.

Lemma bind_get {S B} (k : S → M S B) (s : S) : (get_state ≫= k) s = k s s.
Proof. reflexivity. Qed.

Lemma bind_inr {S A B} (c : M S A) (k : A → M S B) (s s' : S) (b : B) :
  (c ≫= k) s = (s', inr b) →
  ∃ s1 a, c s = (s1, inr a) ∧ k a s1 = (s', inr b).
Proof.
  rewrite bind_run. destruct (c s) as [s1 [e | a]]; [done |]. by exists s1, a.
Qed.

(** ** The input checks of [_build_model_graph] *)

Section build_model_graph.
Import Exporter.

Lemma dict_get_unknown_input_type (input_type : string) :
  input_type ≠ "image_tensor" →
  input_type ≠ "encoded_image_string_tensor" →
  dict_get input_placeholder_fn_map input_type = None.
Proof.
  intros H1 H2. unfold dict_get, input_placeholder_fn_map. cbn.
  repeat case_decide; simplify_eq/=; done.
Qed.

Lemma dict_get_known_input_type (input_type : string) :
  is_Some (dict_get input_placeholder_fn_map input_type) ↔
  input_type = "image_tensor" ∨ input_type = "encoded_image_string_tensor".
Proof.
  unfold dict_get, input_placeholder_fn_map. cbn.
  repeat case_decide; simplify_eq/=; split;
    first [by intros [? ?] | by eauto | by intros [? | ?]].
Qed.
End build_model_graph.

(** ** The calls of the pipeline steps *)

Section exporter_calls.
Import Exporter.
Context (P : call → Prop).

Lemma calls_log (c : call) : P c → calls_only P (log c) (λ _, True).
Proof.
  intros HP w w' r _ [= <- <-]. split; [done |]. split; [| done].
  exists [c]. split; [done | by constructor].
Qed.

Lemma calls_modify (f : world → world) :
  (∀ w, calls (f w) = calls w) → calls_only P (modify_state f) (λ _, True).
Proof. intros Hf. by apply logs_modify_state. Qed.

Lemma calls_in_default_graph {A} (c : M tf_graph A) :
  calls_only P (in_default_graph c) (λ _, True).
Proof.
  intros w w' r _. unfold in_default_graph.
  destruct (c (default_graph w)) as [g x]. intros [= <- <-].
  split; [done |]. split; [| done]. exists []. by rewrite app_nil_r.
Qed.

Lemma calls_saver_restore sv prefix :
  P (restore prefix) → calls_only P (saver_restore sv prefix) (λ _, True).
Proof.
  intros HP. unfold saver_restore.
  eapply logs_bind; [by apply calls_log |]. intros _ _.
  eapply logs_bind; [apply logs_get_state |]. intros w _.
  eapply logs_weaken; [apply logs_lift_result | done].
Qed.

Lemma calls_saver_save sv session prefix :
  P (save prefix) → calls_only P (saver_save sv session prefix) (λ _, True).
Proof.
  intros HP. unfold saver_save.
  eapply logs_bind; [by apply calls_log |]. intros _ _.
  eapply logs_bind; [apply logs_lift_result |]. intros c _.
  by apply calls_modify.
Qed.

Lemma calls_next_temp_name : calls_only P next_temp_name (λ _, True).
Proof.
  unfold next_temp_name.
  eapply logs_bind; [apply logs_get_state |]. intros w _.
  destruct (temp_names w); [apply logs_raise |].
  eapply logs_bind; [by apply calls_modify |]. intros _ _.
  by apply logs_ret.
Qed.

Lemma calls_replace graph current new :
  P (restore current) → P (save new) →
  calls_only P
    (replace_variable_values_with_moving_averages graph current new)
    (λ _, True).
Proof.
  intros HPr HPs. unfold replace_variable_values_with_moving_averages.
  eapply logs_bind; [apply logs_lift_result |]. intros read_saver _.
  eapply logs_bind; [by apply calls_saver_restore |]. intros session _.
  eapply logs_bind; [apply logs_lift_result |]. intros write_saver _.
  by apply calls_saver_save.
Qed.

Lemma calls_select_checkpoint_to_use use_moving_averages trained :
  (∀ prefix, P (restore prefix)) → (∀ prefix, P (save prefix)) →
  calls_only P (select_checkpoint_to_use use_moving_averages trained)
    (λ _, True).
Proof.
  intros HPr HPs. unfold select_checkpoint_to_use.
  destruct (default false use_moving_averages); [| by apply logs_ret].
  eapply logs_bind.
  { unfold os_path_isfile. eapply logs_bind; [apply logs_get_state |].
    intros w _. by apply (logs_ret _ _ _ _ _ (λ _, True)). }
  intros is_file _. eapply logs_bind.
  { instantiate (1 := λ _, True). destruct is_file.
    - eapply logs_bind; [apply calls_next_temp_name |]. intros name _.
      by apply logs_ret.
    - eapply logs_bind; [| intros name _; by apply logs_ret].
      instantiate (1 := λ _, True). unfold tempfile_mkdtemp.
      eapply logs_bind; [apply calls_next_temp_name |]. intros name _.
      eapply logs_bind; [by apply calls_modify |]. intros _ _.
      by apply logs_ret. }
  intros [write_version temp] _.
  eapply logs_bind; [apply logs_get_state |]. intros w _.
  eapply logs_bind; [by apply calls_replace |]. intros _ _.
  by apply logs_ret.
Qed.

Lemma calls_write_graph_and_checkpoint graph_def model_path sv prefix :
  P (restore prefix) → P (save model_path) →
  calls_only P (write_graph_and_checkpoint graph_def model_path sv prefix)
    (λ _, True).
Proof.
  intros HPr HPs. unfold write_graph_and_checkpoint.
  eapply logs_bind; [by apply calls_saver_restore |]. intros session _.
  eapply logs_bind; [by apply calls_saver_save |]. intros _ _.
  by apply calls_modify.
Qed.
End exporter_calls.

(** ** The calls of the steps after the intermediate checkpoint *)

Section exporter_tail.
Import Exporter.
Context (v : tf_graph * gmap string checkpoint) (P : call → Prop).





End exporter_tail.

(** ** Savers and checkpoints *)

Section savers.
Import Exporter.

Lemma keyed_lookup (f : string → string) (l : list string) (v : string) :
  (list_to_map ((λ x, (x, f x)) <$> l) : gmap string string) !! v
  = if decide (v ∈ l) then Some (f v) else None.
Proof.
  induction l as [|x l IH]; cbn.
  - rewrite lookup_empty. by rewrite decide_False by apply not_elem_of_nil.
  - rewrite lookup_insert. destruct (decide (x = v)) as [-> | Hne].
    + rewrite decide_True; [done | by left].
    + rewrite IH. destruct (decide (v ∈ l)) as [Hin | Hnin].
      * rewrite decide_True; [done | by right].
      * rewrite decide_False; [done |].
        intros [-> | ?]%elem_of_cons; done.
Qed.

Lemma Saver_identity (g : tf_graph) (version : write_version) (sv : saver) :
  Saver g None version = inr sv →
  sv_version sv = version ∧
  ∀ v, sv_keys sv !! v
       = if decide (v ∈ global_variables g) then Some v else None.
Proof.
  unfold Saver. case_bool_decide; [done |]. intros [= <-]. split; [done |].
  intros v. apply keyed_lookup.
Qed.

Lemma Saver_var_list (g : tf_graph) keys (version : write_version) sv :
  Saver g (Some keys) version = inr sv → sv_keys sv = keys.
Proof. unfold Saver. case_bool_decide; [done |]. by intros [= <-]. Qed.

Lemma trainable_is_global (g : tf_graph) (v : string) :
  v ∈ trainable_variables g → v ∈ global_variables g.
Proof.
  unfold trainable_variables, global_variables.
  intros (n & -> & Hn)%list_elem_of_fmap. apply list_elem_of_fmap.
  exists n. split; [done |]. apply list_elem_of_filter in Hn as [Ht Hn].
  apply list_elem_of_filter. split; [| done].
  unfold is_trainable in Ht. unfold is_variable. by destruct (n_kind n).
Qed.

Lemma variables_to_restore_trainable (g : tf_graph) (v : string) :
  v ∈ trainable_variables g →
  variables_to_restore g !! v = Some (average_name v).
Proof.
  intros Hv. unfold variables_to_restore. rewrite list_to_map_app.
  apply lookup_union_Some_l. rewrite keyed_lookup. by rewrite decide_True.
Qed.

Lemma saved_values_identity (keys : gmap string string)
    (session : gmap string Z) (v : string) :
  (∀ x key, keys !! x = Some key → key = x) →
  saved_values keys session !! v = keys !! v ≫= λ _, session !! v.
Proof.
  unfold saved_values. revert v.
  apply (map_fold_weak_ind
    (λ (r : gmap string Z) (m : gmap string string),
       ∀ v, (∀ x key, m !! x = Some key → key = x) →
            r !! v = m !! v ≫= λ _, session !! v)).
  - intros v _. by rewrite !lookup_empty.
  - intros i key m r Hi IH v Hid.
    assert (key = i) as -> by (apply Hid; by rewrite lookup_insert_eq).
    assert (∀ x key, m !! x = Some key → key = x) as Hm.
    { intros x k Hx. apply Hid. rewrite lookup_insert_ne; [done |].
      intros ->. congruence. }
    destruct (decide (i = v)) as [-> | Hne].
    + rewrite lookup_insert_eq. cbn. destruct (session !! v) as [y|] eqn:Hy.
      * by rewrite lookup_insert_eq.
      * rewrite IH by done. by rewrite Hi.
    + rewrite lookup_insert_ne by done.
      destruct (session !! i); [rewrite lookup_insert_ne by done |];
        by apply IH.
Qed.

Lemma restore_session_lookup (sv : saver) (c : checkpoint)
    (session : gmap string Z) (v : string) :
  restore_session sv (Some c) = inr session →
  session !! v = sv_keys sv !! v ≫= λ key, ck_values c !! key.
Proof.
  unfold restore_session. case_decide; [| done]. intros [= <-].
  apply lookup_omap.
Qed.

Lemma restore_session_found (sv : saver) (found : option checkpoint)
    (session : gmap string Z) :
  restore_session sv found = inr session →
  ∃ c, found = Some c ∧
       ∀ v key, sv_keys sv !! v = Some key → is_Some (ck_values c !! key).
Proof.
  destruct found as [c|]; [| done]. unfold restore_session.
  case_decide as Hall; [| done]. intros _. exists c. split; [done |].
  intros v key Hv. by apply (Hall v key).
Qed.
Lemma resaved_values (g : tf_graph) (version : write_version) (sv : saver)
    (ck ck' : checkpoint) (session : gmap string Z) (v : string) :
  Saver g None version = inr sv →
  restore_session sv (Some ck) = inr session →
  save_session sv session = inr ck' →
  v ∈ global_variables g →
  ck_values ck' !! v = ck_values ck !! v.
Proof.
  intros [_ Hid]%Saver_identity Hsession Hsave Hv.
  unfold save_session in Hsave. case_decide; [| done].
  injection Hsave as <-. cbn. rewrite saved_values_identity.
  - rewrite Hid, decide_True by done. cbn.
    rewrite (restore_session_lookup _ _ _ v Hsession).
    by rewrite Hid, decide_True by done.
  - intros x key. rewrite Hid. by case_decide; intros [=].
Qed.

Lemma restored_value (g : tf_graph) (version : write_version) (sv : saver)
    (ck : checkpoint) (session : gmap string Z) (v : string) :
  Saver g None version = inr sv →
  restore_session sv (Some ck) = inr session →
  v ∈ global_variables g →
  session !! v = ck_values ck !! v.
Proof.
  intros [_ Hid]%Saver_identity Hsession Hv.
  rewrite (restore_session_lookup _ _ _ v Hsession).
  by rewrite Hid, decide_True by done.
Qed.

End savers.

(** ** What each step of the pipeline leaves behind *)

Section exporter_steps.
Import Exporter.

Lemma new_calls_app (w w' : world) (cs : list call) :
  calls w' = calls w ++ cs → new_calls w w' = cs.
Proof. unfold new_calls. intros ->. by rewrite drop_app_length. Qed.

Lemma lift_result_inr {A} (x : exn + A) (w w' : world) (a : A) :
  lift_result x w = (w', inr a) → w' = w ∧ x = inr a.
Proof. by intros [= <- ->]. Qed.

Lemma saver_restore_run (sv : saver) (prefix : string) (w : world) :
  saver_restore sv prefix w
  = (add_call (restore prefix) w,
     restore_session sv (checkpoints w !! prefix)).
Proof. reflexivity. Qed.

Lemma saver_save_run (sv : saver) session (prefix : string) (w : world) :
  saver_save sv session prefix w
  = match save_session sv session with
    | inl e => (add_call (save prefix) w, inl e)
    | inr c => (set_checkpoints (<[prefix := c]> (checkpoints w))
                  (add_call (save prefix) w), inr tt)
    end.
Proof.
  unfold saver_save. rewrite !bind_run. cbn.
  by destruct (save_session sv session).
Qed.

Lemma write_frozen_graph_run (path : string) (graph_def : list node) w :
  write_frozen_graph path graph_def w
  = (set_graph_files (<[path := graph_def]> (graph_files w))
       (add_call (GFile_write path) w), inr tt).
Proof. reflexivity. Qed.

Lemma os_path_join_nonempty (a b : string) :
  b ≠ "" → os_path_join a b ≠ "".
Proof.
  intros Hb. unfold os_path_join.
  destruct (String.prefix "/" b); [done |].
  destruct (String.eqb_spec a "") as [-> | Ha]; [done |].
  destruct a as [|c a]; [done |]. by destruct (String.eqb _ "/").
Qed.

(** The substituted checkpoint: every trainable variable holds the value
    the current checkpoint has under the variable's shadow name. *)
Lemma replace_success (g : tf_graph) (current new : string) (w w' : world) :
  replace_variable_values_with_moving_averages g current new w
  = (w', inr tt) →
  ∃ c ck,
    checkpoints w !! current = Some c ∧
    w' = set_checkpoints (<[new := ck]> (checkpoints w))
           (add_call (save new) (add_call (restore current) w)) ∧
    ∀ v, v ∈ trainable_variables g →
         ∃ a, ck_values c !! average_name v = Some a ∧
              ck_values ck !! v = Some a.
Proof.
  unfold replace_variable_values_with_moving_averages. intros Hrun.
  apply bind_inr in Hrun as (w1 & read_saver & Hread & Hrun).
  apply lift_result_inr in Hread as [-> Hread].
  apply bind_inr in Hrun as (w2 & session & Hrestore & Hrun).
  rewrite saver_restore_run in Hrestore. injection Hrestore as <- Hsession.
  apply bind_inr in Hrun as (w3 & write_saver & Hwrite & Hrun).
  apply lift_result_inr in Hwrite as [-> Hwrite].
  rewrite saver_save_run in Hrun.
  destruct (save_session write_saver session) as [e | ck] eqn:Hsave; [done |].
  injection Hrun as <-.
  destruct (restore_session_found _ _ _ Hsession) as (c & Hc & Hkeys).
  cbn in Hc. exists c, ck. split; [done |]. split; [done |].
  intros v Hv. rewrite Hc in Hsession.
  apply Saver_var_list in Hread.
  pose proof (variables_to_restore_trainable g v Hv) as Hkey.
  rewrite <- Hread in Hkey.
  destruct (Hkeys v _ Hkey) as [a Ha]. exists a. split; [done |].
  unfold save_session in Hsave. case_decide; [| done].
  injection Hsave as <-. cbn.
  apply Saver_identity in Hwrite as [_ Hid].
  rewrite saved_values_identity.
  - rewrite Hid, decide_True by by apply trainable_is_global. cbn.
    rewrite (restore_session_lookup _ _ _ v Hsession), Hkey. done.
  - intros x key. rewrite Hid. by case_decide; intros [=].
Qed.

Lemma write_graph_and_checkpoint_success graph_def model_path sv prefix
    (w w' : world) :
  write_graph_and_checkpoint graph_def model_path sv prefix w
  = (w', inr tt) →
  ∃ session ck,
    restore_session sv (checkpoints w !! prefix) = inr session ∧
    save_session sv session = inr ck ∧
    w' = set_graph_files
           (<[model_path +:+ ".meta" := clear_devices graph_def]>
              (graph_files w))
           (set_checkpoints (<[model_path := ck]> (checkpoints w))
              (add_call (save model_path) (add_call (restore prefix) w))).
Proof.
  unfold write_graph_and_checkpoint. intros Hrun.
  apply bind_inr in Hrun as (w1 & session & Hrestore & Hrun).
  rewrite saver_restore_run in Hrestore. injection Hrestore as <- Hsession.
  apply bind_inr in Hrun as (w2 & [] & Hsave & Hrun).
  rewrite saver_save_run in Hsave.
  destruct (save_session sv session) as [e | ck] eqn:Hck; [done |].
  injection Hsave as <-. injection Hrun as <-. by exists session, ck.
Qed.

Lemma freeze_success graph_def sv input_checkpoint names output_graph
    (w w' : world) (frozen : list node) :
  output_graph ≠ "" →
  freeze_graph_with_def_protos graph_def sv input_checkpoint names
    output_graph true w = (w', inr frozen) →
  ∃ session,
    restore_session sv (checkpoints w !! input_checkpoint) = inr session ∧
    frozen = freeze_node session <$> clear_devices graph_def ∧
    w' = set_graph_files (<[output_graph := frozen]> (graph_files w))
           (add_call (restore input_checkpoint)
              (add_call (freeze_graph_with_def_protos_call input_checkpoint
                           names output_graph) w)).
Proof.
  intros Hog. unfold freeze_graph_with_def_protos. intros Hrun.
  apply bind_inr in Hrun as (w1 & [] & Hlog & Hrun).
  injection Hlog as <-. rewrite bind_get in Hrun.
  match type of Hrun with context [if ?b then _ else _] =>
    destruct b; [done |] end.
  destruct (String.eqb names ""); [done |].
  apply bind_inr in Hrun as (w2 & session & Hrestore & Hrun).
  rewrite saver_restore_run in Hrestore. injection Hrestore as <- Hsession.
  apply String.eqb_neq in Hog. rewrite Hog in Hrun.
  injection Hrun as <- <-. by exists session.
Qed.

Lemma _write_saved_model_success saved_model_path trained inputs outputs
    (w w' : world) :
  _write_saved_model saved_model_path trained inputs outputs w
  = (w', inr tt) →
  ∃ sv session,
    Saver (default_graph w) None V2 = inr sv ∧
    restore_session sv (checkpoints w !! trained) = inr session ∧
    w' = set_saved_models
           (<[saved_model_path :=
                mk_saved_model (nodes (default_graph w)) session [SERVING]
                  DEFAULT_SERVING_SIGNATURE_DEF_KEY PREDICT_METHOD_NAME
                  [("inputs", inputs)] outputs]> (saved_models w))
           (add_call (SavedModelBuilder_save saved_model_path)
              (add_call (restore trained) w)).
Proof.
  unfold _write_saved_model. rewrite bind_get. intros Hrun.
  apply bind_inr in Hrun as (w1 & sv & Hsv & Hrun).
  apply lift_result_inr in Hsv as [-> Hsv].
  apply bind_inr in Hrun as (w2 & session & Hrestore & Hrun).
  rewrite saver_restore_run in Hrestore. injection Hrestore as <- Hsession.
  apply bind_inr in Hrun as (w3 & [] & Hbuilder & Hrun).
  unfold SavedModelBuilder in Hbuilder. rewrite bind_get in Hbuilder.
  match type of Hbuilder with context [if ?b then _ else _] =>
    destruct b; [done |] end.
  injection Hbuilder as <-.
  rewrite bind_get in Hrun. injection Hrun as <-. by exists sv, session.
Qed.

Lemma select_checkpoint_to_use_plain use_moving_averages trained (w : world) :
  default false use_moving_averages = false →
  select_checkpoint_to_use use_moving_averages trained w
  = (w, inr (V2, trained)).
Proof. intros Huse. unfold select_checkpoint_to_use. by rewrite Huse. Qed.

End exporter_steps.


(** ** The whole pipeline *)

Section exporter_pipeline.
Import Exporter.

Lemma _add_output_tensor_nodes_keys postprocessed collection
    (g g' : tf_graph) (outputs : list (string * tensor)) :
  _add_output_tensor_nodes postprocessed collection g = (g', inr outputs) →
  fst <$> outputs = ["classes"; "logits"].
Proof.
  unfold _add_output_tensor_nodes. intros Hrun.
  apply bind_inr in Hrun as (g1 & classes & _ & Hrun).
  apply bind_inr in Hrun as (g2 & logits & _ & Hrun).
  apply bind_inr in Hrun as (g3 & [] & _ & Hrun).
  by injection Hrun as <- <-.
Qed.

Lemma _build_model_graph_keys input_type image_size model input_shape
    collection hook (g g' : tf_graph) (outputs : list (string * tensor))
    (placeholder_tensor : tensor) :
  _build_model_graph input_type image_size model input_shape collection hook g
  = (g', inr (outputs, placeholder_tensor)) →
  fst <$> outputs = ["classes"; "logits"].
Proof.
  unfold _build_model_graph.
  destruct (dict_get input_placeholder_fn_map input_type); [| done].
  intros Hrun.
  apply bind_inr in Hrun as (g1 & args & _ & Hrun).
  apply bind_inr in Hrun as (g2 & [ph inputs] & _ & Hrun).
  apply bind_inr in Hrun as (g3 & outs & Houts & Hrun).
  apply bind_inr in Hrun as (g4 & step & _ & Hrun).
  apply bind_inr in Hrun as (g5 & [] & _ & Hrun).
  injection Hrun as <- <- <-.
  unfold _get_outputs_from_inputs in Houts.
  apply bind_inr in Houts as (h1 & floats & _ & Houts).
  apply bind_inr in Houts as (h2 & pre & _ & Houts).
  apply bind_inr in Houts as (h3 & post & _ & Houts).
  by apply _add_output_tensor_nodes_keys in Houts.
Qed.

(** A run of the pipeline that ends normally went through every step. *)
Lemma export_inference_graph_success input_type image_size model trained
    output_directory input_shape use_moving_averages collection additional
    hook (w w' : world) :
  export_inference_graph input_type image_size model trained
    output_directory input_shape use_moving_averages collection additional
    hook w = (w', inr tt) →
  let frozen_graph_path :=
    os_path_join output_directory "frozen_inference_graph.pb" in
  let saved_model_path := os_path_join output_directory "saved_model" in
  let model_path := os_path_join output_directory "model.ckpt" in
  let w1 := set_directories (output_directory :: directories w)
              (add_call (MakeDirs output_directory) w) in
  ∃ g outputs placeholder_tensor w3 selected sv w4 names w5 frozen,
    _build_model_graph input_type image_size model input_shape collection
      hook (default_graph w) = (g, inr (outputs, placeholder_tensor)) ∧
    select_checkpoint_to_use use_moving_averages trained
      (set_default_graph g w1) = (w3, inr selected) ∧
    Saver (default_graph w3) None selected.1 = inr sv ∧
    write_graph_and_checkpoint (nodes (default_graph w3)) model_path sv
      selected.2 w3 = (w4, inr tt) ∧
    output_node_names_of outputs additional = inr names ∧
    freeze_graph_with_def_protos (nodes (default_graph w4)) sv selected.2
      names frozen_graph_path true w4 = (w5, inr frozen) ∧
    _write_saved_model saved_model_path trained placeholder_tensor outputs
      (set_graph_files (<[frozen_graph_path := frozen]> (graph_files w5))
         (add_call (GFile_write frozen_graph_path) w5)) = (w', inr tt).
Proof.
  unfold export_inference_graph. intros Hrun. cbn zeta.
  apply bind_inr in Hrun as (w1 & [] & Hdirs & Hrun).
  injection Hdirs as <-. cbn zeta in Hrun.
  apply bind_inr in Hrun as (w2 & [outputs placeholder_tensor] & Hbuild & Hrun).
  unfold in_default_graph in Hbuild. cbn [default_graph] in Hbuild.
  destruct (_build_model_graph _ _ _ _ _ _ _) as [g built] eqn:Hg.
  injection Hbuild as <- ->. cbn [fst snd] in Hrun.
  apply bind_inr in Hrun as (w3 & selected & Hselect & Hrun).
  rewrite bind_get in Hrun.
  apply bind_inr in Hrun as (w3' & sv & Hsv & Hrun).
  apply lift_result_inr in Hsv as [-> Hsv].
  apply bind_inr in Hrun as (w4 & [] & Hwrite & Hrun).
  apply bind_inr in Hrun as (w4' & names & Hnames & Hrun).
  apply lift_result_inr in Hnames as [-> Hnames].
  rewrite bind_get in Hrun.
  apply bind_inr in Hrun as (w5 & frozen & Hfreeze & Hrun).
  apply bind_inr in Hrun as (w6 & [] & Hfrozen & Hrun).
  rewrite write_frozen_graph_run in Hfrozen. injection Hfrozen as <-.
  by exists g, outputs, placeholder_tensor, w3, selected, sv, w4, names, w5,
    frozen.
Qed.
Lemma tf_gfile_MakeDirs_run (path : string) (w : world) :
  tf_gfile_MakeDirs path w
  = (set_directories (path :: directories w) (add_call (MakeDirs path) w),
     inr tt).
Proof. reflexivity. Qed.

(** Up to and including the intermediate checkpoint the pipeline does not
    look at [additional_output_tensor_names] and does not freeze. *)
Lemma export_inference_graph_prefix input_type image_size model trained
    output_directory input_shape use_moving_averages collection hook
    (w : world) :
  let frozen_graph_path :=
    os_path_join output_directory "frozen_inference_graph.pb" in
  let saved_model_path := os_path_join output_directory "saved_model" in
  let model_path := os_path_join output_directory "model.ckpt" in
  ∃ (wp : world)
    (rp : exn + (list (string * tensor) * tensor * saver * string))
    (cs : list call),
    calls wp = calls w ++ cs ∧
    Forall (λ c, is_freeze c = false) cs ∧
    ((∃ x, rp = inr x) →
       save model_path ∈ cs ∧
       is_Some (checkpoints wp !! model_path) ∧
       is_Some (graph_files wp !! (model_path +:+ ".meta"))) ∧
    (∀ outputs placeholder_tensor sv checkpoint_to_use,
       rp = inr (outputs, placeholder_tensor, sv, checkpoint_to_use) →
       ∃ g w3 selected session ck,
         _build_model_graph input_type image_size model input_shape
           collection hook (default_graph w)
         = (g, inr (outputs, placeholder_tensor)) ∧
         select_checkpoint_to_use use_moving_averages trained
           (set_default_graph g
              (set_directories (output_directory :: directories w)
                 (add_call (MakeDirs output_directory) w)))
         = (w3, inr selected) ∧
         checkpoint_to_use = selected.2 ∧
         Saver (default_graph w3) None selected.1 = inr sv ∧
         restore_session sv (checkpoints w3 !! selected.2) = inr session ∧
         save_session sv session = inr ck ∧
         default_graph wp = default_graph w3 ∧
         checkpoints wp = <[model_path := ck]> (checkpoints w3) ∧
         calls wp = calls w3 ++ [restore selected.2; save model_path]) ∧
    ∀ additional,
      export_inference_graph input_type image_size model trained
        output_directory input_shape use_moving_averages collection
        additional hook w
      = match rp with
        | inl e => (wp, inl e)
        | inr (outputs, placeholder_tensor, sv, checkpoint_to_use) =>
            (names ← lift_result (output_node_names_of outputs additional);
             w ← get_state;
             frozen ←
               freeze_graph_with_def_protos (nodes (default_graph w)) sv
                 checkpoint_to_use names frozen_graph_path true;
             write_frozen_graph frozen_graph_path frozen ;;
             _write_saved_model saved_model_path trained placeholder_tensor
               outputs) wp
        end.
Proof.
  intros frozen_graph_path saved_model_path model_path.
  set (w1 := set_directories (output_directory :: directories w)
               (add_call (MakeDirs output_directory) w)).
  assert (∀ additional,
            export_inference_graph input_type image_size model trained
              output_directory input_shape use_moving_averages collection
              additional hook w
            = match _build_model_graph input_type image_size model
                      input_shape collection hook (default_graph w) with
              | (g, inl e) => (set_default_graph g w1, inl e)
              | (g, inr built) =>
                  match select_checkpoint_to_use use_moving_averages trained
                          (set_default_graph g w1) with
                  | (w3, inl e) => (w3, inl e)
                  | (w3, inr selected) =>
                      match Saver (default_graph w3) None selected.1 with
                      | inl e => (w3, inl e)
                      | inr sv =>
                          match write_graph_and_checkpoint
                                  (nodes (default_graph w3)) model_path sv
                                  selected.2 w3 with
                          | (w4, inl e) => (w4, inl e)
                          | (w4, inr _) =>
                              (names ← lift_result
                                 (output_node_names_of built.1 additional);
                               w ← get_state;
                               frozen ←
                                 freeze_graph_with_def_protos
                                   (nodes (default_graph w)) sv selected.2
                                   names frozen_graph_path true;
                               write_frozen_graph frozen_graph_path frozen ;;
                               _write_saved_model saved_model_path trained
                                 built.2 built.1) w4
                          end
                      end
                  end
              end) as Hexport.
  { intros additional. unfold export_inference_graph.
    rewrite bind_run, tf_gfile_MakeDirs_run. cbn zeta. fold w1.
    rewrite bind_run. unfold in_default_graph.
    change (default_graph w1) with (default_graph w).
    destruct (_build_model_graph _ _ _ _ _ _ _) as [g [e | built]];
      [done |].
    rewrite bind_run.
    destruct (select_checkpoint_to_use _ _ _) as [w3 [e | selected]];
      [done |].
    rewrite bind_get, bind_run. unfold lift_result at 1.
    destruct (Saver _ _ _) as [e | sv]; [done |].
    rewrite bind_run.
    by destruct (write_graph_and_checkpoint _ _ _ _ _) as [w4 [e | []]]. }
  destruct (_build_model_graph input_type image_size model input_shape
              collection hook (default_graph w))
    as [g [e | [outputs placeholder_tensor]]] eqn:Hbuild.
  { exists (set_default_graph g w1), (inl e), [MakeDirs output_directory].
    split; [done |]. split; [by repeat constructor |].
    split; [by intros [? [=]] |]. split; [by intros ? ? ? ? [=] | done]. }
  destruct (select_checkpoint_to_use use_moving_averages trained
              (set_default_graph g w1)) as [w3 [e | selected]] eqn:Hselect.
  { destruct (calls_select_checkpoint_to_use (λ c, is_freeze c = false)
                use_moving_averages trained ltac:(done) ltac:(done)
                _ _ _ eq_refl Hselect) as (_ & (cs & Hcs & Hfree) & _).
    exists w3, (inl e), (MakeDirs output_directory :: cs).
    split; [by rewrite Hcs; cbn; rewrite <- app_assoc |].
    split; [by constructor |]. split; [by intros [? [=]] |].
    split; [by intros ? ? ? ? [=] | done]. }
  destruct (calls_select_checkpoint_to_use (λ c, is_freeze c = false)
              use_moving_averages trained ltac:(done) ltac:(done)
              _ _ _ eq_refl Hselect) as (_ & (cs & Hcs & Hfree) & _).
  cbn [calls set_default_graph w1 set_directories add_call] in Hcs.
  destruct (Saver (default_graph w3) None selected.1) as [e | sv] eqn:Hsv.
  { exists w3, (inl e), (MakeDirs output_directory :: cs).
    split; [by rewrite Hcs, <- app_assoc |].
    split; [by constructor |]. split; [by intros [? [=]] |].
    split; [by intros ? ? ? ? [=] | done]. }
  destruct (write_graph_and_checkpoint (nodes (default_graph w3)) model_path
              sv selected.2 w3) as [w4 [e | []]] eqn:Hwrite.
  { destruct (calls_write_graph_and_checkpoint (λ c, is_freeze c = false)
                _ _ _ _ ltac:(done) ltac:(done) _ _ _ eq_refl Hwrite)
      as (_ & (cs' & Hcs' & Hfree') & _).
    exists w4, (inl e), (MakeDirs output_directory :: cs ++ cs').
    split; [by rewrite Hcs', Hcs, <- !app_assoc |].
    split; [constructor; [done | by apply Forall_app] |].
    split; [by intros [? [=]] |]. split; [by intros ? ? ? ? [=] | done]. }
  apply write_graph_and_checkpoint_success in Hwrite
    as (session & ck & Hsession & Hsave & Hw4).
  exists w4, (inr (outputs, placeholder_tensor, sv, selected.2)),
    (MakeDirs output_directory
       :: cs ++ [restore selected.2; save model_path]).
  rewrite Hw4 at 1 2 3.
  cbn [calls checkpoints graph_files set_graph_files set_checkpoints
    add_call].
  split; [by rewrite Hcs, <- !app_assoc |].
  split; [constructor; [done |]; apply Forall_app; split;
          [done | by repeat constructor] |].
  split; [| split; [| done]].
  - intros _. split_and!.
    + apply list_elem_of_further, elem_of_app. right.
      apply list_elem_of_further, list_elem_of_here.
    + by rewrite lookup_insert_eq.
    + by rewrite lookup_insert_eq.
  - intros ? ? ? ? [= <- <- <- <-].
    exists g, w3, selected, session, ck. split_and!; try done.
    + by rewrite Hw4.
    + by rewrite Hw4.
    + rewrite Hw4. cbn [calls set_graph_files set_checkpoints add_call].
      by rewrite <- app_assoc.
Qed.

End exporter_pipeline.

Section export_claims_graph.
Import Exporter.

(** C5. [_build_model_graph] rejects an input type other than
  ['image_tensor'] and ['encoded_image_string_tensor'] with a [ValueError]
  and an untouched graph: no placeholder, no tensor.  It rejects an input
  shape with any input type but ['image_tensor'], again with a
  [ValueError] and an untouched graph.  With ['image_tensor'] and an input
  shape both checks pass, and the first node built is the placeholder of
  that shape. *)
Theorem C5_input_type_and_shape_checks (input_type : string) (image_size : Z)
  (model : model_fn) (input_shape : option (list (option Z)))
  (output_collection_name : option string)
  (graph_hook_fn : option (M tf_graph unit)) (g : tf_graph) :
(input_type ≠ "image_tensor" →
 input_type ≠ "encoded_image_string_tensor" →
 _build_model_graph input_type image_size model input_shape
   output_collection_name graph_hook_fn g
 = (g, inl (ValueError ("Unknown input type: " +:+ input_type)))) ∧
(is_Some input_shape → input_type ≠ "image_tensor" →
 ∃ msg, _build_model_graph input_type image_size model input_shape
          output_collection_name graph_hook_fn g
        = (g, inl (ValueError msg))) ∧
(∀ shape, input_type = "image_tensor" → input_shape = Some shape →
 let input_tensor := mk_tensor (unique_name g "image_tensor") DT_UINT8 in
 _build_model_graph input_type image_size model input_shape
   output_collection_name graph_hook_fn g
 = (outputs ← _get_outputs_from_inputs input_tensor image_size model
                output_collection_name;
    get_or_create_global_step ;;
    match graph_hook_fn with
    | Some hook => hook
    | None => mret tt
    end ;;
    mret (outputs, input_tensor))
     (mk_graph
        (nodes g ++ [mk_node (unique_name g "image_tensor")
                       (Placeholder DT_UINT8 shape) [] ""])
        (collections g))).
Proof.
split_and!.
- intros H1 H2. unfold _build_model_graph.
  by rewrite dict_get_unknown_input_type.
- intros [shape ->] Hne. unfold _build_model_graph.
  destruct (dict_get input_placeholder_fn_map input_type) as [fn|] eqn:Hfn;
    [| by eexists].
  apply mk_is_Some, dict_get_known_input_type in Hfn as [-> | ->];
    [done | by eexists].
- intros shape -> ->. reflexivity.
Qed.

Lemma C5_witness :
_build_model_graph "tf_example" 299 sample_model None
  (Some "inference_op") None (mk_graph [] [])
= (mk_graph [] [], inl (ValueError "Unknown input type: tf_example")) ∧
(∃ msg,
   _build_model_graph "encoded_image_string_tensor" 299 sample_model
     (Some [None; Some 299; Some 299; Some 3]) (Some "inference_op") None
     (mk_graph [] [])
   = (mk_graph [] [], inl (ValueError msg))).
Proof.
destruct (C5_input_type_and_shape_checks "encoded_image_string_tensor" 299
            sample_model (Some [None; Some 299; Some 299; Some 3])
            (Some "inference_op") None (mk_graph [] []))
  as (_ & Hshape & _).
destruct (C5_input_type_and_shape_checks "tf_example" 299
            sample_model None (Some "inference_op") None (mk_graph [] []))
  as (Hunknown & _ & _).
split.
- by apply Hunknown.
- by apply Hshape.
Defined.

End export_claims_graph.

Section export_claims_pipeline.
Import Exporter.






(** C10. Whatever list is passed as [additional_output_tensor_names], the
    export never ends normally and never reaches the freezing step; and
    whenever the same export without additional names gets as far as
    freezing, the export with them raises the [TypeError] of
    [dict_keys + list] instead, after the graph and the intermediate
    checkpoint have been written. *)
Theorem C10_additional_output_names_raise input_type image_size model trained
    output_directory input_shape use_moving_averages collection
    (additional : list string) hook (w : world) :
  let run_with :=
    export_inference_graph input_type image_size model trained
      output_directory input_shape use_moving_averages collection
      (Some additional) hook w in
  let run_without :=
    export_inference_graph input_type image_size model trained
      output_directory input_shape use_moving_averages collection
      None hook w in
  let model_path := os_path_join output_directory "model.ckpt" in
  (run_with.2 ≠ inr tt ∧
   ∀ c, c ∈ new_calls w run_with.1 → is_freeze c = false) ∧
  ((∃ c, c ∈ new_calls w run_without.1 ∧ is_freeze c = true) →
   run_with.2
   = inl (TypeError
            "unsupported operand type(s) for +: 'dict_keys' and 'list'") ∧
   save model_path ∈ new_calls w run_with.1 ∧
   is_Some (checkpoints run_with.1 !! model_path) ∧
   is_Some (graph_files run_with.1 !! (model_path +:+ ".meta"))).
Proof.
  intros run_with run_without model_path.
  destruct (export_inference_graph_prefix input_type image_size model trained
              output_directory input_shape use_moving_averages collection
              hook w)
    as (wp & rp & cs & Hcalls & Hfree & Hwritten & _ & Hexport).
  fold model_path in Hwritten.
  unfold run_with, run_without. rewrite !Hexport.
  apply new_calls_app in Hcalls. rewrite Forall_forall in Hfree.
  destruct rp as [e | [[[outputs placeholder_tensor] sv] checkpoint_to_use]].
  - cbn [fst snd]. rewrite Hcalls. split; [by split |].
    intros (c & Hc & Hfreeze). rewrite (Hfree c Hc) in Hfreeze. done.
  - assert (∀ k : string → M world unit,
              (lift_result (output_node_names_of outputs (Some additional))
               ≫= k) wp
              = (wp, inl (TypeError
                   "unsupported operand type(s) for +: 'dict_keys' and 'list'")))
      as Htail by (intros k; reflexivity).
    rewrite !Htail.
    cbn [fst snd]. rewrite Hcalls. split; [by split |].
    intros _. split; [done |]. apply Hwritten. by eexists.
Qed.

Lemma C10_witness :
  let run := sample_export "image_tensor" None None (Some ["MatMul"])
               sample_world in
  run.2 = inl (TypeError
                 "unsupported operand type(s) for +: 'dict_keys' and 'list'") ∧
  save "/export/model.ckpt" ∈ new_calls sample_world run.1 ∧
  is_Some (checkpoints run.1 !! "/export/model.ckpt") ∧
  is_Some (graph_files run.1 !! "/export/model.ckpt.meta").
Proof.
  intros run.
  apply (C10_additional_output_names_raise "image_tensor" 299 sample_model
           "/train/model.ckpt-100" "/export" None None (Some "inference_op")
           ["MatMul"] None sample_world).
  exists (freeze_graph_with_def_protos_call "/train/model.ckpt-100"
            "classes,logits" "/export/frozen_inference_graph.pb").
  split; [| reflexivity]. vm_compute.
  repeat first [apply list_elem_of_here | apply list_elem_of_further].
Defined.

End export_claims_pipeline.



(** * Further properties of the evaluation driver *)

Section eval_calls.
Import Eval.
Context (E : env) (F : flags).

Lemma logs_for_each_elem {S V Ev A} (view : S → V) (events : S → list Ev)
    (v : V) (P : Ev → Prop) (f : A → M S unit) (l : list A) :
  (∀ x, x ∈ l → logs view events v P (f x) (λ _, True)) →
  logs view events v P (for_each f l) (λ _, True).
Proof.
  induction l as [|x l IH]; intros Hf; simpl.
  - by apply logs_ret.
  - eapply logs_bind; [apply Hf; by left |]. intros _ _.
    apply IH. intros y Hy. apply Hf. by right.
Qed.

Lemma append_assoc (a b c : string) : (a +:+ b) +:+ c = a +:+ b +:+ c.
Proof.
  induction a as [|x a IH]; [done |]. by rewrite !append_cons, IH.
Qed.

Lemma append_nil_r (a : string) : a +:+ "" = a.
Proof. induction a as [|x a IH]; [done |]. by rewrite append_cons, IH. Qed.

(** An annotation only appends to the name. *)
Lemma emits_annotate_suffix (P : event → Prop) tag real pred names name :
  emits F P (annotate tag real pred names name)
    (λ name', ∃ suffix, name' = name +:+ suffix).
Proof.
  unfold annotate. destruct (String.eqb name tag).
  - eapply logs_bind; [apply emits_subscript |]. intros r _.
    eapply logs_bind; [apply emits_subscript |]. intros p _.
    apply logs_ret. by eexists.
  - apply logs_ret. exists "". by rewrite append_nil_r.
Qed.

Lemma define_metrics_no_curve ds predictions labels logits key m :
  (key, m) ∈ define_metrics ds predictions labels logits →
  String.eqb key "ROC_curve" || String.eqb key "PR_curve" = false.
Proof.
  unfold define_metrics. case_bool_decide; intros Hin;
    repeat (apply elem_of_cons in Hin as [[= -> _] | Hin]; [done |]);
    by apply elem_of_nil in Hin.
Qed.

Lemma emits_print_summaries_detail ds predictions labels logits :
  env_get_dataset E (dataset_name F) (dataset_split_name F) (dataset_dir F)
  = inr ds →
  emits F (main_call_ok E F)
    (print_summaries ds
       (aggregate_metric_map
          (define_metrics ds predictions labels logits)).1)
    (λ _, True).
Proof.
  intros Hds. unfold print_summaries, aggregate_metric_map. cbn [fst].
  assert (∀ key value suffix,
            (key, value)
            ∈ map (λ '(n, m), (n, value_op m))
                (define_metrics ds predictions labels logits) →
            main_call_ok E F
              (add_summary scalar_summary
                 ("evaluation_results/" +:+ key +:+ suffix) value)) as Hok.
  { intros key value suffix ([key' m] & [= -> ->] & Hin)%list_elem_of_fmap.
    split; [done |]. by exists ds, predictions, labels, logits, key', m, suffix. }
  case_bool_decide.
  - apply logs_for_each_elem. intros [key value] Hin.
    eapply logs_weaken; [apply emits_call | done].
    specialize (Hok key value "" Hin). by rewrite append_nil_r in Hok.
  - apply logs_for_each_elem. intros [key value] Hin.
    assert (String.eqb key "ROC_curve" || String.eqb key "PR_curve" = false)
      as ->.
    { apply list_elem_of_fmap in Hin as ([key' m] & [= -> ->] & Hin).
      by eapply define_metrics_no_curve. }
    eapply logs_bind; [apply emits_annotate_suffix |]. intros ? [s1 ->].
    eapply logs_bind; [apply emits_annotate_suffix |]. intros ? [s2 ->].
    eapply logs_bind; [apply emits_annotate_suffix |]. intros ? [s3 ->].
    eapply logs_bind; [apply emits_annotate_suffix |]. intros ? [s4 ->].
    eapply logs_weaken; [apply emits_call | done].
    rewrite !append_assoc. by apply Hok.
Qed.

(** With a dataset directory, every call of [main] is as [main_call_ok]
    says. *)
Lemma main_run_detail (st st' : state) (r : exn + unit) :
  FLAGS st = F →
  truthy_str (dataset_dir F) = true →
  main E st = (st', r) →
  ∃ evs, trace st' = trace st ++ evs ∧ Forall (main_call_ok E F) evs.
Proof.
  intros HF Hdir Hrun. unfold main in Hrun.
  rewrite bind_get_state in Hrun. cbn zeta in Hrun.
  rewrite HF, Hdir in Hrun. cbn [negb] in Hrun.
  match type of Hrun with ?c ?s = _ =>
    assert (emits F (main_call_ok E F) c (λ _, True)) as Hmain end.
  { eapply logs_bind; [by apply emits_call |]. intros _ _.
    eapply logs_bind; [by apply emits_call |]. intros _ _.
    eapply logs_bind; [by apply emits_call |]. intros ds Hds.
    eapply logs_bind; [by apply emits_call |]. intros size Hsize.
    eapply logs_bind; [by apply emits_call |]. intros _ _.
    eapply logs_bind; [by apply emits_call |]. intros _ _.
    eapply logs_bind.
    { instantiate (1 := λ _, True). destruct (quantize F) eqn:Hq.
      - eapply logs_weaken; [by apply emits_call | done].
      - by apply logs_ret. }
    intros _ _.
    match goal with |- context [aggregate_metric_map ?ms] =>
      destruct (aggregate_metric_map ms) as [values updates] eqn:Hmap end.
    eapply logs_bind.
    { match type of Hmap with aggregate_metric_map ?ms = _ =>
        replace values with (aggregate_metric_map ms).1
          by by rewrite Hmap end.
      by apply emits_print_summaries_detail. }
    intros _ _.
    eapply logs_bind; [apply emits_num_batches |]. intros n Hn.
    eapply logs_bind; [by apply emits_call |]. intros is_dir His_dir.
    eapply logs_bind.
    { instantiate (1 := λ c,
        env_IsDirectory E (checkpoint_path F) = inr true ∧
        env_latest_checkpoint E (checkpoint_path F) = inr c
        ∨ env_IsDirectory E (checkpoint_path F) = inr false ∧
          c = checkpoint_path F).
      destruct is_dir.
      - eapply logs_weaken; [by apply emits_call |]. intros c Hc. by left.
      - apply logs_ret. by right. }
    intros checkpoint Hcheckpoint.
    eapply logs_bind; [by apply emits_call |]. intros _ _.
    eapply logs_weaken; [by apply emits_call | done]. }
  by destruct (Hmain _ _ _ HF Hrun) as (_ & Hevs & _).
Qed.

Lemma main_new_events_detail (st st' : state) (r : exn + unit) :
  FLAGS st = F →
  main E st = (st', r) →
  Forall (main_call_ok E F) (new_events st st').
Proof.
  intros HF Hrun.
  destruct (truthy_str (dataset_dir F)) eqn:Hdir.
  - destruct (main_run_detail _ _ _ HF Hdir Hrun) as (evs & Ht & Hok).
    by rewrite (new_events_app _ _ _ Ht).
  - rewrite main_without_dataset_dir in Hrun by by rewrite HF.
    injection Hrun as <- <-.
    rewrite (new_events_app st st []); [done | by rewrite app_nil_r].
Qed.
End eval_calls.

Section eval_summaries.
Import Eval.
Context (E : env) (F : flags).

Lemma annotate_run tag real pred (names : gmap Z string) name r p st :
  names !! real = Some r → names !! pred = Some p →
  annotate tag real pred (Some names) name st
  = (st, inr (if String.eqb name tag
              then name +:+ ": Real-" +:+ r +:+ ", Pred-" +:+ p
              else name)).
Proof.
  intros Hr Hp. unfold annotate, subscript.
  destruct (String.eqb name tag); [| done].
  rewrite !bind_run, Hr. cbn. by rewrite Hp.
Qed.

(** With both class names at hand the summaries of a two-class dataset are
    all written, one call per entry. *)
Lemma print_summaries_binary_run ds (names : gmap Z string) a b
    (names_to_values : list (string * op)) st :
  ¬ num_classes ds > 2 → labels_to_names ds = Some names →
  names !! 0 = Some a → names !! 1 = Some b →
  print_summaries ds names_to_values st
  = (mk_state (FLAGS st)
       (trace st ++
        map (λ '(name, value),
               if String.eqb name "ROC_curve" || String.eqb name "PR_curve"
               then add_summary tensor_summary
                      ("evaluation_results/" +:+ name) value
               else
                 let name :=
                   if String.eqb name "TP"
                   then name +:+ ": Real-" +:+ b +:+ ", Pred-" +:+ b
                   else name in
                 let name :=
                   if String.eqb name "FN"
                   then name +:+ ": Real-" +:+ b +:+ ", Pred-" +:+ a
                   else name in
                 let name :=
                   if String.eqb name "FP"
                   then name +:+ ": Real-" +:+ a +:+ ", Pred-" +:+ b
                   else name in
                 let name :=
                   if String.eqb name "TN"
                   then name +:+ ": Real-" +:+ a +:+ ", Pred-" +:+ a
                   else name in
                 add_summary scalar_summary
                   ("evaluation_results/" +:+ name) value)
          names_to_values), inr tt).
Proof.
  intros Hbinary Hnames Ha Hb. unfold print_summaries.
  rewrite bool_decide_eq_false_2, Hnames by done.
  revert st. induction names_to_values as [|[name value] nv IH]; intros st.
  - cbn. rewrite app_nil_r. by destruct st.
  - cbn [for_each map]. rewrite bind_run.
    destruct (String.eqb name "ROC_curve" || String.eqb name "PR_curve").
    + unfold call at 1. rewrite IH. cbn [FLAGS trace].
      by rewrite <- app_assoc.
    + rewrite bind_run, (annotate_run _ _ _ _ _ _ _ _ Hb Hb).
      rewrite bind_run, (annotate_run _ _ _ _ _ _ _ _ Hb Ha).
      rewrite bind_run, (annotate_run _ _ _ _ _ _ _ _ Ha Hb).
      rewrite bind_run, (annotate_run _ _ _ _ _ _ _ _ Ha Ha).
      unfold call at 1. rewrite IH. cbn [FLAGS trace].
      by rewrite <- app_assoc.
Qed.

Lemma emits_annotate_miss (P : event → Prop) tag real pred names name :
  String.eqb name tag = false →
  emits F P (annotate tag real pred names name) (λ name', name' = name).
Proof. intros Hmiss. unfold annotate. rewrite Hmiss. by apply logs_ret. Qed.

Lemma emits_annotate_hit (P : event → Prop) tag real pred names name :
  emits F P (annotate tag real pred names name)
    (λ name', ∃ suffix, name' = name +:+ suffix ∧
       (String.eqb name tag = true →
        ∃ m r p, names = Some m ∧ m !! real = Some r ∧ m !! pred = Some p)).
Proof.
  unfold annotate. destruct (String.eqb name tag).
  - unfold subscript. destruct names as [m|]; [| apply logs_raise].
    destruct (m !! real) as [r|] eqn:Hr; [| apply logs_raise].
    eapply logs_bind; [by apply (logs_ret _ _ _ _ _ (λ x, x = r)) |].
    intros ? ->.
    destruct (m !! pred) as [p|] eqn:Hp; [| apply logs_raise].
    eapply logs_bind; [by apply (logs_ret _ _ _ _ _ (λ x, x = p)) |].
    intros ? ->. apply logs_ret. eexists. split; [done |].
    intros _. by exists m, r, p.
  - apply logs_ret. exists "". by rewrite append_nil_r.
Qed.

Lemma logs_for_each_raises {S V Ev A} (view : S → V) (events : S → list Ev)
    (v : V) (P : Ev → Prop) (f : A → M S unit) (l1 l2 : list A) (x : A) :
  (∀ y, logs view events v P (f y) (λ _, True)) →
  logs view events v P (f x) (λ _, False) →
  logs view events v P (for_each f (l1 ++ x :: l2)) (λ _, False).
Proof.
  intros Hall Hx. induction l1 as [|y l1 IH]; cbn [app for_each].
  - eapply logs_bind; [apply Hx | done].
  - eapply logs_bind; [apply Hall |]. intros _ _. apply IH.
Qed.
End eval_summaries.

Section eval_stops.
Import Eval.
Context (E : env) (F : flags).

Lemma emits_print_summaries_any (P : event → Prop) ds names_to_values :
  (∀ kind name value, P (add_summary kind name value)) →
  emits F P (print_summaries ds names_to_values) (λ _, True).
Proof.
  intros HP. unfold print_summaries. case_bool_decide.
  - apply logs_for_each. intros [name value].
    eapply logs_weaken; [by apply emits_call | done].
  - apply logs_for_each. intros [name value].
    destruct (_ || _).
    + eapply logs_weaken; [by apply emits_call | done].
    + do 4 (eapply logs_bind; [apply emits_annotate |]; intros ? _).
      eapply logs_weaken; [by apply emits_call | done].
Qed.

(** Without both class names the summaries of a two-class dataset cannot
    be written: the loop raises at the first count it has to annotate. *)
Lemma emits_print_summaries_unnamed (P : event → Prop) ds predictions labels
    logits :
  (∀ kind name value, P (add_summary kind name value)) →
  ¬ num_classes ds > 2 →
  (∀ m, labels_to_names ds = Some m → m !! 0 = None ∨ m !! 1 = None) →
  emits F P
    (print_summaries ds
       (aggregate_metric_map
          (define_metrics ds predictions labels logits)).1)
    (λ _, False).
Proof.
  intros HP Hbinary Hnames. unfold print_summaries.
  unfold define_metrics, aggregate_metric_map.
  rewrite !bool_decide_eq_false_2 by done. cbn [fst map].
  set (names := labels_to_names ds) in *.
  assert (∀ kv : string * op,
            emits F P
              ((λ '(name, value),
                  if String.eqb name "ROC_curve" || String.eqb name "PR_curve"
                  then call (add_summary tensor_summary
                               ("evaluation_results/" +:+ name) value)
                         (inr tt)
                  else
                    name ← annotate "TP" 1 1 names name;
                    name ← annotate "FN" 1 0 names name;
                    name ← annotate "FP" 0 1 names name;
                    name ← annotate "TN" 0 0 names name;
                    call (add_summary scalar_summary
                            ("evaluation_results/" +:+ name) value) (inr tt))
                 kv) (λ _, True)) as Hany.
  { intros [name value]. destruct (_ || _).
    - eapply logs_weaken; [by apply emits_call | done].
    - do 4 (eapply logs_bind; [apply emits_annotate |]; intros ? _).
      eapply logs_weaken; [by apply emits_call | done]. }
  assert (names = None ∨ (∃ m, names = Some m ∧ m !! 1 = None)
          ∨ (∃ m, names = Some m ∧ m !! 0 = None)) as Hcases.
  { destruct names as [m|] eqn:Hm; [| by left]. right.
    destruct (Hnames m eq_refl); [right | left]; by exists m. }
  assert (names = None ∨ (∃ m, names = Some m ∧ m !! 1 = None)
          ∨ (∃ m b, names = Some m ∧ m !! 1 = Some b ∧ m !! 0 = None))
    as [Hnone | [(m & Hm & H1) | (m & b & Hm & H1 & H0)]].
  { destruct Hcases as [? | [? | (m & Hm & H0)]]; [by left | by right; left |].
    destruct (m !! 1) as [b|] eqn:H1.
    - right; right. by exists m, b.
    - right; left. by exists m. }
  - match goal with |- context [for_each ?f ?l] =>
      change l with (firstn 6 l ++ nth 6 l ("", value_op (f1_score labels labels))
                     :: skipn 7 l) end.
    apply logs_for_each_raises; [exact Hany |]. cbn [nth].
    eapply logs_bind; [apply emits_annotate_hit |].
    intros ? (suffix & -> & Hhit).
    destruct (Hhit eq_refl) as (m & ? & ? & Hm & _). congruence.
  - match goal with |- context [for_each ?f ?l] =>
      change l with (firstn 6 l ++ nth 6 l ("", value_op (f1_score labels labels))
                     :: skipn 7 l) end.
    apply logs_for_each_raises; [exact Hany |]. cbn [nth].
    eapply logs_bind; [apply emits_annotate_hit |].
    intros ? (suffix & -> & Hhit).
    destruct (Hhit eq_refl) as (m' & ? & ? & Hm' & H1' & _). congruence.
  - match goal with |- context [for_each ?f ?l] =>
      change l with (firstn 7 l ++ nth 7 l ("", value_op (f1_score labels labels))
                     :: skipn 8 l) end.
    apply logs_for_each_raises; [exact Hany |]. cbn [nth].
    eapply logs_bind; [by apply emits_annotate_miss |]. intros ? ->.
    eapply logs_bind; [by apply emits_annotate_miss |]. intros ? ->.
    eapply logs_bind; [by apply emits_annotate_miss |]. intros ? ->.
    eapply logs_bind; [apply emits_annotate_hit |].
    intros ? (suffix & -> & Hhit).
    destruct (Hhit eq_refl) as (m' & ? & ? & Hm' & H0' & _). congruence.
Qed.

(** When the summaries or the batch count cannot be produced, [main] ends
    in an error and the evaluation loop is not started. *)
Lemma main_stops_before_evaluating (Q : dataset → Prop) (st st' : state)
    (r : exn + unit) :
  FLAGS st = F →
  main E st = (st', r) →
  (∀ ds predictions labels logits,
     env_get_dataset E (dataset_name F) (dataset_split_name F) (dataset_dir F)
     = inr ds →
     emits F (λ ev, is_evaluate_once ev = false)
       (print_summaries ds
          (aggregate_metric_map
             (define_metrics ds predictions labels logits)).1)
       (λ _, Q ds)) →
  (∀ ds,
     env_get_dataset E (dataset_name F) (dataset_split_name F) (dataset_dir F)
     = inr ds → Q ds →
     emits F (λ ev, is_evaluate_once ev = false) (num_batches F ds)
       (λ _, False)) →
  r ≠ inr tt ∧
  Forall (λ ev, is_evaluate_once ev = false) (new_events st st').
Proof.
  intros HF Hrun Hsummaries Hbatches.
  destruct (truthy_str (dataset_dir F)) eqn:Hdir.
  2: { rewrite main_without_dataset_dir in Hrun by by rewrite HF.
       injection Hrun as <- <-. split; [done |].
       rewrite (new_events_app st st []); [done | by rewrite app_nil_r]. }
  unfold main in Hrun. rewrite bind_get_state in Hrun. cbn zeta in Hrun.
  rewrite HF, Hdir in Hrun. cbn [negb] in Hrun.
  match type of Hrun with ?c ?s = _ =>
    assert (emits F (λ ev, is_evaluate_once ev = false) c (λ _, False))
      as Hmain end.
  { eapply logs_bind; [by apply emits_call |]. intros _ _.
    eapply logs_bind; [by apply emits_call |]. intros _ _.
    eapply logs_bind; [by apply emits_call |]. intros ds Hds.
    eapply logs_bind; [by apply emits_call |]. intros size Hsize.
    eapply logs_bind; [by apply emits_call |]. intros _ _.
    eapply logs_bind; [by apply emits_call |]. intros _ _.
    eapply logs_bind.
    { instantiate (1 := λ _, True). destruct (quantize F).
      - eapply logs_weaken; [by apply emits_call | done].
      - by apply logs_ret. }
    intros _ _.
    match goal with |- context [aggregate_metric_map ?ms] =>
      destruct (aggregate_metric_map ms) as [values updates] eqn:Hmap end.
    eapply logs_bind.
    { match type of Hmap with aggregate_metric_map ?ms = _ =>
        replace values with (aggregate_metric_map ms).1
          by by rewrite Hmap end.
      by apply Hsummaries. }
    intros ? HQ. cbn beta in HQ.
    eapply logs_bind; [by apply Hbatches |]. by intros n []. }
  destruct (Hmain _ _ _ HF Hrun) as (_ & (evs & Ht & Hevs) & Hr).
  split; [intros ->; by apply (Hr tt) |].
  by rewrite (new_events_app _ _ _ Ht).
Qed.

Lemma eval_ops_of_nil (evs : list event) :
  Forall (λ ev, is_evaluate_once ev = false) evs → eval_ops_of evs = [].
Proof.
  unfold eval_ops_of. induction 1 as [|ev evs Hev _ IH]; [done |].
  cbn. rewrite IH. by destruct ev.
Qed.
End eval_stops.

Section eval_extras.
Import Eval.

(** X1.  The checkpoint handed to the evaluation loop is the latest
    checkpoint of [checkpoint_path] when that path is a directory, and
    [checkpoint_path] itself, unmodified, otherwise; the latest checkpoint
    is looked up for a directory only. *)
Theorem main_resolves_checkpoint (E : env) (st st' : state)
    (r : exn + unit) :
  main E st = (st', r) →
  let path := checkpoint_path (FLAGS st) in
  (∀ m c l n ops rs,
     evaluate_once m c l n ops rs ∈ new_events st st' →
     env_IsDirectory E path = inr true ∧ env_latest_checkpoint E path = inr c
     ∨ env_IsDirectory E path = inr false ∧ c = path) ∧
  (∀ p, latest_checkpoint p ∈ new_events st st' →
        p = path ∧ env_IsDirectory E path = inr true).
Proof.
  intros Hrun path.
  pose proof (main_new_events_detail E _ _ _ _ eq_refl Hrun) as Hok.
  rewrite Forall_forall in Hok. split.
  - intros m c l n ops rs Hin. by destruct (Hok _ Hin) as [Hc _].
  - intros p Hin. exact (Hok _ Hin).
Qed.

Lemma main_resolves_checkpoint_witness :
  let st := mk_state (sample_flags (Some "/data/pets") None) [] in
  ∃ m c l n ops rs,
    evaluate_once m c l n ops rs ∈ new_events st (main directory_env st).1 ∧
    c = Some "/ckpt/model.ckpt-200".
Proof.
  intros st.
  assert (∃ m c l n ops rs,
            evaluate_once m c l n ops rs
              ∈ new_events st (main directory_env st).1)
    as (m & c & l & n & ops & rs & Hin).
  { vm_compute. do 6 eexists.
    repeat first [apply list_elem_of_here | apply list_elem_of_further]. }
  exists m, c, l, n, ops, rs. split; [exact Hin |].
  destruct (main_resolves_checkpoint directory_env st (main directory_env st).1
              (main directory_env st).2 (surjective_pairing _)) as [Hc _].
  destruct (Hc _ _ _ _ _ _ Hin) as [[_ Hlatest] | [Hdir _]].
  - by injection Hlatest.
  - discriminate Hdir.
Defined.



(** X3.  [main] builds for inference only: the network and the
    preprocessing are requested with [is_training=False], the preprocessing
    is the one named by [preprocessing_name], or by [model_name] when that
    flag is unset or empty, and the data provider does not shuffle and has
    a queue of twice the batch size with at least one batch in it. *)
Theorem main_builds_for_inference (E : env) (st st' : state)
    (r : exn + unit) :
  main E st = (st', r) →
  let F := FLAGS st in
  (∀ name classes is_training,
     get_network_fn name classes is_training ∈ new_events st st' →
     is_training = false) ∧
  (∀ name is_training grayscale,
     get_preprocessing name is_training grayscale ∈ new_events st st' →
     is_training = false ∧ grayscale = use_grayscale F ∧
     name = match preprocessing_name F with
            | Some p => if String.eqb p "" then model_name F else p
            | None => model_name F
            end) ∧
  (∀ ds shuffle capacity minimum,
     DatasetDataProvider ds shuffle capacity minimum ∈ new_events st st' →
     shuffle = false ∧ capacity = 2 * batch_size F ∧ minimum = batch_size F).
Proof.
  intros Hrun F.
  pose proof (main_new_events_detail E _ _ _ _ eq_refl Hrun) as Hok.
  rewrite Forall_forall in Hok. split_and!.
  - intros name classes is_training Hin. exact (Hok _ Hin).
  - intros name is_training grayscale Hin.
    destruct (Hok _ Hin) as (-> & -> & ->). split; [done |]. split; [done |].
    fold F. destruct (preprocessing_name F) as [p|]; [| done].
    cbn. by destruct (String.eqb p "").
  - intros ds shuffle capacity minimum Hin. exact (Hok _ Hin).
Qed.

Lemma main_builds_for_inference_witness :
  let st := mk_state (sample_flags (Some "/data/pets") None) [] in
  ∃ name is_training grayscale,
    get_preprocessing name is_training grayscale
      ∈ new_events st (main (sample_env 5) st).1 ∧
    is_training = false ∧ grayscale = false ∧ name = "lenet".
Proof.
  intros st.
  assert (∃ name is_training grayscale,
            get_preprocessing name is_training grayscale
              ∈ new_events st (main (sample_env 5) st).1)
    as (name & is_training & grayscale & Hin).
  { vm_compute. do 3 eexists.
    repeat first [apply list_elem_of_here | apply list_elem_of_further]. }
  exists name, is_training, grayscale. split; [exact Hin |].
  destruct (main_builds_for_inference (sample_env 5) st _ _
              (surjective_pairing _)) as (_ & Hpre & _).
  exact (Hpre _ _ _ Hin).
Defined.

(** X4.  The graph is rewritten for quantized evaluation only when the
    [quantize] flag is set. *)
Theorem main_quantizes_on_flag_only (E : env) (st st' : state)
    (r : exn + unit) :
  main E st = (st', r) →
  create_eval_graph ∈ new_events st st' →
  quantize (FLAGS st) = true.
Proof.
  intros Hrun Hin.
  pose proof (main_new_events_detail E _ _ _ _ eq_refl Hrun) as Hok.
  rewrite Forall_forall in Hok. exact (Hok _ Hin).
Qed.

Lemma main_quantizes_on_flag_only_witness :
  quantize zero_batch_flags = true.
Proof.
  apply (main_quantizes_on_flag_only (sample_env 5)
           (mk_state zero_batch_flags []) _ _ (surjective_pairing _)).
  vm_compute.
  repeat first [apply list_elem_of_here | apply list_elem_of_further].
Defined.

(** X5.  Every summary [main] writes is a scalar summary of the value of a
    metric of the selected set, named ['evaluation_results/'] followed by
    the metric's key and, possibly, an annotation; the tensor-summary branch
    for the curve metrics is never taken. *)
Theorem main_writes_scalar_summaries (E : env) (st st' : state)
    (r : exn + unit) (ds : dataset) kind name value :
  main E st = (st', r) →
  env_get_dataset E (dataset_name (FLAGS st)) (dataset_split_name (FLAGS st))
    (dataset_dir (FLAGS st)) = inr ds →
  add_summary kind name value ∈ new_events st st' →
  kind = scalar_summary ∧
  ∃ predictions labels logits key m suffix,
    (key, m) ∈ define_metrics ds predictions labels logits ∧
    value = value_op m ∧
    name = "evaluation_results/" +:+ key +:+ suffix.
Proof.
  intros Hrun Hds Hin.
  pose proof (main_new_events_detail E _ _ _ _ eq_refl Hrun) as Hok.
  rewrite Forall_forall in Hok.
  destruct (Hok _ Hin)
    as (-> & ds' & predictions & labels & logits & key & m & suffix & Hds'
        & Hkey & -> & ->).
  rewrite Hds in Hds'. injection Hds' as <-. split; [done |].
  by exists predictions, labels, logits, key, m, suffix.
Qed.

Lemma main_writes_scalar_summaries_witness :
  let st := mk_state (sample_flags (Some "/data/pets") None) [] in
  ∃ kind name value,
    add_summary kind name value ∈ new_events st (main (sample_env 2) st).1 ∧
    kind = scalar_summary.
Proof.
  intros st.
  assert (∃ kind name value,
            add_summary kind name value
              ∈ new_events st (main (sample_env 2) st).1)
    as (kind & name & value & Hin).
  { vm_compute. do 3 eexists.
    repeat first [apply list_elem_of_here | apply list_elem_of_further]. }
  exists kind, name, value. split; [exact Hin |].
  destruct (main_writes_scalar_summaries (sample_env 2) st _ _
              (sample_dataset 2) kind name value (surjective_pairing _)
              eq_refl Hin) as [Hkind _].
  exact Hkind.
Defined.

(** X6.  For a two-class dataset whose class 0 is named [a] and class 1
    is named [b], the ten summaries are all written, and the four counts are
    annotated with the real and the predicted class: TP with [b] and [b],
    TN with [a] and [a], FP with [a] and [b], FN with [b] and [a]. *)
Theorem print_summaries_annotates_counts (ds : dataset)
    (names : gmap Z string) (a b : string)
    (predictions labels logits : tensor) (st : state) :
  ¬ num_classes ds > 2 →
  labels_to_names ds = Some names →
  names !! 0 = Some a → names !! 1 = Some b →
  let run :=
    print_summaries ds
      (aggregate_metric_map
         (define_metrics ds predictions labels logits)).1 st in
  run.2 = inr tt ∧
  summary_names_of (new_events st run.1)
  = [ "evaluation_results/Accuracy"; "evaluation_results/Precision";
      "evaluation_results/Recall"; "evaluation_results/F1_score";
      "evaluation_results/Auc_ROC"; "evaluation_results/Auc_PR";
      "evaluation_results/TP: Real-" +:+ b +:+ ", Pred-" +:+ b;
      "evaluation_results/TN: Real-" +:+ a +:+ ", Pred-" +:+ a;
      "evaluation_results/FP: Real-" +:+ a +:+ ", Pred-" +:+ b;
      "evaluation_results/FN: Real-" +:+ b +:+ ", Pred-" +:+ a ].
Proof.
  intros Hbinary Hnames Ha Hb run. unfold run.
  rewrite (print_summaries_binary_run ds names a b _ st Hbinary Hnames Ha Hb).
  cbn [fst snd]. split; [done |].
  erewrite new_events_app; [| reflexivity].
  unfold define_metrics, aggregate_metric_map.
  rewrite bool_decide_eq_false_2 by done. reflexivity.
Qed.

Lemma print_summaries_annotates_counts_witness :
  summary_names_of
    (trace (print_summaries (sample_dataset 2)
              (aggregate_metric_map
                 (define_metrics (sample_dataset 2) (provider_get "p")
                    (provider_get "l") (provider_get "z"))).1
              (mk_state default_flags [])).1)
  = [ "evaluation_results/Accuracy"; "evaluation_results/Precision";
      "evaluation_results/Recall"; "evaluation_results/F1_score";
      "evaluation_results/Auc_ROC"; "evaluation_results/Auc_PR";
      "evaluation_results/TP: Real-dog, Pred-dog";
      "evaluation_results/TN: Real-cat, Pred-cat";
      "evaluation_results/FP: Real-cat, Pred-dog";
      "evaluation_results/FN: Real-dog, Pred-cat" ].
Proof.
  destruct (print_summaries_annotates_counts (sample_dataset 2)
              {[ 0 := "cat"; 1 := "dog" ]} "cat" "dog" (provider_get "p")
              (provider_get "l") (provider_get "z")
              (mk_state default_flags [])) as [_ Hnames].
  - cbn. lia.
  - reflexivity.
  - by vm_compute.
  - by vm_compute.
  - exact Hnames.
Defined.

(** X7.  A dataset with at most two classes whose [labels_to_names] is
    missing, or lacks class 0 or class 1, cannot be evaluated: [main] ends
    in an error while writing the summaries and the evaluation loop is
    never started. *)
Theorem main_binary_needs_class_names (E : env) (st st' : state)
    (r : exn + unit) (ds : dataset) :
  main E st = (st', r) →
  env_get_dataset E (dataset_name (FLAGS st)) (dataset_split_name (FLAGS st))
    (dataset_dir (FLAGS st)) = inr ds →
  ¬ num_classes ds > 2 →
  (∀ m, labels_to_names ds = Some m → m !! 0 = None ∨ m !! 1 = None) →
  r ≠ inr tt ∧ eval_ops_of (new_events st st') = [].
Proof.
  intros Hrun Hds Hbinary Hnames.
  destruct (main_stops_before_evaluating E (FLAGS st) (λ _, False) st st' r
              eq_refl Hrun) as [Hr Hevs].
  - intros ds' predictions labels logits Hds'.
    rewrite Hds in Hds'. injection Hds' as <-.
    by apply emits_print_summaries_unnamed.
  - by intros ds' _ [].
  - split; [done | by apply eval_ops_of_nil].
Qed.

Lemma main_binary_needs_class_names_witness :
  let run := main unnamed_env
               (mk_state (sample_flags (Some "/data/pets") None) []) in
  run.2 ≠ inr tt ∧ eval_ops_of (trace run.1) = [].
Proof.
  intros run.
  apply (main_binary_needs_class_names unnamed_env
           (mk_state (sample_flags (Some "/data/pets") None) []) run.1 run.2
           (mk_dataset 10 2 None)).
  - exact (surjective_pairing _).
  - reflexivity.
  - cbn. lia.
  - by intros m [=].
Defined.

(** X8.  With a batch size of zero and no cap on the batches, the batch
    count raises [ZeroDivisionError]; [main] then ends in an error and the
    evaluation loop is never started. *)
Theorem main_zero_batch_size (E : env) (st st' : state) (r : exn + unit) :
  batch_size (FLAGS st) = 0 →
  truthy_int (max_num_batches (FLAGS st)) = false →
  main E st = (st', r) →
  (∀ ds s, num_batches (FLAGS st) ds s
           = (s, inl (ZeroDivisionError "float division by zero"))) ∧
  r ≠ inr tt ∧ eval_ops_of (new_events st st') = [].
Proof.
  intros Hsize Hcap Hrun.
  assert (∀ ds s, num_batches (FLAGS st) ds s
                  = (s, inl (ZeroDivisionError "float division by zero")))
    as Hraise.
  { intros ds s. unfold num_batches.
    destruct (max_num_batches (FLAGS st)) as [n|]; rewrite ?Hcap, Hsize; done. }
  split; [exact Hraise |].
  destruct (main_stops_before_evaluating E (FLAGS st) (λ _, True) st st' r
              eq_refl Hrun) as [Hr Hevs].
  - intros ds predictions labels logits _.
    by apply emits_print_summaries_any.
  - intros ds _ _ s s' x HF Hs. rewrite Hraise in Hs.
    injection Hs as <- <-. split; [done |]. split; [| done].
    exists []. by rewrite app_nil_r.
  - split; [done | by apply eval_ops_of_nil].
Qed.

Lemma main_zero_batch_size_witness :
  let run := main (sample_env 5) (mk_state zero_batch_flags []) in
  run.2 ≠ inr tt ∧ eval_ops_of (trace run.1) = [].
Proof.
  intros run.
  apply (main_zero_batch_size (sample_env 5) (mk_state zero_batch_flags [])
           run.1 run.2 eq_refl eq_refl (surjective_pairing _)).
Defined.



End eval_extras.

(** * More of the export pipeline *)

(** ** Rules for [respects] *)

Section respects_rules.
Context {S : Type} (R : S → S → Prop) `{!PreOrder R}.

Lemma respects_ret {A} (a : A) : respects R (mret a : M S A).
Proof. by intros s s' r [= <- <-]. Qed.

Lemma respects_raise {A} (e : exn) : respects R (raise e : M S A).
Proof. by intros s s' r [= <- <-]. Qed.

Lemma respects_lift_result {A} (x : exn + A) : respects R (lift_result x).
Proof. by intros s s' r [= <- <-]. Qed.

Lemma respects_get_state : respects R get_state.
Proof. by intros s s' r [= <- <-]. Qed.

Lemma respects_modify_state (f : S → S) :
  (∀ s, R s (f s)) → respects R (modify_state f).
Proof. intros Hf s s' r [= <- <-]. apply Hf. Qed.

Lemma respects_bind {A B} (c : M S A) (k : A → M S B) :
  respects R c → (∀ a, respects R (k a)) → respects R (c ≫= k).
Proof.
  intros Hc Hk s s' r. unfold mbind, M_MBind, M_bind.
  destruct (c s) as [s1 [e | a]] eqn:Hrun; intros Heq.
  - injection Heq as <- <-. by eapply Hc.
  - trans s1; [by eapply Hc | by eapply Hk].
Qed.

Lemma respects_if {A} (b : bool) (c1 c2 : M S A) :
  respects R c1 → respects R c2 → respects R (if b then c1 else c2).
Proof. by destruct b. Qed.
End respects_rules.

(** ** What the steps of the pipeline leave alone *)

Section exporter_frames.
Import Exporter.

#[global] Instance keeps_bundles_preorder : PreOrder keeps_bundles.
Proof.
  split.
  - by intros w.
  - intros w1 w2 w3 [Hm1 Hd1] [Hm2 Hd2]. split; [congruence | set_solver].
Qed.

Lemma bundles_log (c : call) : respects keeps_bundles (log c).
Proof. by apply respects_modify_state. Qed.

Lemma bundles_in_default_graph {A} (c : M tf_graph A) :
  respects keeps_bundles (in_default_graph c).
Proof.
  intros w w' r. unfold in_default_graph.
  destruct (c (default_graph w)) as [g x]. by intros [= <- <-].
Qed.

Lemma bundles_MakeDirs (path : string) :
  respects keeps_bundles (tf_gfile_MakeDirs path).
Proof.
  apply respects_bind; [apply _ | apply bundles_log |]. intros _.
  apply respects_modify_state. intros w. split; [done |]. cbn. set_solver.
Qed.

Lemma bundles_saver_restore sv prefix :
  respects keeps_bundles (saver_restore sv prefix).
Proof. intros w w' r. rewrite saver_restore_run. by intros [= <- <-]. Qed.

Lemma bundles_saver_save sv session prefix :
  respects keeps_bundles (saver_save sv session prefix).
Proof.
  intros w w' r. rewrite saver_save_run.
  by destruct (save_session sv session); intros [= <- <-].
Qed.

Lemma bundles_next_temp_name : respects keeps_bundles next_temp_name.
Proof.
  intros w w' r. unfold next_temp_name. rewrite bind_get.
  by destruct (temp_names w); intros [= <- <-].
Qed.

Lemma bundles_replace graph current new :
  respects keeps_bundles
    (replace_variable_values_with_moving_averages graph current new).
Proof.
  unfold replace_variable_values_with_moving_averages.
  apply respects_bind; [apply _ | apply respects_lift_result; apply _ |].
  intros read_saver.
  apply respects_bind; [apply _ | apply bundles_saver_restore |].
  intros session.
  apply respects_bind; [apply _ | apply respects_lift_result; apply _ |].
  intros write_saver. apply bundles_saver_save.
Qed.

Lemma bundles_select_checkpoint_to_use use_moving_averages trained :
  respects keeps_bundles
    (select_checkpoint_to_use use_moving_averages trained).
Proof.
  unfold select_checkpoint_to_use.
  apply respects_if; [| apply respects_ret; apply _].
  apply respects_bind; [apply _ | |].
  { unfold os_path_isfile.
    apply respects_bind; [apply _ | apply respects_get_state; apply _ |].
    intros w. apply respects_ret; apply _. }
  intros is_file. apply respects_bind; [apply _ | |].
  { destruct is_file.
    - apply respects_bind; [apply _ | apply bundles_next_temp_name |].
      intros name. apply respects_ret; apply _.
    - apply respects_bind; [apply _ | |];
        [| intros name; apply respects_ret; apply _].
      unfold tempfile_mkdtemp.
      apply respects_bind; [apply _ | apply bundles_next_temp_name |].
      intros name. apply respects_bind; [apply _ | |];
        [| intros _; apply respects_ret; apply _].
      apply respects_modify_state. intros w. split; [done |]. cbn.
      set_solver. }
  intros [version temp].
  apply respects_bind; [apply _ | apply respects_get_state; apply _ |].
  intros w. apply respects_bind; [apply _ | apply bundles_replace |].
  intros _. apply respects_ret; apply _.
Qed.

Lemma bundles_write_graph_and_checkpoint graph_def model_path sv prefix :
  respects keeps_bundles
    (write_graph_and_checkpoint graph_def model_path sv prefix).
Proof.
  unfold write_graph_and_checkpoint.
  apply respects_bind; [apply _ | apply bundles_saver_restore |].
  intros session.
  apply respects_bind; [apply _ | apply bundles_saver_save |].
  intros _. by apply respects_modify_state.
Qed.

Lemma bundles_freeze graph_def sv input_checkpoint names output_graph clear :
  respects keeps_bundles
    (freeze_graph_with_def_protos graph_def sv input_checkpoint names
       output_graph clear).
Proof.
  unfold freeze_graph_with_def_protos.
  apply respects_bind; [apply _ | apply bundles_log |]. intros _.
  apply respects_bind; [apply _ | apply respects_get_state; apply _ |].
  intros w.
  apply respects_if; [apply respects_raise; apply _ |].
  apply respects_if; [apply respects_raise; apply _ |].
  apply respects_bind; [apply _ | apply bundles_saver_restore |].
  intros session. apply respects_bind; [apply _ | |];
    [| intros _; apply respects_ret; apply _].
  apply respects_if; [apply respects_ret; apply _ |].
  by apply respects_modify_state.
Qed.

Lemma bundles_write_frozen_graph path graph_def :
  respects keeps_bundles (write_frozen_graph path graph_def).
Proof. intros w w' r. rewrite write_frozen_graph_run. by intros [= <- <-]. Qed.

(** [_write_saved_model] into a directory that exists: nothing is
    bundled. *)
Lemma _write_saved_model_refuses path trained inputs outputs
    (w w' : world) (r : exn + unit) :
  is_Some (saved_models w !! path) ∨ path ∈ directories w →
  _write_saved_model path trained inputs outputs w = (w', r) →
  r ≠ inr tt ∧ saved_models w' = saved_models w.
Proof.
  intros Hexists. unfold _write_saved_model. rewrite bind_get, bind_run.
  unfold lift_result at 1.
  destruct (Saver (default_graph w) None V2) as [e | sv];
    [by intros [= <- <-] |].
  rewrite bind_run, saver_restore_run.
  destruct (restore_session sv _) as [e | session];
    [by intros [= <- <-] |].
  rewrite bind_run. unfold SavedModelBuilder. rewrite bind_get.
  cbn [saved_models directories add_call].
  rewrite (orb_true_intro _ _
             (match Hexists with
              | or_introl H => or_introl (bool_decide_eq_true_2 _ H)
              | or_intror H => or_intror (bool_decide_eq_true_2 _ H)
              end)).
  by intros [= <- <-].
Qed.
End exporter_frames.

(** ** The graph in front of and behind the model *)

Section exporter_graph.
Import Exporter.

Lemma unary_op_run (op_type : string) (dt : dtype) (x : tensor)
    (g : tf_graph) :
  unary_op op_type dt x g
  = (mk_graph
       (nodes g ++ [mk_node (unique_name g op_type) (Operation op_type)
                      [t_name x] ""])
       (collections g),
     inr (mk_tensor (unique_name g op_type) dt)).
Proof. reflexivity. Qed.

Lemma bind_mret {S A B} (a : A) (k : A → M S B) (s : S) :
  (mret a ≫= k) s = k a s.
Proof. reflexivity. Qed.

Lemma bind_unary_op {B} (op_type : string) (dt : dtype) (x : tensor)
    (k : tensor → M tf_graph B) (g : tf_graph) :
  (unary_op op_type dt x ≫= k) g
  = k (mk_tensor (unique_name g op_type) dt)
      (mk_graph
         (nodes g ++ [mk_node (unique_name g op_type) (Operation op_type)
                        [t_name x] ""])
         (collections g)).
Proof. reflexivity. Qed.

Lemma bind_assoc {S A B C} (c : M S A) (k : A → M S B) (h : B → M S C)
    (s : S) :
  ((c ≫= k) ≫= h) s = (c ≫= λ a, k a ≫= h) s.
Proof.
  unfold mbind, M_MBind, M_bind. by destruct (c s) as [s' [e | a]].
Qed.

(** X10.  [_get_outputs_from_inputs] puts the same nodes in front of every
    model: the cast to float and the central crop and, unless the image size
    is zero, the bilinear resize, the subtraction and the multiplication;
    each is fed by the one before it, the first by the input tensor.  No
    conversion of the image type and no grayscale conversion is added.  The
    model is then built on the float tensor the last of these nodes
    produces. *)
Theorem get_outputs_from_inputs_preprocessing (input_tensors : tensor) (image_size : Z)
    (g : tf_graph) :
  ∃ (added : list node) (images : tensor),
    (∀ model collection,
       _get_outputs_from_inputs input_tensors image_size model collection g
       = (postprocessed ← model_postprocess model images;
          _add_output_tensor_nodes postprocessed collection)
           (mk_graph (nodes g ++ added) (collections g))) ∧
    n_kind <$> added
    = Operation <$> "ToFloat" :: "central_crop"
                    :: (if image_size =? 0 then []
                        else ["ResizeBilinear"; "Sub"; "Mul"]) ∧
    n_inputs <$> added
    = (λ x, [x]) <$> t_name input_tensors :: removelast (n_name <$> added) ∧
    last (n_name <$> added) = Some (t_name images) ∧
    t_dtype images = DT_FLOAT.
Proof.
  assert (∀ model collection,
            _get_outputs_from_inputs input_tensors image_size model
              collection g
            = (image ← unary_op "central_crop" DT_FLOAT
                         (mk_tensor (unique_name g "ToFloat") DT_FLOAT);
               preprocessed_inputs ←
                 (if image_size =? 0 then mret image
                  else image ← unary_op "ResizeBilinear" DT_FLOAT image;
                       image ← unary_op "Sub" DT_FLOAT image;
                       image ← unary_op "Mul" DT_FLOAT image;
                       mret image);
               postprocessed ← model_postprocess model preprocessed_inputs;
               _add_output_tensor_nodes postprocessed collection)
                (mk_graph
                   (nodes g ++ [mk_node (unique_name g "ToFloat")
                                  (Operation "ToFloat")
                                  [t_name input_tensors] ""])
                   (collections g))) as Hrun.
  { intros model collection. unfold _get_outputs_from_inputs.
    rewrite bind_unary_op. unfold model_preprocess.
    rewrite bool_decide_eq_false_2 by (by intros H; apply H).
    change (truthy_float (Some (875 # 1000)%Q)) with true.
    cbn [andb]. rewrite bind_assoc, bind_mret, bind_assoc, bind_mret.
    rewrite bind_assoc. by destruct (image_size =? 0). }
  destruct (image_size =? 0) eqn:Hsize.
  - eexists [_; _], _. split.
    + intros model collection. rewrite Hrun, bind_unary_op, bind_mret.
      cbn [nodes collections]. rewrite <- app_assoc. reflexivity.
    + done.
  - eexists [_; _; _; _; _], _. split.
    + intros model collection. rewrite Hrun, bind_unary_op.
      rewrite bind_assoc, bind_unary_op, bind_assoc, bind_unary_op.
      rewrite bind_assoc, bind_unary_op, bind_mret.
      cbn [nodes collections]. rewrite <- !app_assoc. reflexivity.
    + done.
Qed.

Lemma identity_inr (x : option tensor) (name : string) (g g' : tf_graph)
    (t : tensor) :
  identity x name g = (g', inr t) →
  ∃ t0, x = Some t0 ∧ t_dtype t = t_dtype t0 ∧
        t_name t = unique_name g name ∧
        nodes g' = nodes g ++ [mk_node (unique_name g name)
                                 (Operation "Identity") [t_name t0] ""] ∧
        collections g' = collections g.
Proof.
  destruct x as [t0|]; [| done]. intros [= <- <-]. by exists t0.
Qed.

Lemma _add_output_tensor_nodes_inr postprocessed collection
    (g g' : tf_graph) (outputs : list (string * tensor)) :
  _add_output_tensor_nodes postprocessed collection g = (g', inr outputs) →
  ∃ c l classes logits,
    dict_get postprocessed "classes" = Some c ∧
    dict_get postprocessed "logits" = Some l ∧
    outputs = [("classes", classes); ("logits", logits)] ∧
    t_dtype classes = t_dtype c ∧ t_dtype logits = t_dtype l ∧
    collections g'
    = collections g ++ [(collection, classes); (collection, logits)].
Proof.
  unfold _add_output_tensor_nodes. intros Hrun.
  apply bind_inr in Hrun as (g1 & classes & Hclasses & Hrun).
  apply bind_inr in Hrun as (g2 & logits & Hlogits & Hrun).
  apply identity_inr in Hclasses as (c & Hc & Hdc & _ & _ & Hc1).
  apply identity_inr in Hlogits as (l & Hl & Hdl & _ & _ & Hc2).
  cbn in Hrun. injection Hrun as <- <-.
  exists c, l, classes, logits. split_and!; try done.
  cbn. by rewrite Hc2, Hc1, <- app_assoc.
Qed.

(** X11.  When [_build_model_graph] returns, the placeholder it hands back
    is the node named after the input type, of type uint8 for
    ['image_tensor'] and string for ['encoded_image_string_tensor']; the
    outputs are ['classes'], of type int64, and ['logits'], of type float,
    in this order. *)
Theorem build_model_graph_signature_types (input_type : string)
    (image_size : Z) (model : model_fn)
    (input_shape : option (list (option Z)))
    (output_collection_name : option string)
    (graph_hook_fn : option (M tf_graph unit)) (g g' : tf_graph)
    (outputs : list (string * tensor)) (placeholder_tensor : tensor) :
  _build_model_graph input_type image_size model input_shape
    output_collection_name graph_hook_fn g
  = (g', inr (outputs, placeholder_tensor)) →
  placeholder_tensor
  = mk_tensor (unique_name g input_type)
      (if String.eqb input_type "image_tensor" then DT_UINT8
       else DT_STRING) ∧
  ∃ classes logits,
    outputs = [("classes", classes); ("logits", logits)] ∧
    t_dtype classes = DT_INT64 ∧ t_dtype logits = DT_FLOAT.
Proof.
  unfold _build_model_graph.
  destruct (dict_get input_placeholder_fn_map input_type) as [fn|] eqn:Hfn;
    [| done].
  intros Hrun.
  apply bind_inr in Hrun as (g1 & args & Hargs & Hrun).
  apply bind_inr in Hrun as (g2 & [ph inputs] & Hph & Hrun).
  apply bind_inr in Hrun as (g3 & outs & Houts & Hrun).
  apply bind_inr in Hrun as (g4 & step & _ & Hrun).
  apply bind_inr in Hrun as (g5 & [] & _ & Hrun).
  injection Hrun as <- <- <-. split.
  - assert (g1 = g) as ->.
    { destruct input_shape; [| by injection Hargs].
      by destruct (negb _); [| injection Hargs]. }
    unfold dict_get, input_placeholder_fn_map in Hfn. cbn in Hfn.
    repeat case_decide; simplify_eq/=.
    + by injection Hph as <- <- <-.
    + destruct args; [done |]. by injection Hph as <- <- <-.
  - unfold _get_outputs_from_inputs in Houts.
    apply bind_inr in Houts as (h1 & floats & _ & Houts).
    apply bind_inr in Houts as (h2 & pre & _ & Houts).
    apply bind_inr in Houts as (h3 & post & Hpost & Houts).
    apply _add_output_tensor_nodes_inr in Houts
      as (c & l & classes & logits & Hc & Hl & -> & Hdc & Hdl & _).
    exists classes, logits. split; [done |].
    unfold model_postprocess in Hpost.
    apply bind_inr in Hpost as (k1 & raw & _ & Hpost).
    rewrite bind_unary_op, bind_unary_op in Hpost.
    injection Hpost as <- <-.
    injection Hc as <-. injection Hl as <-. done.
Qed.

(** X12.  [_add_output_tensor_nodes] returns exactly when the dictionary
    holds both ['classes'] and ['logits']; a missing one is a [ValueError]
    and leaves the collections as they were.  When it returns, the two
    outputs have the types of the tensors they copy and both are added,
    ['classes'] first, to the collection of the given name, also when the
    name is [None]. *)
Theorem add_output_tensor_nodes_collects
    (postprocessed_tensors : list (string * tensor))
    (output_collection_name : option string) (g g' : tf_graph)
    (r : exn + list (string * tensor)) :
  _add_output_tensor_nodes postprocessed_tensors output_collection_name g
  = (g', r) →
  match dict_get postprocessed_tensors "classes",
        dict_get postprocessed_tensors "logits" with
  | Some c, Some l =>
      ∃ classes logits,
        r = inr [("classes", classes); ("logits", logits)] ∧
        t_dtype classes = t_dtype c ∧ t_dtype logits = t_dtype l ∧
        collections g'
        = collections g ++ [(output_collection_name, classes);
                            (output_collection_name, logits)]
  | _, _ => (∃ msg, r = inl (ValueError msg)) ∧ collections g' = collections g
  end.
Proof.
  intros Hrun.
  destruct r as [e | outputs].
  - unfold _add_output_tensor_nodes in Hrun.
    destruct (dict_get postprocessed_tensors "classes") as [c|];
      [| injection Hrun as <- <-; by eauto].
    destruct (dict_get postprocessed_tensors "logits") as [l|];
      [| injection Hrun as <- <-; by eauto].
    done.
  - apply _add_output_tensor_nodes_inr in Hrun
      as (c & l & classes & logits & -> & -> & -> & Hdc & Hdl & Hcoll).
    by exists classes, logits.
Qed.
End exporter_graph.

(** ** Moving averages *)

Section moving_averages.
Import Exporter.

Lemma variables_to_restore_lookup (g : tf_graph) (v : string) :
  variables_to_restore g !! v
  = if decide (v ∈ trainable_variables g) then Some (average_name v)
    else if decide (v ∈ global_variables g
                    ∧ v ∉ average_name <$> trainable_variables g)
         then Some v
         else None.
Proof.
  unfold variables_to_restore. rewrite list_to_map_app, lookup_union.
  rewrite !keyed_lookup.
  destruct (decide (v ∈ trainable_variables g)) as [Ht | Ht]; cbn.
  - by destruct (decide (v ∈ _)).
  - destruct (decide (v ∈ filter _ (global_variables g))) as [Hin | Hnin].
    + apply list_elem_of_filter in Hin as [[_ Hshadow] Hglobal].
      by rewrite decide_True.
    + rewrite decide_False; [done |]. intros [Hglobal Hshadow].
      apply Hnin, list_elem_of_filter. by split.
Qed.

(** The substituted checkpoint, key by key. *)
Lemma replace_contents (graph : tf_graph)
    (current_checkpoint_file new_checkpoint_file : string)
    (w w' : world) :
  replace_variable_values_with_moving_averages graph
    current_checkpoint_file new_checkpoint_file w = (w', inr tt) →
  ∃ c ck,
    checkpoints w !! current_checkpoint_file = Some c ∧
    checkpoints w' = <[new_checkpoint_file := ck]> (checkpoints w) ∧
    ∀ v, ck_values ck !! v
         = if decide (v ∈ trainable_variables graph)
           then ck_values c !! average_name v
           else if decide (v ∈ global_variables graph)
                then ck_values c !! v
                else None.
Proof.
  unfold replace_variable_values_with_moving_averages. intros Hrun.
  apply bind_inr in Hrun as (w1 & read_saver & Hread & Hrun).
  apply lift_result_inr in Hread as [-> Hread].
  apply bind_inr in Hrun as (w2 & session & Hrestore & Hrun).
  rewrite saver_restore_run in Hrestore. injection Hrestore as <- Hsession.
  apply bind_inr in Hrun as (w3 & write_saver & Hwrite & Hrun).
  apply lift_result_inr in Hwrite as [-> Hwrite].
  rewrite saver_save_run in Hrun.
  destruct (save_session write_saver session) as [e | ck] eqn:Hsave; [done |].
  injection Hrun as <-.
  destruct (restore_session_found _ _ _ Hsession) as (c & Hc & Hkeys).
  cbn in Hc. exists c, ck. split; [done |]. split; [done |].
  intros v. rewrite Hc in Hsession.
  apply Saver_var_list in Hread.
  apply Saver_identity in Hwrite as [_ Hid].
  unfold save_session in Hsave. case_decide as Hall; [| done].
  injection Hsave as <-. cbn.
  rewrite saved_values_identity;
    [| intros x key; rewrite Hid; by case_decide; intros [=]].
  rewrite Hid.
  rewrite (restore_session_lookup _ _ _ v Hsession).
  rewrite Hread, variables_to_restore_lookup.
  destruct (decide (v ∈ global_variables graph)) as [Hglobal | Hglobal];
    cbn.
  - destruct (decide (v ∈ trainable_variables graph)) as [Ht | Ht];
      [done |].
    destruct (decide (v ∈ global_variables graph
                      ∧ v ∉ average_name <$> trainable_variables graph))
      as [Hown | Hown]; [done |].
    destruct (Hall v v) as [x Hx]; [by rewrite Hid, decide_True |].
    rewrite (restore_session_lookup _ _ _ v Hsession), Hread,
      variables_to_restore_lookup, !decide_False in Hx by done.
    done.
  - rewrite decide_False; [done |].
    intros Ht. by apply Hglobal, trainable_is_global.
Qed.

Lemma replace_missing_shadow (g : tf_graph) (current new : string)
    (w : world) (c : checkpoint) (v : string) :
  checkpoints w !! current = Some c →
  v ∈ trainable_variables g →
  ck_values c !! average_name v = None →
  replace_variable_values_with_moving_averages g current new w
  = (add_call (restore current) w,
     inl (FrameworkError "NotFoundError" "Key not found in checkpoint")).
Proof.
  intros Hc Hv Hmissing.
  pose proof (variables_to_restore_trainable g v Hv) as Hkey.
  unfold replace_variable_values_with_moving_averages.
  rewrite bind_run. unfold lift_result at 1, Saver.
  rewrite bool_decide_eq_false_2
    by (intros Hempty; by rewrite Hempty, lookup_empty in Hkey).
  rewrite bind_run, saver_restore_run, Hc. unfold restore_session.
  rewrite decide_False; [done |].
  intros Hall. destruct (Hall v _ Hkey) as [x Hx]. congruence.
Qed.

Lemma os_path_isfile_run (path : string) (w : world) :
  ∃ is_file, os_path_isfile path w = (w, inr is_file).
Proof. by eexists. Qed.

Lemma next_temp_name_run (w : world) (temp : string) (rest : list string) :
  temp_names w = temp :: rest →
  next_temp_name w = (set_temp_names rest w, inr temp).
Proof.
  intros Htemp. unfold next_temp_name. by rewrite bind_get, Htemp.
Qed.

Lemma select_missing_shadow use_moving_averages trained (w : world)
    (c : checkpoint) (v temp : string) (rest : list string) :
  default false use_moving_averages = true →
  temp_names w = temp :: rest →
  checkpoints w !! trained = Some c →
  v ∈ trainable_variables (default_graph w) →
  ck_values c !! average_name v = None →
  ∃ w',
    select_checkpoint_to_use use_moving_averages trained w
    = (w', inl (FrameworkError "NotFoundError"
                  "Key not found in checkpoint")) ∧
    default_graph w' = default_graph w ∧
    calls w' = calls w ++ [restore trained] ∧
    checkpoints w' = checkpoints w ∧
    graph_files w' = graph_files w ∧
    saved_models w' = saved_models w.
Proof.
  intros Huse Htemp Hc Hv Hmissing. unfold select_checkpoint_to_use.
  rewrite Huse, bind_run.
  destruct (os_path_isfile_run trained w) as [is_file ->].
  rewrite bind_run.
  destruct is_file.
  - unfold tempfile_NamedTemporaryFile_name.
    rewrite bind_run, (next_temp_name_run _ _ _ Htemp).
    cbn [mret M_MRet M_ret]. rewrite bind_get, bind_run.
    rewrite (replace_missing_shadow _ _ _ _ c v); try done.
    by eexists.
  - unfold tempfile_mkdtemp.
    rewrite bind_run, bind_run, (next_temp_name_run _ _ _ Htemp).
    rewrite bind_run. cbn [modify_state mret M_MRet M_ret].
    rewrite bind_get, bind_run.
    rewrite (replace_missing_shadow _ _ _ _ c v); try done.
    by eexists.
Qed.
End moving_averages.

(** ** Exports that stop early *)

Section export_stops.
Import Exporter.

(** X14.  An export with an input type that is not known, or with an input
    shape and an input type other than ['image_tensor'], ends in a
    [ValueError] after it has made the output directory and done nothing
    else: no checkpoint is read, nothing is written, the graph is untouched
    and no temporary name is used. *)
Theorem export_rejects_input_after_making_directory (input_type : string)
    (image_size : Z) (model : model_fn)
    (trained_checkpoint_prefix output_directory : string)
    (input_shape : option (list (option Z)))
    (use_moving_averages : option bool)
    (output_collection_name : option string)
    (additional_output_tensor_names : option (list string))
    (graph_hook_fn : option (M tf_graph unit)) (w : world) :
  (input_type ≠ "image_tensor" ∧
   input_type ≠ "encoded_image_string_tensor") ∨
  (is_Some input_shape ∧ input_type ≠ "image_tensor") →
  ∃ msg w',
    export_inference_graph input_type image_size model
      trained_checkpoint_prefix output_directory input_shape
      use_moving_averages output_collection_name
      additional_output_tensor_names graph_hook_fn w
    = (w', inl (ValueError msg)) ∧
    new_calls w w' = [MakeDirs output_directory] ∧
    directories w' = output_directory :: directories w ∧
    default_graph w' = default_graph w ∧
    checkpoints w' = checkpoints w ∧
    graph_files w' = graph_files w ∧
    saved_models w' = saved_models w ∧
    temp_names w' = temp_names w.
Proof.
  intros Hbad.
  assert (∃ msg, _build_model_graph input_type image_size model input_shape
                   output_collection_name graph_hook_fn (default_graph w)
                 = (default_graph w, inl (ValueError msg))) as [msg Hbuild].
  { unfold _build_model_graph.
    destruct Hbad as [[H1 H2] | [[shape ->] Hne]].
    - rewrite dict_get_unknown_input_type by done. by eexists.
    - destruct (dict_get input_placeholder_fn_map input_type) as [fn|] eqn:Hfn;
        [| by eexists].
      apply mk_is_Some, dict_get_known_input_type in Hfn as [-> | ->];
        [done | by eexists]. }
  exists msg. eexists. split.
  - unfold export_inference_graph.
    rewrite bind_run, tf_gfile_MakeDirs_run. cbn zeta.
    rewrite bind_run. unfold in_default_graph.
    cbn [default_graph set_directories add_call]. rewrite Hbuild.
    reflexivity.
  - split; [by apply new_calls_app |]. done.
Qed.

Lemma refused_bind {A} (path : string) (c : M world A)
    (k : A → M world unit) :
  respects keeps_bundles c →
  (∀ a w w' r,
     is_Some (saved_models w !! path) ∨ path ∈ directories w →
     k a w = (w', r) → r ≠ inr tt ∧ saved_models w' = saved_models w) →
  ∀ w w' r,
    is_Some (saved_models w !! path) ∨ path ∈ directories w →
    (c ≫= k) w = (w', r) → r ≠ inr tt ∧ saved_models w' = saved_models w.
Proof.
  intros Hc Hk w w' r Hexists. rewrite bind_run.
  destruct (c w) as [w1 [e | a]] eqn:Hrun.
  - intros [= <- <-]. split; [done |]. by destruct (Hc _ _ _ Hrun).
  - destruct (Hc _ _ _ Hrun) as [Hmodels Hdirs]. intros Hrest.
    destruct (Hk a w1 w' r) as [Hr Hkept]; [| done |].
    + rewrite Hmodels. destruct Hexists as [? | ?]; [by left |].
      right. by apply Hdirs.
    + split; [done | congruence].
Qed.

(** Whatever makes [SavedModelBuilder] refuse the bundle directory at the
    start of an export still does at its end. *)
Lemma export_refused (input_type : string)
    (image_size : Z) (model : model_fn)
    (trained_checkpoint_prefix output_directory : string)
    (input_shape : option (list (option Z)))
    (use_moving_averages : option bool)
    (output_collection_name : option string)
    (additional_output_tensor_names : option (list string))
    (graph_hook_fn : option (M tf_graph unit)) (w w' : world)
    (r : exn + unit) :
  let saved_model_path := os_path_join output_directory "saved_model" in
  is_Some (saved_models w !! saved_model_path)
  ∨ saved_model_path ∈ directories w →
  export_inference_graph input_type image_size model
    trained_checkpoint_prefix output_directory input_shape
    use_moving_averages output_collection_name
    additional_output_tensor_names graph_hook_fn w = (w', r) →
  r ≠ inr tt ∧ saved_models w' = saved_models w.
Proof.
  intros saved_model_path. revert w w' r. unfold export_inference_graph.
  apply refused_bind; [apply bundles_MakeDirs |]. intros _. cbn zeta.
  apply refused_bind; [apply bundles_in_default_graph |]. intros built.
  apply refused_bind; [apply bundles_select_checkpoint_to_use |].
  intros selected.
  apply refused_bind; [apply respects_get_state; apply _ |]. intros w3.
  apply refused_bind; [apply respects_lift_result; apply _ |]. intros sv.
  apply refused_bind; [apply bundles_write_graph_and_checkpoint |].
  intros _.
  apply refused_bind; [apply respects_lift_result; apply _ |]. intros names.
  apply refused_bind; [apply respects_get_state; apply _ |]. intros w4.
  apply refused_bind; [apply bundles_freeze |]. intros frozen.
  apply refused_bind; [apply bundles_write_frozen_graph |]. intros _.
  intros w w' r. apply _write_saved_model_refuses.
Qed.

(** X20.  An export into an output directory that holds a bundle already,
    at [output_directory/saved_model], never ends normally, and whatever it
    does before it stops, it leaves the bundles as they were.  Hence a
    second export into the directory of a finished one fails. *)
Theorem export_refuses_existing_bundle (input_type : string)
    (image_size : Z) (model : model_fn)
    (trained_checkpoint_prefix output_directory : string)
    (input_shape : option (list (option Z)))
    (use_moving_averages : option bool)
    (output_collection_name : option string)
    (additional_output_tensor_names : option (list string))
    (graph_hook_fn : option (M tf_graph unit)) (w w' : world)
    (r : exn + unit) :
  is_Some (saved_models w !! os_path_join output_directory "saved_model") →
  export_inference_graph input_type image_size model
    trained_checkpoint_prefix output_directory input_shape
    use_moving_averages output_collection_name
    additional_output_tensor_names graph_hook_fn w = (w', r) →
  r ≠ inr tt ∧ saved_models w' = saved_models w.
Proof.
  intros Hbundle Hrun.
  eapply export_refused; [| exact Hrun]. by left.
Qed.

Lemma export_refuses_existing_bundle_witness :
  let first := sample_export "image_tensor" None None None sample_world in
  let second := sample_export "image_tensor" None None None first.1 in
  first.2 = inr tt ∧ second.2 ≠ inr tt ∧
  saved_models second.1 = saved_models first.1.
Proof.
  intros first second. split; [by vm_compute |].
  apply (export_refuses_existing_bundle "image_tensor" 299 sample_model
           "/train/model.ckpt-100" "/export" None None (Some "inference_op")
           None None first.1 second.1 second.2).
  - vm_compute. by eexists.
  - exact (surjective_pairing _).
Defined.

(** X15.  With moving averages requested, a trainable variable of the
    inference graph whose shadow value the trained checkpoint lacks stops
    the export with a [NotFoundError] at the first restore: the output
    directory has been made, and no checkpoint, graph file or bundle is
    written. *)
Theorem export_needs_shadow_values (input_type : string)
    (image_size : Z) (model : model_fn)
    (trained_checkpoint_prefix output_directory : string)
    (input_shape : option (list (option Z)))
    (use_moving_averages : option bool)
    (output_collection_name : option string)
    (additional_output_tensor_names : option (list string))
    (graph_hook_fn : option (M tf_graph unit)) (w : world)
    (c : checkpoint) (g : tf_graph)
    (built : list (string * tensor) * tensor) (v temp : string)
    (rest : list string) :
  default false use_moving_averages = true →
  temp_names w = temp :: rest →
  checkpoints w !! trained_checkpoint_prefix = Some c →
  _build_model_graph input_type image_size model input_shape
    output_collection_name graph_hook_fn (default_graph w)
  = (g, inr built) →
  v ∈ trainable_variables g →
  ck_values c !! average_name v = None →
  ∃ w',
    export_inference_graph input_type image_size model
      trained_checkpoint_prefix output_directory input_shape
      use_moving_averages output_collection_name
      additional_output_tensor_names graph_hook_fn w
    = (w', inl (FrameworkError "NotFoundError"
                  "Key not found in checkpoint")) ∧
    new_calls w w'
    = [MakeDirs output_directory; restore trained_checkpoint_prefix] ∧
    checkpoints w' = checkpoints w ∧
    graph_files w' = graph_files w ∧
    saved_models w' = saved_models w.
Proof.
  intros Huse Htemp Hc Hbuild Hv Hmissing.
  destruct (select_missing_shadow use_moving_averages
              trained_checkpoint_prefix
              (set_default_graph g
                 (set_directories (output_directory :: directories w)
                    (add_call (MakeDirs output_directory) w)))
              c v temp rest Huse Htemp Hc Hv Hmissing)
    as (w' & Hselect & _ & Hcalls & Hcks & Hfiles & Hmodels).
  exists w'. split.
  - unfold export_inference_graph.
    rewrite bind_run, tf_gfile_MakeDirs_run. cbn zeta.
    rewrite bind_run. unfold in_default_graph.
    cbn [default_graph set_directories add_call]. rewrite Hbuild.
    by rewrite bind_run, Hselect.
  - split; [| done]. apply new_calls_app. rewrite Hcalls. cbn.
    by rewrite <- app_assoc.
Qed.

Lemma export_needs_shadow_values_witness :
  ∃ w',
    sample_export "image_tensor" None (Some true) None unaveraged_world
    = (w', inl (FrameworkError "NotFoundError"
                  "Key not found in checkpoint")) ∧
    new_calls unaveraged_world w'
    = [MakeDirs "/export"; restore "/train/model.ckpt-100"] ∧
    checkpoints w' = checkpoints unaveraged_world ∧
    graph_files w' = graph_files unaveraged_world ∧
    saved_models w' = saved_models unaveraged_world.
Proof.
  pose (built := _build_model_graph "image_tensor" 299 sample_model None
                   (Some "inference_op") None
                   (default_graph unaveraged_world)).
  apply (export_needs_shadow_values "image_tensor" 299 sample_model
           "/train/model.ckpt-100" "/export" None (Some true)
           (Some "inference_op") None None unaveraged_world
           (mk_checkpoint V2 {[ "weights" := 7; "global_step" := 100 ]})
           built.1
           (match built.2 with
            | inr x => x
            | inl _ => ([], mk_tensor "" DT_FLOAT)
            end)
           "weights" "/tmp/tmp0" []).
  - reflexivity.
  - reflexivity.
  - vm_compute. reflexivity.
  - vm_compute. reflexivity.
  - vm_compute. apply list_elem_of_here.
  - vm_compute. reflexivity.
Defined.
End export_stops.

(** ** The artifacts of an export that ends normally *)

Section export_summary.
Import Exporter.

Lemma select_checkpoint_contents use_moving_averages trained
    (w w' : world) (selected : write_version * string) (c : checkpoint) :
  select_checkpoint_to_use use_moving_averages trained w
  = (w', inr selected) →
  checkpoints w !! trained = Some c →
  default_graph w' = default_graph w ∧
  graph_files w' = graph_files w ∧
  saved_models w' = saved_models w ∧
  selected.1 = (if default false use_moving_averages then ck_version c
                else V2) ∧
  if default false use_moving_averages
  then ∃ temp rest ck,
         temp_names w = temp :: rest ∧
         selected.2 = temp ∧
         checkpoints w' = <[temp := ck]> (checkpoints w) ∧
         calls w' = calls w ++ [restore trained; save temp] ∧
         ∀ v, ck_values ck !! v
              = if decide (v ∈ trainable_variables (default_graph w))
                then ck_values c !! average_name v
                else if decide (v ∈ global_variables (default_graph w))
                     then ck_values c !! v
                     else None
  else w' = w ∧ selected.2 = trained.
Proof.
  intros Hrun Hc. revert Hrun.
  destruct (default false use_moving_averages) eqn:Huse.
  - unfold select_checkpoint_to_use. rewrite Huse. intros Hrun.
    apply bind_inr in Hrun as (w1 & is_file & Hfile & Hrun).
    unfold os_path_isfile in Hfile. rewrite bind_get in Hfile.
    rewrite Hc in Hfile. injection Hfile as <- Hfile.
    apply bind_inr in Hrun as (w2 & [version temp] & Htemp & Hrun).
    rewrite bind_get in Hrun.
    apply bind_inr in Hrun as (w3 & [] & Hreplace & Hrun).
    injection Hrun as <- <-.
    pose proof (replace_contents _ _ _ _ _ Hreplace)
      as (c' & ck' & Hc' & Hck' & Hvalues).
    apply replace_success in Hreplace as (c0 & ck & _ & -> & _).
    cbn [checkpoints set_checkpoints add_call] in Hck'.
    assert (ck' = ck) as ->.
    { apply (f_equal (λ m, m !! temp)) in Hck'.
      rewrite !lookup_insert_eq in Hck'. congruence. }
    assert (∃ rest dirs,
              temp_names w = temp :: rest ∧
              w2 = set_directories dirs (set_temp_names rest w) ∧
              version = ck_version c)
      as (rest & dirs & Hnames & -> & ->).
    { unfold tempfile_NamedTemporaryFile_name, tempfile_mkdtemp,
        next_temp_name in Htemp.
      destruct is_file; rewrite !bind_run, ?bind_get in Htemp; cbn in Htemp;
        destruct (temp_names w) as [|name rest] eqn:Hnames; try done;
        cbn in Htemp; injection Htemp as <- <- <-.
      - exists rest, (directories w). split; [done |].
        split; [by destruct w | by destruct (ck_version c)].
      - exists rest, (name :: directories w). split; [done |].
        split; [done | by destruct (ck_version c)]. }
    cbn in Hc'. rewrite Hc in Hc'. injection Hc' as <-.
    split_and!; try done.
    exists temp, rest, ck. split_and!; try done.
    cbn. by rewrite <- app_assoc.
  - rewrite select_checkpoint_to_use_plain by done. by intros [= <- <-].
Qed.

Lemma saved_only_globals (g : tf_graph) (version : write_version)
    (sv : saver) (session : gmap string Z) (ck : checkpoint) (v : string) :
  Saver g None version = inr sv →
  save_session sv session = inr ck →
  ck_version ck = version ∧
  (v ∉ global_variables g → ck_values ck !! v = None).
Proof.
  intros [Hversion Hid]%Saver_identity Hsave.
  unfold save_session in Hsave. case_decide; [| done].
  injection Hsave as <-. split; [done |]. intros Hv. cbn.
  rewrite saved_values_identity.
  - by rewrite Hid, decide_False.
  - intros x key. rewrite Hid. by case_decide; intros [=].
Qed.

Lemma restored_is_Some (g : tf_graph) (version : write_version) (sv : saver)
    (ck : checkpoint) (session : gmap string Z) (v : string) :
  Saver g None version = inr sv →
  restore_session sv (Some ck) = inr session →
  v ∈ global_variables g →
  is_Some (ck_values ck !! v).
Proof.
  intros [_ Hid]%Saver_identity Hsession Hv.
  destruct (restore_session_found _ _ _ Hsession) as (ck' & [= <-] & Hkeys).
  apply (Hkeys v). by rewrite Hid, decide_True.
Qed.

(** The frozen graph, node by node. *)
Lemma freeze_all (g : tf_graph) (session : gmap string Z)
    (value : string → option Z) :
  (∀ v, v ∈ global_variables g →
        session !! v = value v ∧ is_Some (value v)) →
  Forall (λ f,
            (∃ n, n ∈ nodes g ∧ is_variable n = false ∧
                  f = mk_node (n_name n) (n_kind n) (n_inputs n) "")
            ∨ (∃ v a, v ∈ global_variables g ∧ value v = Some a ∧
                      f = mk_node v (Const a) [] ""))
    (freeze_node session <$> clear_devices (nodes g)).
Proof.
  intros Hvalues. unfold clear_devices. rewrite <- list_fmap_compose.
  apply Forall_fmap, Forall_forall. intros n Hn. cbn.
  destruct (is_variable n) eqn:Hvar.
  - right.
    assert (n_name n ∈ global_variables g) as Hv.
    { apply list_elem_of_fmap. exists n. split; [done |].
      by apply list_elem_of_filter. }
    destruct (Hvalues _ Hv) as [Hsession [a Ha]].
    exists (n_name n), a. split; [done |]. split; [done |].
    unfold freeze_node. cbn. rewrite Hsession, Ha.
    unfold is_variable in Hvar. by destruct (n_kind n).
  - left. exists n. split; [done |]. split; [done |].
    unfold freeze_node. cbn. unfold is_variable in Hvar.
    by destruct (n_kind n).
Qed.

(** What an export that ends normally leaves behind, step by step. *)
Lemma export_success_contents input_type image_size model trained
    output_directory input_shape use_moving_averages collection additional
    hook (w w' : world) (c : checkpoint) :
  checkpoints w !! trained = Some c →
  export_inference_graph input_type image_size model trained
    output_directory input_shape use_moving_averages collection additional
    hook w = (w', inr tt) →
  let frozen_graph_path :=
    os_path_join output_directory "frozen_inference_graph.pb" in
  let saved_model_path := os_path_join output_directory "saved_model" in
  let model_path := os_path_join output_directory "model.ckpt" in
  let w1 := set_directories (output_directory :: directories w)
              (add_call (MakeDirs output_directory) w) in
  let value g v :=
    if default false use_moving_averages
    then if decide (v ∈ trainable_variables g)
         then ck_values c !! average_name v
         else ck_values c !! v
    else ck_values c !! v in
  ∃ g outputs placeholder_tensor selected w3 ck_model session2 sv3 session3,
    _build_model_graph input_type image_size model input_shape collection
      hook (default_graph w) = (g, inr (outputs, placeholder_tensor)) ∧
    select_checkpoint_to_use use_moving_averages trained
      (set_default_graph g w1) = (w3, inr selected) ∧
    default_graph w' = g ∧
    temp_names w' = temp_names w3 ∧
    checkpoints w' = <[model_path := ck_model]> (checkpoints w3) ∧
    ck_version ck_model = selected.1 ∧
    (∀ v, ck_values ck_model !! v
          = if decide (v ∈ global_variables g) then value g v else None) ∧
    graph_files w' !! frozen_graph_path
    = Some (freeze_node session2 <$> clear_devices (nodes g)) ∧
    (∀ v, v ∈ global_variables g →
          session2 !! v = value g v ∧ is_Some (value g v)) ∧
    saved_models w'
    = <[saved_model_path :=
          mk_saved_model (nodes g) session3 [SERVING]
            DEFAULT_SERVING_SIGNATURE_DEF_KEY PREDICT_METHOD_NAME
            [("inputs", placeholder_tensor)] outputs]> (saved_models w) ∧
    Saver g None V2 = inr sv3 ∧
    restore_session sv3
      ((<[model_path := ck_model]> (checkpoints w3) : gmap _ _) !! trained)
    = inr session3 ∧
    calls w'
    = calls w3
      ++ [ restore selected.2; save model_path;
           freeze_graph_with_def_protos_call selected.2 "classes,logits"
             frozen_graph_path;
           restore selected.2;
           GFile_write frozen_graph_path;
           restore trained;
           SavedModelBuilder_save saved_model_path ].
Proof.
  intros Hc Hrun frozen_graph_path saved_model_path model_path w1 value.
  apply export_inference_graph_success in Hrun
    as (g & outputs & placeholder_tensor & w3 & selected & sv & w4 & names
        & w5 & frozen & Hbuild & Hselect & Hsv & Hwrite & Hnames & Hfreeze
        & Hbundle).
  fold frozen_graph_path saved_model_path model_path w1
    in Hselect, Hwrite, Hfreeze, Hbundle.
  pose proof (select_checkpoint_contents _ _ _ _ _ c Hselect Hc)
    as (Hg3 & Hfiles3 & Hmodels3 & Hversion & Hmode).
  cbn [default_graph set_default_graph] in Hg3.
  cbn [saved_models set_default_graph w1 set_directories add_call]
    in Hmodels3.
  assert (names = "classes,logits") as ->.
  { unfold output_node_names_of in Hnames.
    destruct additional; [done |]. injection Hnames as <-.
    by rewrite (_build_model_graph_keys _ _ _ _ _ _ _ _ _ _ Hbuild). }
  apply write_graph_and_checkpoint_success in Hwrite
    as (session1 & ck_model & Hsession1 & Hsave1 & ->).
  apply freeze_success in Hfreeze as (session2 & Hsession2 & -> & ->);
    [| by apply os_path_join_nonempty].
  apply _write_saved_model_success in Hbundle
    as (sv3 & session3 & Hsv3 & Hsession3 & ->).
  cbn [checkpoints default_graph set_graph_files set_checkpoints add_call]
    in Hsession2, Hsession3, Hsv3.
  rewrite Hg3 in *.
  (* the checkpoint selected for freezing *)
  assert (∃ ck, checkpoints w3 !! selected.2 = Some ck ∧
                ∀ v, v ∈ global_variables g → ck_values ck !! v = value g v)
    as (ck & Hck & Hvalues).
  { unfold value. destruct (default false use_moving_averages).
    - destruct Hmode as (temp & rest & ck & _ & -> & -> & _ & Hvalues).
      exists ck. rewrite lookup_insert_eq. split; [done |].
      intros v Hv. rewrite Hvalues. cbn. by rewrite (decide_True _ _ Hv).
    - destruct Hmode as [-> ->]. by exists c. }
  rewrite Hck in Hsession1.
  pose proof (λ v, saved_only_globals g selected.1 sv session1 ck_model v
                     Hsv Hsave1) as Hmodel.
  assert (∀ v, v ∈ global_variables g →
               ck_values ck_model !! v = value g v) as Hmodel_values.
  { intros v Hv. rewrite <- Hvalues by done. exact (resaved_values g selected.1 sv ck ck_model session1 v Hsv Hsession1 Hsave1 Hv). }
  exists g, outputs, placeholder_tensor, selected, w3, ck_model, session2,
    sv3, session3.
  cbn [default_graph checkpoints graph_files saved_models temp_names calls
    set_saved_models set_graph_files set_checkpoints add_call].
  split_and!.
  - done.
  - done.
  - done.
  - done.
  - done.
  - apply (Hmodel "").
  - intros v. destruct (decide (v ∈ global_variables g)) as [Hv | Hv].
    + by apply Hmodel_values.
    + by apply (Hmodel v).
  - by rewrite lookup_insert_eq, Hg3.
  - intros v Hv.
    assert (∃ ck2,
              (<[model_path := ck_model]> (checkpoints w3) : gmap _ _)
                !! selected.2 = Some ck2 ∧
              ck_values ck2 !! v = value g v) as (ck2 & Hck2 & Hv2).
    { destruct (decide (model_path = selected.2)) as [Heq | Hne].
      - exists ck_model. rewrite Heq, lookup_insert_eq. split; [done |].
        by apply Hmodel_values.
      - exists ck. rewrite lookup_insert_ne by done. split; [done |].
        by apply Hvalues. }
    rewrite Hck2 in Hsession2.
    rewrite (restored_value _ _ _ _ _ v Hsv Hsession2 Hv), Hv2.
    split; [done |]. rewrite <- Hv2.
    exact (restored_is_Some _ _ _ _ _ v Hsv Hsession2 Hv).
  - by rewrite Hmodels3, Hg3.
  - done.
  - done.
  - by rewrite <- !app_assoc.
Qed.
End export_summary.

Section export_artifacts.
Import Exporter.
(** X17.  After an export that ends normally,
    [output_directory/model.ckpt] is a checkpoint of the variables of the
    inference graph and of nothing else: every variable has a value, a
    trainable variable the shadow value of the trained checkpoint when
    moving averages are requested, any other variable, and every variable
    without moving averages, its own value in the trained checkpoint; keys
    of the trained checkpoint that are no variable of the graph are
    dropped.  Its format is version 2 without moving averages and the
    version of the trained checkpoint with them. *)
Theorem export_checkpoint_contents (input_type : string)
    (image_size : Z) (model : model_fn)
    (trained_checkpoint_prefix output_directory : string)
    (input_shape : option (list (option Z)))
    (use_moving_averages : option bool)
    (output_collection_name : option string)
    (additional_output_tensor_names : option (list string))
    (graph_hook_fn : option (M tf_graph unit))
    (w w' : world) (c : checkpoint) :
  checkpoints w !! trained_checkpoint_prefix = Some c →
  export_inference_graph input_type image_size model
    trained_checkpoint_prefix output_directory input_shape
    use_moving_averages output_collection_name
    additional_output_tensor_names graph_hook_fn w = (w', inr tt) →
  let g := default_graph w' in
  ∃ ck,
    checkpoints w' !! os_path_join output_directory "model.ckpt" = Some ck ∧
    ck_version ck
    = (if default false use_moving_averages then ck_version c else V2) ∧
    ∀ v,
      ck_values ck !! v
      = (if decide (v ∈ global_variables g)
         then if default false use_moving_averages
              then if decide (v ∈ trainable_variables g)
                   then ck_values c !! average_name v
                   else ck_values c !! v
              else ck_values c !! v
         else None) ∧
      (v ∈ global_variables g → is_Some (ck_values ck !! v)).
Proof.
  intros Hc Hrun g.
  destruct (export_success_contents _ _ _ _ _ _ _ _ _ _ _ _ c Hc Hrun)
    as (g' & outputs & placeholder_tensor & selected & w3 & ck_model
        & session2 & sv3 & session3 & Hbuild & Hselect & Hg & _ & Hcks
        & Hversion & Hmodel & _ & Hvalues & _).
  fold g in Hg. subst g'. exists ck_model. split_and!.
  - by rewrite Hcks, lookup_insert_eq.
  - rewrite Hversion.
    by destruct (select_checkpoint_contents _ _ _ _ _ c Hselect Hc)
      as (_ & _ & _ & -> & _).
  - intros v. split; [apply Hmodel |]. intros Hv.
    rewrite Hmodel, decide_True by done. by apply Hvalues.
Qed.

(** X18.  After an export that ends normally, the file
    [output_directory/frozen_inference_graph.pb] holds no variable and no
    device: each of its nodes is a node of the inference graph that is not a
    variable, with its device cleared, or a constant named after a variable
    of the graph.  The constant holds the variable's value in the trained
    checkpoint, and for a trainable variable under moving averages the
    shadow value. *)
Theorem export_frozen_constants (input_type : string)
    (image_size : Z) (model : model_fn)
    (trained_checkpoint_prefix output_directory : string)
    (input_shape : option (list (option Z)))
    (use_moving_averages : option bool)
    (output_collection_name : option string)
    (additional_output_tensor_names : option (list string))
    (graph_hook_fn : option (M tf_graph unit))
    (w w' : world) (c : checkpoint) :
  checkpoints w !! trained_checkpoint_prefix = Some c →
  export_inference_graph input_type image_size model
    trained_checkpoint_prefix output_directory input_shape
    use_moving_averages output_collection_name
    additional_output_tensor_names graph_hook_fn w = (w', inr tt) →
  let g := default_graph w' in
  ∃ frozen,
    graph_files w'
      !! os_path_join output_directory "frozen_inference_graph.pb"
    = Some frozen ∧
    Forall (λ f,
              (∃ n, n ∈ nodes g ∧ is_variable n = false ∧
                    f = mk_node (n_name n) (n_kind n) (n_inputs n) "")
              ∨ (∃ v a,
                   v ∈ global_variables g ∧
                   (if default false use_moving_averages
                    then if decide (v ∈ trainable_variables g)
                         then ck_values c !! average_name v
                         else ck_values c !! v
                    else ck_values c !! v) = Some a ∧
                   f = mk_node v (Const a) [] "")) frozen.
Proof.
  intros Hc Hrun g.
  destruct (export_success_contents _ _ _ _ _ _ _ _ _ _ _ _ c Hc Hrun)
    as (g' & outputs & placeholder_tensor & selected & w3 & ck_model
        & session2 & sv3 & session3 & _ & _ & Hg & _ & _ & _ & _ & Hfrozen
        & Hvalues & _).
  fold g in Hg. subst g'. eexists. split; [exact Hfrozen |].
  by apply (freeze_all g session2).
Qed.

(** X16.  Without moving averages, an export that ends normally has made
    exactly these calls, in this order: make the output directory; restore
    the trained checkpoint and save it as [model.ckpt]; freeze with the
    trained checkpoint and the outputs ['classes,logits']; write the frozen
    graph; restore the trained checkpoint once more and save the bundle.  It
    uses no temporary name, makes the output directory and no other, and
    leaves every checkpoint but [model.ckpt] as it was. *)
Theorem export_without_moving_averages (input_type : string)
    (image_size : Z) (model : model_fn)
    (trained_checkpoint_prefix output_directory : string)
    (input_shape : option (list (option Z)))
    (use_moving_averages : option bool)
    (output_collection_name : option string)
    (additional_output_tensor_names : option (list string))
    (graph_hook_fn : option (M tf_graph unit))
    (w w' : world) (c : checkpoint) :
  default false use_moving_averages = false →
  checkpoints w !! trained_checkpoint_prefix = Some c →
  export_inference_graph input_type image_size model
    trained_checkpoint_prefix output_directory input_shape
    use_moving_averages output_collection_name
    additional_output_tensor_names graph_hook_fn w = (w', inr tt) →
  let frozen_graph_path :=
    os_path_join output_directory "frozen_inference_graph.pb" in
  let model_path := os_path_join output_directory "model.ckpt" in
  new_calls w w'
  = [ MakeDirs output_directory;
      restore trained_checkpoint_prefix; save model_path;
      freeze_graph_with_def_protos_call trained_checkpoint_prefix
        "classes,logits" frozen_graph_path;
      restore trained_checkpoint_prefix;
      GFile_write frozen_graph_path;
      restore trained_checkpoint_prefix;
      SavedModelBuilder_save (os_path_join output_directory "saved_model") ] ∧
  temp_names w' = temp_names w ∧
  directories w' = output_directory :: directories w ∧
  ∀ prefix, prefix ≠ model_path →
            checkpoints w' !! prefix = checkpoints w !! prefix.
Proof.
  intros Huse Hc Hrun frozen_graph_path model_path.
  pose proof (export_inference_graph_success _ _ _ _ _ _ _ _ _ _ _ _ Hrun)
    as Hdirs.
  destruct (export_success_contents _ _ _ _ _ _ _ _ _ _ _ _ c Hc Hrun)
    as (g' & outputs & placeholder_tensor & selected & w3 & ck_model
        & session2 & sv3 & session3 & _ & Hselect & _ & Htemp & Hcks & _ & _
        & _ & _ & _ & _ & _ & Hcalls).
  rewrite select_checkpoint_to_use_plain in Hselect by done.
  injection Hselect as <- <-.
  cbn [calls checkpoints temp_names set_default_graph set_directories
    add_call snd] in Hcalls, Hcks, Htemp.
  split_and!.
  - apply new_calls_app. rewrite Hcalls. by rewrite <- app_assoc.
  - done.
  - cbn zeta in Hdirs.
    destruct Hdirs as (g & outs & ph & w3 & selected & sv & w4 & names & w5
                       & frozen & _ & Hselect & _ & Hwrite & _ & Hfreeze
                       & Hbundle).
    rewrite select_checkpoint_to_use_plain in Hselect by done.
    injection Hselect as <- <-.
    apply write_graph_and_checkpoint_success in Hwrite
      as (session1 & ck1 & _ & _ & ->).
    apply freeze_success in Hfreeze as (s2 & _ & -> & ->);
      [| by apply os_path_join_nonempty].
    by apply _write_saved_model_success in Hbundle as (? & ? & _ & _ & ->).
  - intros prefix Hne. by rewrite Hcks, lookup_insert_ne.
Qed.

(** X19.  The bundle is filled from the trained checkpoint, not from the
    checkpoint selected for freezing.  When the trained checkpoint is
    neither overwritten by [model.ckpt] nor stored under a temporary name,
    the variables of the bundle of an export that ends normally are the
    variables of the inference graph, each with its own value in the
    trained checkpoint, also when moving averages are requested. *)
Theorem export_bundle_holds_trained_values (input_type : string)
    (image_size : Z) (model : model_fn)
    (trained_checkpoint_prefix output_directory : string)
    (input_shape : option (list (option Z)))
    (use_moving_averages : option bool)
    (output_collection_name : option string)
    (additional_output_tensor_names : option (list string))
    (graph_hook_fn : option (M tf_graph unit))
    (w w' : world) (c : checkpoint) :
  checkpoints w !! trained_checkpoint_prefix = Some c →
  trained_checkpoint_prefix ≠ os_path_join output_directory "model.ckpt" →
  trained_checkpoint_prefix ∉ temp_names w →
  export_inference_graph input_type image_size model
    trained_checkpoint_prefix output_directory input_shape
    use_moving_averages output_collection_name
    additional_output_tensor_names graph_hook_fn w = (w', inr tt) →
  ∃ bundle,
    saved_models w' !! os_path_join output_directory "saved_model"
    = Some bundle ∧
    ∀ v, sm_variables bundle !! v
         = if decide (v ∈ global_variables (default_graph w'))
           then ck_values c !! v
           else None.
Proof.
  intros Hc Hmodel_path Hfresh Hrun.
  destruct (export_success_contents _ _ _ _ _ _ _ _ _ _ _ _ c Hc Hrun)
    as (g & outputs & placeholder_tensor & selected & w3 & ck_model
        & session2 & sv3 & session3 & _ & Hselect & Hg & _ & _ & _ & _ & _
        & _ & Hmodels & Hsv3 & Hsession3 & _).
  rewrite Hg, Hmodels, lookup_insert_eq. eexists. split; [done |].
  intros v. cbn [sm_variables].
  rewrite lookup_insert_ne in Hsession3 by done.
  assert (checkpoints w3 !! trained_checkpoint_prefix = Some c) as Hc3.
  { destruct (select_checkpoint_contents _ _ _ _ _ c Hselect Hc)
      as (_ & _ & _ & _ & Hmode).
    destruct (default false use_moving_averages).
    - destruct Hmode as (temp & rest & ck & Htemp & _ & -> & _).
      cbn in Htemp. rewrite lookup_insert_ne; [done |].
      intros <-. apply Hfresh. rewrite Htemp. apply list_elem_of_here.
    - by destruct Hmode as [-> _]. }
  rewrite Hc3 in Hsession3.
  rewrite (restore_session_lookup _ _ _ v Hsession3).
  apply Saver_identity in Hsv3 as [_ ->]. by case_decide.
Qed.
End export_artifacts.

(** ** Runs of the pipeline *)

Section export_runs.
Import Exporter.

(** X13.  When [replace_variable_values_with_moving_averages] returns, it
    has restored the current checkpoint once and saved once: a version-2
    checkpoint under the new prefix, and no other checkpoint is touched.
    The new checkpoint holds, for every trainable variable of the graph, the
    value the current checkpoint has under the variable's shadow name, for
    every other variable of the graph the variable's own value, and no
    other key.  The graph is one built for inference: no variable is in the
    collection of moving-average variables, so the trainable variables are
    the averaged ones. *)
Theorem replace_checkpoint_contents (graph : tf_graph)
    (current_checkpoint_file new_checkpoint_file : string)
    (w w' : world) :
  replace_variable_values_with_moving_averages graph
    current_checkpoint_file new_checkpoint_file w = (w', inr tt) →
  ∃ c ck,
    checkpoints w !! current_checkpoint_file = Some c ∧
    checkpoints w' = <[new_checkpoint_file := ck]> (checkpoints w) ∧
    ck_version ck = V2 ∧
    new_calls w w'
    = [restore current_checkpoint_file; save new_checkpoint_file] ∧
    ∀ v, ck_values ck !! v
         = if decide (v ∈ trainable_variables graph)
           then ck_values c !! average_name v
           else if decide (v ∈ global_variables graph)
                then ck_values c !! v
                else None.
Proof.
  intros Hrun.
  destruct (replace_contents _ _ _ _ _ Hrun)
    as (c & ck & Hc & Hck & Hvalues).
  exists c, ck. split; [done |]. split; [done |].
  unfold replace_variable_values_with_moving_averages in Hrun.
  apply bind_inr in Hrun as (w1 & read_saver & Hread & Hrun).
  apply lift_result_inr in Hread as [-> Hread].
  apply bind_inr in Hrun as (w2 & session & Hrestore & Hrun).
  rewrite saver_restore_run in Hrestore. injection Hrestore as <- Hsession.
  apply bind_inr in Hrun as (w3 & write_saver & Hwrite & Hrun).
  apply lift_result_inr in Hwrite as [-> Hwrite].
  rewrite saver_save_run in Hrun.
  destruct (save_session write_saver session) as [e | ck'] eqn:Hsave;
    [done |].
  injection Hrun as <-.
  cbn [checkpoints set_checkpoints add_call] in Hck.
  assert (ck' = ck) as ->.
  { apply (f_equal (λ m, m !! new_checkpoint_file)) in Hck.
    rewrite !lookup_insert_eq in Hck. congruence. }
  split; [| split; [| done]].
  - by destruct (saved_only_globals _ _ _ _ _ "" Hwrite Hsave).
  - apply new_calls_app. cbn. by rewrite <- app_assoc.
Qed.

Lemma replace_checkpoint_contents_witness :
  let g := default_graph
             (sample_export "image_tensor" None None None sample_world).1 in
  ∃ ck,
    checkpoints
      (replace_variable_values_with_moving_averages g
         "/train/model.ckpt-100" "/tmp/averaged" sample_world).1
      !! "/tmp/averaged" = Some ck ∧
    ck_values ck !! "weights" = Some 5 ∧
    ck_values ck !! "global_step" = Some 100 ∧
    ck_values ck !! "weights/ExponentialMovingAverage" = None.
Proof.
  intros g.
  destruct (replace_checkpoint_contents g "/train/model.ckpt-100"
              "/tmp/averaged" sample_world
              (replace_variable_values_with_moving_averages g
                 "/train/model.ckpt-100" "/tmp/averaged" sample_world).1)
    as (c & ck & Hc & Hck & _ & _ & Hvalues).
  - vm_compute. reflexivity.
  - assert (c = sample_checkpoint) as -> by (by injection Hc).
    exists ck. split; [by rewrite Hck, lookup_insert_eq |].
    rewrite !Hvalues. vm_compute. split; [| split]; reflexivity.
Defined.

Lemma build_model_graph_signature_types_witness :
  let run := _build_model_graph "encoded_image_string_tensor" 299
               sample_model None (Some "inference_op") None
               (mk_graph [] []) in
  ∃ outputs classes logits,
    run.2 = inr (outputs,
                 mk_tensor "encoded_image_string_tensor" DT_STRING) ∧
    outputs = [("classes", classes); ("logits", logits)] ∧
    t_dtype classes = DT_INT64 ∧ t_dtype logits = DT_FLOAT.
Proof.
  intros run.
  pose (built := match run.2 with
                 | inr x => x
                 | inl _ => ([], mk_tensor "" DT_FLOAT)
                 end).
  destruct (build_model_graph_signature_types "encoded_image_string_tensor"
              299 sample_model None (Some "inference_op") None
              (mk_graph [] []) run.1 built.1 built.2)
    as (Hph & classes & logits & Houts & Hc & Hl).
  - vm_compute. reflexivity.
  - exists built.1, classes, logits.
    split; [vm_compute; reflexivity |]. split; [exact Houts |].
    split; [exact Hc | exact Hl].
Defined.

Lemma add_output_tensor_nodes_collects_witness :
  let postprocessed := [("logits", mk_tensor "Softmax" DT_FLOAT);
                        ("classes", mk_tensor "ArgMax" DT_INT64)] in
  let run := _add_output_tensor_nodes postprocessed None (mk_graph [] []) in
  let missing := _add_output_tensor_nodes [] None (mk_graph [] []) in
  (∃ classes logits,
     run.2 = inr [("classes", classes); ("logits", logits)] ∧
     t_dtype classes = DT_INT64 ∧ t_dtype logits = DT_FLOAT ∧
     collections run.1 = [(None, classes); (None, logits)]) ∧
  (∃ msg, missing.2 = inl (ValueError msg)) ∧ collections missing.1 = [].
Proof.
  intros postprocessed run missing. split.
  - apply (add_output_tensor_nodes_collects postprocessed None
             (mk_graph [] []) run.1 run.2 (surjective_pairing _)).
  - apply (add_output_tensor_nodes_collects [] None (mk_graph [] [])
             missing.1 missing.2 (surjective_pairing _)).
Defined.

Lemma export_rejects_input_after_making_directory_witness :
  ∃ msg w',
    sample_export "tf_example" None None None sample_world
    = (w', inl (ValueError msg)) ∧
    new_calls sample_world w' = [MakeDirs "/export"] ∧
    directories w' = ["/export"] ∧
    default_graph w' = default_graph sample_world ∧
    checkpoints w' = checkpoints sample_world ∧
    graph_files w' = graph_files sample_world ∧
    saved_models w' = saved_models sample_world ∧
    temp_names w' = temp_names sample_world.
Proof.
  apply (export_rejects_input_after_making_directory "tf_example" 299
           sample_model "/train/model.ckpt-100" "/export" None None
           (Some "inference_op") None None sample_world).
  left. split; discriminate.
Defined.

Lemma export_without_moving_averages_witness :
  let run := sample_export "image_tensor" None None None sample_world in
  new_calls sample_world run.1
  = [ MakeDirs "/export";
      restore "/train/model.ckpt-100"; save "/export/model.ckpt";
      freeze_graph_with_def_protos_call "/train/model.ckpt-100"
        "classes,logits" "/export/frozen_inference_graph.pb";
      restore "/train/model.ckpt-100";
      GFile_write "/export/frozen_inference_graph.pb";
      restore "/train/model.ckpt-100";
      SavedModelBuilder_save "/export/saved_model" ] ∧
  temp_names run.1 = ["/tmp/tmp0"] ∧
  directories run.1 = ["/export"] ∧
  checkpoints run.1 !! "/train/model.ckpt-100" = Some sample_checkpoint.
Proof.
  intros run.
  destruct (export_without_moving_averages "image_tensor" 299 sample_model
              "/train/model.ckpt-100" "/export" None None
              (Some "inference_op") None None sample_world run.1
              sample_checkpoint eq_refl)
    as (Hcalls & Htemp & Hdirs & Hcks).
  - vm_compute. reflexivity.
  - vm_compute. reflexivity.
  - split; [exact Hcalls |]. split; [exact Htemp |]. split; [exact Hdirs |].
    rewrite Hcks; [vm_compute; reflexivity |].
    apply (bool_decide_unpack _). vm_compute. exact I.
Defined.

Lemma export_checkpoint_contents_witness :
  let run := sample_export "image_tensor" None (Some true) None v1_world in
  ∃ ck,
    checkpoints run.1 !! "/export/model.ckpt" = Some ck ∧
    ck_version ck = V1 ∧
    ck_values ck !! "weights" = Some 5 ∧
    ck_values ck !! "global_step" = Some 100 ∧
    ck_values ck !! "weights/ExponentialMovingAverage" = None.
Proof.
  intros run.
  destruct (export_checkpoint_contents "image_tensor" 299 sample_model
              "/train/model.ckpt-100" "/export" None (Some true)
              (Some "inference_op") None None v1_world run.1
              (mk_checkpoint V1 (ck_values sample_checkpoint)))
    as (ck & Hck & Hversion & Hvalues).
  - vm_compute. reflexivity.
  - vm_compute. reflexivity.
  - exists ck. split; [exact Hck |]. split; [exact Hversion |].
    destruct (Hvalues "weights") as [-> _].
    destruct (Hvalues "global_step") as [-> _].
    destruct (Hvalues "weights/ExponentialMovingAverage") as [-> _].
    vm_compute. split; [| split]; reflexivity.
Defined.

Lemma export_frozen_constants_witness :
  let run := sample_export "image_tensor" None (Some true) None
               sample_world in
  ∃ frozen,
    graph_files run.1 !! "/export/frozen_inference_graph.pb" = Some frozen ∧
    Forall (λ f, is_variable f = false ∧ n_device f = "") frozen.
Proof.
  intros run.
  destruct (export_frozen_constants "image_tensor" 299 sample_model
              "/train/model.ckpt-100" "/export" None (Some true)
              (Some "inference_op") None None sample_world run.1
              sample_checkpoint)
    as (frozen & Hfrozen & Hall).
  - vm_compute. reflexivity.
  - vm_compute. reflexivity.
  - exists frozen. split; [exact Hfrozen |].
    apply (Forall_impl _ _ _ Hall).
    intros f [(n & _ & Hvar & ->) | (v & a & _ & _ & ->)].
    + split; [exact Hvar | reflexivity].
    + split; reflexivity.
Defined.

Lemma export_bundle_holds_trained_values_witness :
  let run := sample_export "image_tensor" None (Some true) None
               sample_world in
  ∃ bundle,
    saved_models run.1 !! "/export/saved_model" = Some bundle ∧
    sm_variables bundle !! "weights" = Some 7 ∧
    sm_variables bundle !! "global_step" = Some 100 ∧
    sm_variables bundle !! "weights/ExponentialMovingAverage" = None.
Proof.
  intros run.
  destruct (export_bundle_holds_trained_values "image_tensor" 299
              sample_model "/train/model.ckpt-100" "/export" None (Some true)
              (Some "inference_op") None None sample_world run.1
              sample_checkpoint)
    as (bundle & Hbundle & Hvalues).
  - vm_compute. reflexivity.
  - apply (bool_decide_unpack _). vm_compute. exact I.
  - apply (bool_decide_unpack _). vm_compute. exact I.
  - vm_compute. reflexivity.
  - exists bundle. split; [exact Hbundle |].
    rewrite !Hvalues. vm_compute. split; [| split]; reflexivity.
Defined.
End export_runs.
